(** * aims-io: a shallow embedding of [aims_io.py] and [utils.py]

    The development models the conversion pipeline of the [AimsIO] class
    (control parser, topology parser, trajectory reader, force estimator,
    structure writer) and of [create_csv_from_aims_traj_dump].

    Conventions.
    - Python [str] values are [string]s of ASCII characters.
    - Python [float] and numpy [float64] are the binary64 numbers of
      [PrimFloat]; arithmetic is the IEEE arithmetic of the kernel.
    - A Python call that may raise returns a [result]; the constructor
      [Raise] carries the exception.
    - A dict is a [gmap]. *)

From Stdlib Require Import ZArith List String Ascii Floats Lia Bool.
From Stdlib Require Import DecimalString DecimalPos.
From Stdlib Require OrderedTypeEx Sorted.
From stdpp Require Import base option list gmap strings.

Set Warnings "-inexact-float".

#[local] Open Scope string_scope.
#[local] Open Scope list_scope.

(* ===================================================================== *)
(** * Exceptions and results *)
(* ===================================================================== *)

(** The exceptions that the modelled code can raise.  [ValueError] keeps its
    message, since [write_extxyz] raises one with a message of its own. *)
Inductive exn : Type :=
| IndexError
| KeyError (key : string)
| ValueError (msg : string)
| TypeError (msg : string).

Inductive result (A : Type) : Type :=
| Ok (a : A)
| Raise (e : exn).
Arguments Ok {A} a.
Arguments Raise {A} e.

Definition bind {A B} (r : result A) (k : A -> result B) : result B :=
  match r with
  | Ok a => k a
  | Raise e => Raise e
  end.

Notation "'let*' x ':=' c1 'in' c2" := (bind c1 (fun x => c2))
  (at level 10, x pattern, c1 at level 100, c2 at level 200).

Definition returns {A} (r : result A) : bool :=
  match r with Ok _ => true | Raise _ => false end.

(** [xs[i]] on a Python list. *)
Definition py_index {A} (xs : list A) (i : nat) : result A :=
  match nth_error xs i with
  | Some x => Ok x
  | None => Raise IndexError
  end.

(* ===================================================================== *)
(** * Python string operations *)
(* ===================================================================== *)

Module PyStr.

(** ASCII characters for which [str.isspace] holds: TAB, LF, VT, FF, CR,
    FS, GS, RS, US and SPACE. *)
Definition is_space (c : ascii) : bool :=
  let n := nat_of_ascii c in
  (Nat.leb 9 n && Nat.leb n 13) || (Nat.leb 28 n && Nat.leb n 31) || Nat.eqb n 32.

(** [p in s] *)
Fixpoint contains (p s : string) : bool :=
  String.prefix p s ||
  match s with
  | EmptyString => false
  | String _ s' => contains p s'
  end.

(** [s.startswith(p)] *)
Definition startswith (s p : string) : bool := String.prefix p s.

Fixpoint lstrip (s : string) : string :=
  match s with
  | String c s' => if is_space c then lstrip s' else s
  | EmptyString => EmptyString
  end.

Fixpoint rstrip (s : string) : string :=
  match s with
  | EmptyString => EmptyString
  | String c s' =>
      match rstrip s' with
      | EmptyString => if is_space c then EmptyString else String c EmptyString
      | r => String c r
      end
  end.

(** [s.strip()] *)
Definition strip (s : string) : string := rstrip (lstrip s).

(** [s.lstrip(chars)] for a one-character [chars]. *)
Fixpoint lstrip_char (ch : ascii) (s : string) : string :=
  match s with
  | String c s' => if Ascii.eqb c ch then lstrip_char ch s' else s
  | EmptyString => EmptyString
  end.

(** [s.split()]: the maximal runs of non-whitespace characters. *)
Fixpoint split (s : string) : list string :=
  match s with
  | EmptyString => []
  | String c s' =>
      if is_space c then split s'
      else
        match s' with
        | EmptyString => [String c EmptyString]
        | String c' _ =>
            if is_space c' then String c EmptyString :: split s'
            else
              match split s' with
              | t :: ts => String c t :: ts
              | [] => [String c EmptyString]
              end
        end
  end.

(** [s.split(sep)] for a one-character separator: empty fields are kept. *)
Fixpoint split_on (sep : ascii) (s : string) : list string :=
  match s with
  | EmptyString => [EmptyString]
  | String c s' =>
      if Ascii.eqb c sep then EmptyString :: split_on sep s'
      else
        match split_on sep s' with
        | t :: ts => String c t :: ts
        | [] => [String c EmptyString]
        end
  end.

(** Iterating a text file: the lines, each with its terminating LF (the
    last line may lack it).  The content is the text as [read()] returns
    it, that is, after universal-newline translation. *)
Fixpoint readlines (s : string) : list string :=
  match s with
  | EmptyString => []
  | String c s' =>
      if Ascii.eqb c "010"%char then String c EmptyString :: readlines s'
      else
        match readlines s' with
        | t :: ts => String c t :: ts
        | [] => [String c EmptyString]
        end
  end.

(** ASCII line boundaries of [str.splitlines]: LF, CR (and CR LF), VT,
    FF, FS, GS, RS. *)
Definition is_linebreak (c : ascii) : bool :=
  let n := nat_of_ascii c in
  (Nat.leb 10 n && Nat.leb n 13) || (Nat.leb 28 n && Nat.leb n 30).

(** [s.splitlines()]: the lines without their terminators; CR LF counts
    as one boundary, and a final boundary opens no further line. *)
Fixpoint splitlines (s : string) : list string :=
  match s with
  | EmptyString => []
  | String c s' =>
      if is_linebreak c then
        match s' with
        | String c' s'' =>
            if Ascii.eqb c "013"%char && Ascii.eqb c' "010"%char
            then EmptyString :: splitlines s''
            else EmptyString :: splitlines s'
        | EmptyString => [EmptyString]
        end
      else
        match splitlines s' with
        | t :: ts => String c t :: ts
        | [] => [String c EmptyString]
        end
  end.

(** Every character of [s] satisfies [P]. *)
Fixpoint all_chars (P : ascii -> bool) (s : string) : bool :=
  match s with
  | EmptyString => true
  | String c s' => P c && all_chars P s'
  end.

Definition lower_char (c : ascii) : ascii :=
  let n := nat_of_ascii c in
  if Nat.leb 65 n && Nat.leb n 90 then ascii_of_nat (n + 32) else c.

Fixpoint lower (s : string) : string :=
  match s with
  | EmptyString => EmptyString
  | String c s' => String (lower_char c) (lower s')
  end.

End PyStr.

(* ===================================================================== *)
(** * Python numbers: [int(s)], [float(s)] *)
(* ===================================================================== *)

Module PyNum.

Definition digit_val (c : ascii) : option Z :=
  let n := nat_of_ascii c in
  if Nat.leb 48 n && Nat.leb n 57 then Some (Z.of_nat (n - 48)) else None.

(** The rest of a [digitpart ::= digit (["_"] digit)*] after its first
    digit: [acc] is the value read so far and [n] the number of digits.
    An underscore that no digit follows is left unread. *)
Fixpoint digits_tail (acc : Z) (n : nat) (s : string) : Z * nat * string :=
  match s with
  | String c s' =>
      match digit_val c with
      | Some d => digits_tail (10 * acc + d) (S n) s'
      | None =>
          if Ascii.eqb c "_"%char then
            match s' with
            | String c2 s'' =>
                match digit_val c2 with
                | Some d => digits_tail (10 * acc + d) (S n) s''
                | None => (acc, n, s)
                end
            | EmptyString => (acc, n, s)
            end
          else (acc, n, s)
      end
  | EmptyString => (acc, n, s)
  end.

(** A [digitpart] continuing the value [acc]: at least one digit. *)
Definition digitpart (acc : Z) (s : string) : option (Z * nat * string) :=
  match s with
  | String c s' =>
      match digit_val c with
      | Some d => Some (digits_tail (10 * acc + d) 1 s')
      | None => None
      end
  | EmptyString => None
  end.

(** An optional sign: [true] for "-". *)
Definition sign (s : string) : bool * string :=
  match s with
  | String c s' =>
      if Ascii.eqb c "-"%char then (true, s')
      else if Ascii.eqb c "+"%char then (false, s')
      else (false, s)
  | EmptyString => (false, s)
  end.

(** [int(s)] in base 10. *)
Definition py_int (s : string) : option Z :=
  let '(neg, r) := sign (PyStr.strip s) in
  match digitpart 0 r with
  | Some (v, _, EmptyString) => Some (if neg then (- v)%Z else v)
  | _ => None
  end.

(** The binary64 number nearest to [(-1)^neg * m * 10^e] (ties to even),
    as [float(s)] computes it from the decimal literal. *)
Definition of_decimal (neg : bool) (m : Z) (e : Z) : float :=
  match m with
  | Zpos p =>
      match e with
      | Zneg k =>
          SF2Prim (SFdiv prec emax (S754_finite neg p 0)
                                   (S754_finite false (Pos.pow 10 k) 0))
      | _ =>
          SF2Prim (binary_normalize prec emax
                     ((if neg then Zneg p else Zpos p) * Z.pow 10 e) 0 false)
      end
  | _ => if neg then neg_zero else zero
  end.

(** The optional exponent of a float literal. *)
Definition exponent (s : string) : option (Z * string) :=
  match s with
  | String c s' =>
      if Ascii.eqb (PyStr.lower_char c) "e"%char then
        let '(neg, r) := sign s' in
        match digitpart 0 r with
        | Some (v, _, r') => Some (if neg then (- v)%Z else v, r')
        | None => None
        end
      else Some (0%Z, s)
  | EmptyString => Some (0%Z, s)
  end.

(** [number ::= [digitpart] "." digitpart | digitpart ["."]]: the digits as
    one integer, the number of digits after the point, and the rest. *)
Definition number (s : string) : option (Z * nat * string) :=
  match digitpart 0 s with
  | Some (ip, _, r) =>
      match r with
      | String c r' =>
          if Ascii.eqb c "."%char then
            match digitpart ip r' with
            | Some res => Some res
            | None => Some (ip, O, r')
            end
          else Some (ip, O, r)
      | EmptyString => Some (ip, O, r)
      end
  | None =>
      match s with
      | String c r' =>
          if Ascii.eqb c "."%char then digitpart 0 r' else None
      | EmptyString => None
      end
  end.

(** A [floatnumber]: the digits and the optional exponent, up to the end
    of the string. *)
Definition floatnumber (neg : bool) (r : string) : option float :=
  match number r with
  | Some (m, k, r1) =>
      match exponent r1 with
      | Some (e, EmptyString) => Some (of_decimal neg m (e - Z.of_nat k))
      | _ => None
      end
  | None => None
  end.

(** [float(s)]; [None] stands for [ValueError]. *)
Definition py_float (s : string) : option float :=
  let '(neg, r) := sign (PyStr.strip s) in
  let l := PyStr.lower r in
  if String.eqb l "inf" || String.eqb l "infinity" then
    Some (if neg then neg_infinity else infinity)
  else if String.eqb l "nan" then Some nan
  else floatnumber neg r.

End PyNum.

(** [float(s)] as a call that may raise. *)
Definition float_of_str (s : string) : result float :=
  match PyNum.py_float s with
  | Some x => Ok x
  | None => Raise (ValueError "could not convert string to float")
  end.

(* ===================================================================== *)
(** * The [AimsIO] object *)
(* ===================================================================== *)

(** The fields of the dataclass that the modelled methods read or set.  The
    three [field(init=False)] attributes have no default: they are absent
    ([None]) until a method assigns them. *)
Record AimsIO : Type := mkAimsIO {
  units : string;
  ex_shift : option float;
  atoms_list : option (list string);
  masses : option (gmap string float);
}.

Definition set_ex_shift (self : AimsIO) (x : float) : AimsIO :=
  {| units := units self; ex_shift := Some x;
     atoms_list := atoms_list self; masses := masses self |}.

Definition set_topology (self : AimsIO) (a : list string) (m : gmap string float)
  : AimsIO :=
  {| units := units self; ex_shift := ex_shift self;
     atoms_list := Some a; masses := Some m |}.

(** A freshly constructed object, before [__post_init__] has run. *)
Definition fresh (u : string) : AimsIO :=
  {| units := u; ex_shift := None; atoms_list := None; masses := None |}.

(* ===================================================================== *)
(** * [AimsIO.get_ex_shift] *)
(* ===================================================================== *)

Module Control.

(** The body of the [for line in f] loop; [break] ends the recursion. *)
Fixpoint scan (self : AimsIO) (lines : list string) : result AimsIO :=
  match lines with
  | [] => Ok self
  | line :: rest =>
      if PyStr.contains "ExShift" line then
        let* tok := py_index (PyStr.split line) 0 in
        let* val := py_index (PyStr.split_on "=" tok) 1 in
        let* x := float_of_str val in
        Ok (set_ex_shift self x)
      else scan self rest
  end.

(** [control] is the text of the file [self.path / self.control_dat]. *)
Definition get_ex_shift (self : AimsIO) (control : string) : result AimsIO :=
  scan self (PyStr.readlines control).

(** The control file has no line with the energy-shift key. *)
Definition key_absent (control : string) : Prop :=
  Forall (fun line => PyStr.contains "ExShift" line = false)
         (PyStr.readlines control).

End Control.

(* ===================================================================== *)
(** * numpy arrays *)
(* ===================================================================== *)

Module Numpy.

(** An n-dimensional array: its shape and its elements in C (row-major)
    order, as numpy lays out the arrays that the code creates. *)
Record ndarray (A : Type) : Type := mk_ndarray {
  shape : list nat;
  data : list A;
}.
Arguments mk_ndarray {A} _ _.
Arguments shape {A} _.
Arguments data {A} _.

Definition size_of (sh : list nat) : nat := fold_right Nat.mul 1 sh.

(** The invariant of an array: as many elements as the shape says. *)
Definition wf {A} (a : ndarray A) : Prop :=
  length (data a) = size_of (shape a).

(** [a.shape[0]], which is also [len(a)] for an array of dimension one or
    more. *)
Definition shape0 {A} (a : ndarray A) : result nat :=
  py_index (shape a) 0.

(** [a[i]] for [0 <= i]: the [i]-th sub-array along the first axis. *)
Definition get0 {A} (a : ndarray A) (i : nat) : result (ndarray A) :=
  match shape a with
  | [] => Raise IndexError
  | d :: sh =>
      if Nat.ltb i d then
        Ok (mk_ndarray sh (firstn (size_of sh) (skipn (i * size_of sh) (data a))))
      else Raise IndexError
  end.

(** An elementwise operation with a scalar, such as [a * c] or [a / c]. *)
Definition map {A B} (f : A -> B) (a : ndarray A) : ndarray B :=
  mk_ndarray (shape a) (List.map f (data a)).

(** An elementwise operation [a - b] between arrays of one shape (both
    operands are sub-arrays of the same array wherever the code uses it,
    so that no broadcasting takes place). *)
Definition map2 {A B C} (f : A -> B -> C) (a : ndarray A) (b : ndarray B)
  : ndarray C :=
  mk_ndarray (shape a) (zip_with f (data a) (data b)).

(** [np.array(xs)] for a list of arrays: the arrays stacked along a new
    first axis; the empty list gives an array of shape [(0,)]; arrays of
    different shapes are refused. *)
Definition stack {A} (xs : list (ndarray A)) : result (ndarray A) :=
  match xs with
  | [] => Ok (mk_ndarray [0] [])
  | x :: _ =>
      if forallb (fun y => bool_decide (shape y = shape x)) xs then
        Ok (mk_ndarray (length xs :: shape x) (concat (List.map data xs)))
      else Raise (ValueError "inhomogeneous shape")
  end.

(** [a.reshape(d0, -1, d2)]: the middle dimension is inferred from the
    number of elements.  numpy refuses the call when the product of the
    given dimensions is zero or does not divide the size. *)
Definition reshape_infer {A} (a : ndarray A) (d0 d2 : nat) : result (ndarray A) :=
  let known := d0 * d2 in
  let size := length (data a) in
  if Nat.eqb known 0 || negb (Nat.eqb (size mod known) 0) then
    Raise (ValueError "cannot reshape array")
  else Ok (mk_ndarray [d0; size / known; d2] (data a)).

(** [a.tolist()] for a two- and a three-dimensional array. *)
Fixpoint chunks {A} (n : nat) (k : nat) (xs : list A) : list (list A) :=
  match k with
  | O => []
  | S k' => firstn n xs :: chunks n k' (skipn n xs)
  end.

Definition tolist2 {A} (a : ndarray A) : list (list A) :=
  match shape a with
  | [d0; d1] => chunks d1 d0 (data a)
  | _ => []
  end.

Definition tolist3 {A} (a : ndarray A) : list (list (list A)) :=
  match shape a with
  | [d0; d1; d2] => List.map (chunks d2 d1) (chunks (d1 * d2) d0 (data a))
  | _ => []
  end.

(** [np.array(xss)] for a nested list of depth three with the given inner
    dimensions. *)
Definition of_list3 {A} (d1 d2 : nat) (xs : list (list (list A))) : ndarray A :=
  mk_ndarray [length xs; d1; d2] (concat (List.map (@concat A) xs)).

End Numpy.
Import Numpy.

(* ===================================================================== *)
(** * [AimsIO.calc_forces] *)
(* ===================================================================== *)

Module Forces.

(** One pass of the loop body: the finite difference at [timestep].
    [momenta] has shape (T, atoms, 3); [time] is the one-dimensional
    array of the Time column.  Dividing by a zero of binary64 raises
    nothing in numpy (it warns): the quotient is an infinity or a NaN. *)
Definition force_at (momenta : ndarray float) (time : list float)
    (timestep : nat) : result (ndarray float) :=
  let* m1 := get0 momenta (timestep + 1) in
  let* m0 := get0 momenta timestep in
  let* t1 := py_index time (timestep + 1) in
  let* t0 := py_index time timestep in
  Ok (Numpy.map (fun x => x / (t1 - t0))%float (map2 PrimFloat.sub m1 m0)).

(** The [for timestep in range(...)] loop with [forces.append]. *)
Fixpoint loop (momenta : ndarray float) (time : list float)
    (steps : list nat) (forces : list (ndarray float))
  : result (list (ndarray float)) :=
  match steps with
  | [] => Ok forces
  | timestep :: rest =>
      let* f := force_at momenta time timestep in
      loop momenta time rest (forces ++ [f])
  end.

Definition calc_forces (momenta : ndarray float) (time : list float)
  : result (ndarray float) :=
  let* n := shape0 momenta in
  let* forces := loop momenta time (seq 0 (n - 1)) [] in
  stack forces.

(** The momentum is the same at each of the [T] timesteps. *)
Definition constant_momentum (momenta : ndarray float) (T : nat) : Prop :=
  forall t, t < T -> get0 momenta t = get0 momenta 0.

(** No two consecutive timestamps are equal. *)
Definition distinct_consecutive (time : list float) : Prop :=
  forall t t0 t1,
    nth_error time t = Some t0 -> nth_error time (t + 1) = Some t1 ->
    (t0 =? t1)%float = false.

(** A component that is an infinity or a NaN. *)
Definition inf_or_nan (x : float) : bool := is_infinity x || is_nan x.

End Forces.

(* ===================================================================== *)
(** * What [ase.Atoms] checks *)
(* ===================================================================== *)

Module Ase.

(** [ase.data.chemical_symbols]: the placeholder X and the 118 elements,
    each at the position of its atomic number. *)
Definition chemical_symbols : list string :=
  ["X"; "H"; "He"; "Li"; "Be"; "B"; "C"; "N"; "O"; "F"; "Ne";
   "Na"; "Mg"; "Al"; "Si"; "P"; "S"; "Cl"; "Ar";
   "K"; "Ca"; "Sc"; "Ti"; "V"; "Cr"; "Mn"; "Fe"; "Co"; "Ni"; "Cu"; "Zn";
   "Ga"; "Ge"; "As"; "Se"; "Br"; "Kr";
   "Rb"; "Sr"; "Y"; "Zr"; "Nb"; "Mo"; "Tc"; "Ru"; "Rh"; "Pd"; "Ag"; "Cd";
   "In"; "Sn"; "Sb"; "Te"; "I"; "Xe";
   "Cs"; "Ba"; "La"; "Ce"; "Pr"; "Nd"; "Pm"; "Sm"; "Eu"; "Gd"; "Tb"; "Dy";
   "Ho"; "Er"; "Tm"; "Yb"; "Lu";
   "Hf"; "Ta"; "W"; "Re"; "Os"; "Ir"; "Pt"; "Au"; "Hg";
   "Tl"; "Pb"; "Bi"; "Po"; "At"; "Rn";
   "Fr"; "Ra"; "Ac"; "Th"; "Pa"; "U"; "Np"; "Pu"; "Am"; "Cm"; "Bk"; "Cf";
   "Es"; "Fm"; "Md"; "No"; "Lr";
   "Rf"; "Db"; "Sg"; "Bh"; "Hs"; "Mt"; "Ds"; "Rg"; "Cn";
   "Nh"; "Fl"; "Mc"; "Lv"; "Ts"; "Og"].

Fixpoint number_in (s : string) (table : list string) : option nat :=
  match table with
  | [] => None
  | t :: table' =>
      if String.eqb t s then Some O else option_map S (number_in s table')
  end.

(** [atomic_numbers[s]] *)
Definition atomic_number (s : string) : result nat :=
  match number_in s chemical_symbols with
  | Some z => Ok z
  | None => Raise (KeyError s)
  end.

(** [symbols2numbers(symbols)] for a list of strings. *)
Fixpoint symbols2numbers (symbols : list string) : result (list nat) :=
  match symbols with
  | [] => Ok []
  | s :: rest =>
      let* z := atomic_number s in
      let* zs := symbols2numbers rest in
      Ok (z :: zs)
  end.

(** The text of a natural number, and of a shape as Python prints a
    tuple. *)
Definition str_nat (n : nat) : string :=
  NilEmpty.string_of_uint (Nat.to_uint n).

Fixpoint comma_separated (ds : list nat) : string :=
  match ds with
  | [] => EmptyString
  | [d] => str_nat d
  | d :: rest => str_nat d ++ ", " ++ comma_separated rest
  end.

Definition str_shape (sh : list nat) : string :=
  match sh with
  | [d] => "(" ++ str_nat d ++ ",)"
  | _ => "(" ++ comma_separated sh ++ ")"
  end.

(** The double quote that stands around the name of the array in the
    messages. *)
Definition dq : string := String "034" EmptyString.

Definition wrong_length (len_a len_b : nat) : exn :=
  ValueError ("Array " ++ dq ++ "positions" ++ dq ++ " has wrong length: "
              ++ str_nat len_a ++ " != " ++ str_nat len_b ++ ".").

Definition wrong_shape (sh : list nat) : exn :=
  ValueError ("Array " ++ dq ++ "positions" ++ dq ++ " has wrong shape "
              ++ str_shape sh ++ " != " ++ str_shape (firstn 1 sh ++ [3])
              ++ ".").

(** [self.new_array('positions', a, float, (3,))] once the numbers of
    [natoms] atoms are stored: an array without rows is given the shape
    (0, 3); the number of rows must be the number of atoms, and each row
    must hold three values.  The result is the array that is stored. *)
Definition new_positions (natoms : nat) (a : ndarray float)
  : result (ndarray float) :=
  match shape a with
  | [] => Raise (TypeError "len() of unsized object")
  | d :: _ =>
      let a' := if Nat.eqb d 0 then mk_ndarray [0; 3] (data a) else a in
      if negb (Nat.eqb d natoms) then Raise (wrong_length d natoms)
      else if negb (bool_decide (tl (shape a') = [3])) then
        Raise (wrong_shape (shape a'))
      else Ok a'
  end.

(** [Atoms(positions=positions, symbols=symbols, pbc=False)]: the symbols
    are looked up first, then the positions are stored.  The result is the
    position array of the object. *)
Definition atoms (positions : ndarray float) (symbols : list string)
  : result (ndarray float) :=
  let* numbers := symbols2numbers symbols in
  new_positions (length numbers) positions.

End Ase.

(* ===================================================================== *)
(** * [AimsIO.write_extxyz] *)
(* ===================================================================== *)

Module Writer.

(** What one call of [ase.io.write(..., append=True)] is given to add to
    the file: the [Atoms] object with the results of its
    [SinglePointCalculator].  The record holds the symbols, the position
    array that [Atoms] stores after its checks, and the energy and the
    forces as the calculator keeps them; the text that the extxyz writer
    makes of them is not part of the embedding. *)
Record StructureRecord : Type := mkRecord {
  rec_symbols : list string;
  rec_positions : ndarray float;
  rec_energy : float;
  rec_forces : ndarray float;
  rec_pbc : bool;
}.

(** The message of the error for an unsupported unit system. *)
Definition unsupported (u : string) : exn :=
  ValueError ("Units " ++ u ++ " not supported").

Section WithUnits.

(** [ase.units.Hartree] and [ase.units.Bohr], constants of the ase
    library. *)
Variables Hartree Bohr : float.

(** The [i]-th pass of the loop, evaluated in the order of the code:
    [positions[i] * units.Bohr], the construction of the [Atoms] object
    with its checks, then [energy[i]] and [forces[i]] of the arrays scaled
    beforehand. *)
Definition make_record (positions forces : ndarray float)
    (energy : list float) (atoms : list string) (i : nat)
  : result StructureRecord :=
  let* p := get0 positions i in
  let* stored := Ase.atoms (Numpy.map (fun x => x * Bohr)%float p) atoms in
  let* e := py_index energy i in
  let* f := get0 forces i in
  Ok {| rec_symbols := atoms;
        rec_positions := stored;
        rec_energy := e;
        rec_forces := f;
        rec_pbc := false |}.

(** The loop over [range(forces.shape[0])].  The destination file is
    threaded through: a record appended before a later failure stays in
    the file. *)
Fixpoint write_frames (positions forces : ndarray float)
    (energy : list float) (atoms : list string) (steps : list nat)
    (file : list StructureRecord)
  : list StructureRecord * result unit :=
  match steps with
  | [] => (file, Ok tt)
  | i :: rest =>
      match make_record positions forces energy atoms i with
      | Ok r => write_frames positions forces energy atoms rest (file ++ [r])
      | Raise e => (file, Raise e)
      end
  end.

(** [file] is the content of the destination before the call; the
    result pairs its content after the call with the outcome.  The
    updates [energy *= ...] and [forces *= ...] are in place; the caller
    does not read the two arrays again. *)
Definition write_extxyz (self : AimsIO) (file : list StructureRecord)
    (positions forces : ndarray float) (energy : list float)
    (atoms : list string)
  : list StructureRecord * result unit :=
  if String.eqb (units self) "metal" then
    let energy' := List.map (fun x => x * Hartree)%float energy in
    let forces' := Numpy.map (fun x => x * (Hartree / Bohr))%float forces in
    match shape0 forces' with
    | Ok n => write_frames positions forces' energy' atoms (seq 0 n) file
    | Raise e => (file, Raise e)
    end
  else (file, Raise (unsupported (units self))).

End WithUnits.

End Writer.

(* ===================================================================== *)
(** * [AimsIO.read_trajdump] *)
(* ===================================================================== *)

Module Trajectory.

(** A pandas [DataFrame] as [read_csv] builds it: the column labels and
    the rows of values. *)
Record DataFrame (A : Type) : Type := mkDataFrame {
  columns : list string;
  rows : list (list A);
}.
Arguments mkDataFrame {A} _ _.
Arguments columns {A} _.
Arguments rows {A} _.

(** Every row has one value per column. *)
Definition rectangular {A} (df : DataFrame A) : Prop :=
  Forall (fun r => length r = length (columns df)) (rows df).

(** [df.columns.str.contains(p)] for a pattern without regex operators. *)
Definition columns_contain {A} (df : DataFrame A) (p : string) : list bool :=
  List.map (PyStr.contains p) (columns df).

(** The entries of [row] where the boolean [mask] holds, in their order. *)
Fixpoint select {A} (mask : list bool) (row : list A) : list A :=
  match mask, row with
  | b :: mask', x :: row' =>
      if b then x :: select mask' row' else select mask' row'
  | _, _ => []
  end.

(** [df.loc[:, mask].values] *)
Definition loc_values {A} (df : DataFrame A) (mask : list bool) : ndarray A :=
  mk_ndarray [length (rows df); length (select mask (columns df))]
             (concat (List.map (select mask) (rows df))).

Fixpoint index_of (name : string) (cols : list string) : option nat :=
  match cols with
  | [] => None
  | c :: cols' =>
      if String.eqb c name then Some O
      else option_map S (index_of name cols')
  end.

(** [df[name].values] *)
Definition column_values {A} (df : DataFrame A) (name : string)
  : result (list A) :=
  match index_of name (columns df) with
  | Some j => Ok (omap (fun r => nth_error r j) (rows df))
  | None => Raise (KeyError name)
  end.

Section Reader.

Context {A : Type}.
(** The conversion of [astype(int)]. *)
Variable astype_int : A -> Z.

(** [traj_dump] is the table that [pd.read_csv(file, header=0)]
    returns. *)
Definition read_trajdump (traj_dump : DataFrame A)
  : result (ndarray A * ndarray A * ndarray Z * list A) :=
  let position_indices := columns_contain traj_dump "pos" in
  let momentum_indices := columns_contain traj_dump "mom" in
  let state_indices := columns_contain traj_dump "StateID" in
  let* time := column_values traj_dump "Time" in
  let* positions :=
    reshape_infer (loc_values traj_dump position_indices)
                  (length (rows traj_dump)) 3 in
  let* momenta :=
    reshape_infer (loc_values traj_dump momentum_indices)
                  (length (rows traj_dump)) 3 in
  let states := Numpy.map astype_int (loc_values traj_dump state_indices) in
  Ok (positions, momenta, states, time).

End Reader.

End Trajectory.


(* ===================================================================== *)
(** * [AimsIO.extract_masses_and_symbols] *)
(* ===================================================================== *)

Module Topology.

(** The local variables of the method. *)
Record state : Type := mkState {
  st_masses : gmap string float;
  st_atoms : list string;
  st_element : option string;
  st_reading : bool;
}.

Definition init : state := mkState ∅ [] None false.

(** How one pass of the loop body ends. *)
Inductive flow : Type :=
| Continue (s : state)
| Break.

(** The loop body on one line of the report. *)
Definition step (s : state) (raw : string) : result flow :=
  let line := PyStr.strip raw in
  if PyStr.contains "Propagate until:" line then Ok Break
  else if PyStr.startswith line "Particle #" then
    Ok (Continue (mkState (st_masses s) (st_atoms s) (st_element s) true))
  else if st_reading s then
    if PyStr.contains "Element:" line then
      let* element := py_index (PyStr.split line) 1 in
      Ok (Continue (mkState (st_masses s) (st_atoms s ++ [element])
                            (Some element) (st_reading s)))
    else if PyStr.contains "Mass:" line then
      match st_element s with
      | Some element =>
          let* tok := py_index (PyStr.split line) 1 in
          let* mass := float_of_str tok in
          match st_masses s !! element with
          | Some _ => Ok (Continue s)
          | None =>
              Ok (Continue (mkState (<[element := mass]> (st_masses s))
                                    (st_atoms s) (st_element s) (st_reading s)))
          end
      | None => Ok (Continue s)
      end
    else Ok (Continue s)
  else Ok (Continue s).

Fixpoint scan (s : state) (lines : list string) : result state :=
  match lines with
  | [] => Ok s
  | raw :: rest =>
      let* f := step s raw in
      match f with
      | Continue s' => scan s' rest
      | Break => Ok s
      end
  end.

(** [fms_out] is the text of the file [self.path / self.fms_out]. *)
Definition extract_masses_and_symbols (self : AimsIO) (fms_out : string)
  : result AimsIO :=
  let* s := scan init (PyStr.splitlines fms_out) in
  Ok (set_topology self (st_atoms s) (st_masses s)).

(** ** The reading of the report that the specification describes *)

Definition is_sentinel (raw : string) : bool :=
  PyStr.contains "Propagate until:" (PyStr.strip raw).
Definition is_particle (raw : string) : bool :=
  PyStr.startswith (PyStr.strip raw) "Particle #".
Definition is_element_line (raw : string) : bool :=
  PyStr.contains "Element:" (PyStr.strip raw).
Definition is_mass_line (raw : string) : bool :=
  PyStr.contains "Mass:" (PyStr.strip raw).

(** The lines above the "Propagate until:" marker. *)
Fixpoint before_sentinel (lines : list string) : list string :=
  match lines with
  | [] => []
  | l :: rest => if is_sentinel l then [] else l :: before_sentinel rest
  end.

(** The lines below the first "Particle #" marker. *)
Fixpoint after_first_particle (lines : list string) : list string :=
  match lines with
  | [] => []
  | l :: rest => if is_particle l then rest else after_first_particle rest
  end.

(** The lines strictly between the first "Particle #" marker and the
    "Propagate until:" marker. *)
Definition particle_range (lines : list string) : list string :=
  after_first_particle (before_sentinel lines).

(** The "Element:" lines of a range, in order. *)
Definition element_lines (range : list string) : list string :=
  List.filter is_element_line range.

(** What the parser takes as the symbol of an "Element:" line and as the
    mass of a "Mass:" line: the second token of the line
    ([line.split()[1]]), wherever the "Element:" or "Mass:" token stands in
    the line. *)
Definition symbol_of (raw : string) : option string :=
  nth_error (PyStr.split (PyStr.strip raw)) 1.

Definition mass_of (raw : string) : option float :=
  match nth_error (PyStr.split (PyStr.strip raw)) 1 with
  | Some tok => PyNum.py_float tok
  | None => None
  end.

(** The masses that a range lists, each with the element of the latest
    "Element:" line above it ([current] is the element on entry). *)
Fixpoint mass_entries (current : option string) (range : list string)
  : list (string * float) :=
  match range with
  | [] => []
  | l :: rest =>
      if is_element_line l then
        mass_entries (match symbol_of l with Some e => Some e | None => current end)
                     rest
      else if is_mass_line l then
        match current, mass_of l with
        | Some e, Some m => (e, m) :: mass_entries current rest
        | _, _ => mass_entries current rest
        end
      else mass_entries current rest
  end.

(** The first mass listed for an element. *)
Definition first_seen (entries : list (string * float)) (e : string)
  : option float :=
  match List.find (fun p => String.eqb (fst p) e) entries with
  | Some p => Some (snd p)
  | None => None
  end.

(** A line of the range that the parser can read: a line that begins with
    "Particle #" contains neither "Element:" nor "Mass:"; any other line
    that contains "Element:" has a second token; any remaining line that
    contains "Mass:" has a second token that [float] accepts. *)
Definition well_formed_line (raw : string) : bool :=
  if is_particle raw then negb (is_element_line raw) && negb (is_mass_line raw)
  else if is_element_line raw then
    match symbol_of raw with Some _ => true | None => false end
  else if is_mass_line raw then
    match mass_of raw with Some _ => true | None => false end
  else true.

End Topology.

(* ===================================================================== *)
(** * Python numbers: [str(n)], [repr(x)] *)
(* ===================================================================== *)

Module PyRepr.

#[local] Open Scope Z_scope.

(** The decimal digits of a positive integer. *)
Definition digits_of_pos (p : positive) : string :=
  NilEmpty.string_of_uint (Pos.to_uint p).

(** [str(n)] for an [int]. *)
Definition str_of_Z (n : Z) : string :=
  match n with
  | Z0 => "0"
  | Zpos p => digits_of_pos p
  | Zneg p => String "-" (digits_of_pos p)
  end.

Definition ndigits (p : positive) : Z :=
  Z.of_nat (String.length (digits_of_pos p)).

Fixpoint zeros (n : nat) : string :=
  match n with
  | O => EmptyString
  | S n' => String "0" (zeros n')
  end.

(** The digits without their trailing zeros. *)
Fixpoint strip_zeros (ds : string) : string :=
  match ds with
  | EmptyString => EmptyString
  | String c ds' =>
      match strip_zeros ds' with
      | EmptyString => if Ascii.eqb c "0" then EmptyString else String c EmptyString
      | r => String c r
      end
  end.

(** [decpt] of the positive rational [num / den]: the [k] with
    [10^(k-1) <= num / den < 10^k]. *)
Definition decimal_point (num den : positive) : Z :=
  if Zpos den <=? Zpos num then ndigits (Z.to_pos (Zpos num / Zpos den))
  else 1 - ndigits (Z.to_pos ((Zpos den - 1) / Zpos num)).

(** The format of [repr]: the digit string [ds] stands for
    [0.ds * 10^decpt]; the exponent form is used when [decpt <= -4] or
    [decpt > 16], and a fixed-point form ends in ".0" when it would have
    no fractional digit. *)
Definition format_repr (ds : string) (decpt : Z) : string :=
  let n := Z.of_nat (String.length ds) in
  if (decpt <=? -4) || (16 <? decpt) then
    let exp := decpt - 1 in
    let mant :=
      match ds with
      | String c EmptyString => ds
      | String c rest => String c (String "." rest)
      | EmptyString => ds
      end in
    let e := str_of_Z (Z.abs exp) in
    let sgn := if exp <? 0 then "-" else "+" in
    let e2 := if Z.abs exp <? 10 then String "0" e else e in
    (mant ++ "e" ++ sgn ++ e2)%string
  else if decpt <=? 0 then
    let z := zeros (Z.to_nat (- decpt)) in
    ("0." ++ z ++ ds)%string
  else if decpt <? n then
    let ip := String.substring 0 (Z.to_nat decpt) ds in
    let fp := String.substring (Z.to_nat decpt) (Z.to_nat (n - decpt)) ds in
    (ip ++ "." ++ fp)%string
  else
    let z := zeros (Z.to_nat (decpt - n)) in
    (ds ++ z ++ ".0")%string.

(** The text that [repr] would print for the decimal [v * 10^(k - prec)],
    with its sign; [v] has [prec] digits, or one more when it is a power of
    ten. *)
Definition candidate_text (neg : bool) (k prec : Z) (v : Z) : list string :=
  match v with
  | Zpos p =>
      let sgn := if neg then "-" else "" in
      let body := format_repr (strip_zeros (digits_of_pos p))
                              (k + (ndigits p - prec)) in
      [(sgn ++ body)%string]
  | _ => []
  end.

(** The decimal strings of [prec] significant digits next to the positive
    rational [num / den], the nearer one first (on a tie the even one), each
    as the text that [repr] would print. *)
Definition candidates (neg : bool) (num den : positive) (k : Z) (prec : Z)
  : list string :=
  let sh := prec - k in
  let n := if 0 <=? sh then Zpos num * 10 ^ sh else Zpos num in
  let d := if 0 <=? sh then Zpos den else Zpos den * 10 ^ (- sh) in
  let lo := n / d in
  let r := n mod d in
  let text := candidate_text neg k prec in
  if r =? 0 then text lo
  else
    match 2 * r ?= d with
    | Lt => (text lo ++ text (lo + 1))%list
    | Gt => (text (lo + 1) ++ text lo)%list
    | Eq => if Z.even lo then (text lo ++ text (lo + 1))%list
            else (text (lo + 1) ++ text lo)%list
    end.

(** The first text of a list that [float] reads back as [x]. *)
Fixpoint first_roundtrip (x : float) (texts : list string) : option string :=
  match texts with
  | [] => None
  | t :: rest =>
      match PyNum.py_float t with
      | Some y => if PrimFloat.Leibniz.eqb y x then Some t
                  else first_roundtrip x rest
      | None => first_roundtrip x rest
      end
  end.

(** The exact decimal value of [(-1)^neg * m * 2^e], written with an
    exponent. *)
Definition exact_text (neg : bool) (m : positive) (e : Z) : string :=
  let sgn := if neg then "-" else "" in
  match e with
  | Zneg k =>
      let ds := digits_of_pos (m * 5 ^ k)%positive in
      (sgn ++ (ds ++ String "e" (String "-" (digits_of_pos k))))%string
  | _ =>
      let ds := digits_of_pos (Z.to_pos (Zpos m * 2 ^ e)) in
      (sgn ++ (ds ++ ".0"))%string
  end.

(** [repr(x)], which is also [str(x)]: the shortest decimal string that
    [float] reads back as [x], the nearest to [x] among the shortest.
    Seventeen significant digits always suffice for binary64; the exact
    decimal value closes the search. *)
Definition py_repr (x : float) : string :=
  match Prim2SF x with
  | S754_nan => "nan"
  | S754_infinity s => if s then "-inf" else "inf"
  | S754_zero s => if s then "-0.0" else "0.0"
  | S754_finite s m e =>
      let num := match e with Zneg _ => m | _ => Z.to_pos (Zpos m * 2 ^ e) end in
      let den := match e with Zneg k => (2 ^ k)%positive | _ => 1%positive end in
      let k := decimal_point num den in
      match first_roundtrip x
              (List.flat_map (fun p => candidates s num den k (Z.of_nat p))
                             (seq 1 17)) with
      | Some t => t
      | None => exact_text s m e
      end
  end.

End PyRepr.

(* ===================================================================== *)
(** * The [csv] module, default dialect *)
(* ===================================================================== *)

Module Csv.

Definition CR : ascii := "013"%char.
Definition LF : ascii := "010"%char.
Definition comma : ascii := ","%char.
Definition quote : ascii := "034"%char.

(** The line terminator of the writer. *)
Definition CRLF : string := String CR (String LF EmptyString).

(** Under [QUOTE_MINIMAL] a field is quoted when it holds the delimiter,
    the quote character or a character of the line terminator. *)
Definition is_special (c : ascii) : bool :=
  Ascii.eqb c comma || Ascii.eqb c quote || Ascii.eqb c CR || Ascii.eqb c LF.

Fixpoint has_special (s : string) : bool :=
  match s with
  | EmptyString => false
  | String c s' => is_special c || has_special s'
  end.

(** The content of a quoted field: each quote character is doubled. *)
Fixpoint escape (s : string) : string :=
  match s with
  | EmptyString => EmptyString
  | String c s' =>
      if Ascii.eqb c quote then String quote (String quote (escape s'))
      else String c (escape s')
  end.

Definition write_field (f : string) : string :=
  if has_special f then String quote (escape f ++ String quote EmptyString)
  else f.

Fixpoint join (fields : list string) : string :=
  match fields with
  | [] => EmptyString
  | [f] => f
  | f :: rest => f ++ String comma (join rest)
  end.

(** The text of a record without its terminator; a record of one empty
    field is written as a pair of quotes. *)
Definition row_text (fields : list string) : string :=
  match fields with
  | [EmptyString] => String quote (String quote EmptyString)
  | _ => join (List.map write_field fields)
  end.

(** [writer.writerow(fields)] appends this text to the file. *)
Definition writerow (fields : list string) : string :=
  row_text fields ++ CRLF.

(** The states of the reader. *)
Inductive pstate : Type :=
| StartRecord
| StartField
| InField
| InQuoted
| QuoteInQuoted.

(** The reader on the characters of one line: [field] is the field being
    read. *)
Fixpoint parse (st : pstate) (field : string) (s : string) : list string :=
  match s with
  | EmptyString =>
      match st with
      | StartRecord => []
      | _ => [field]
      end
  | String c s' =>
      match st with
      | StartRecord | StartField =>
          if Ascii.eqb c quote then parse InQuoted field s'
          else if Ascii.eqb c comma then field :: parse StartField EmptyString s'
          else parse InField (field ++ String c EmptyString) s'
      | InField =>
          if Ascii.eqb c comma then field :: parse StartField EmptyString s'
          else parse InField (field ++ String c EmptyString) s'
      | InQuoted =>
          if Ascii.eqb c quote then parse QuoteInQuoted field s'
          else parse InQuoted (field ++ String c EmptyString) s'
      | QuoteInQuoted =>
          if Ascii.eqb c quote then
            parse InQuoted (field ++ String c EmptyString) s'
          else if Ascii.eqb c comma then
            field :: parse StartField EmptyString s'
          else parse InField (field ++ String c EmptyString) s'
      end
  end.

Definition parse_line (line : string) : list string :=
  parse StartRecord EmptyString line.

(** The lines of a file opened with [newline=""]: LF, CR and CR LF end a
    line; the terminators are left out. *)
Fixpoint lines (s : string) : list string :=
  match s with
  | EmptyString => []
  | String c s' =>
      if Ascii.eqb c LF then EmptyString :: lines s'
      else if Ascii.eqb c CR then
        match s' with
        | String c' s'' =>
            if Ascii.eqb c' LF then EmptyString :: lines s''
            else EmptyString :: lines s'
        | EmptyString => [EmptyString]
        end
      else
        match lines s' with
        | t :: ts => String c t :: ts
        | [] => [String c EmptyString]
        end
  end.

(** [csv.reader] on the text of a file in which no quoted field spans
    lines (the fields that [create_csv_from_aims_traj_dump] writes hold no
    line break): one record per line. *)
Definition reader (text : string) : list (list string) :=
  List.map parse_line (lines text).

End Csv.

(* ===================================================================== *)
(** * [create_csv_from_aims_traj_dump] *)
(* ===================================================================== *)

Module Normalizer.

(** A converted field: a Python [int] or [float]. *)
Inductive num : Type :=
| PyInt (n : Z)
| PyFloat (x : float).

(** [str(v)], which the csv writer applies to a field that is not a
    string. *)
Definition str (v : num) : string :=
  match v with
  | PyInt n => PyRepr.str_of_Z n
  | PyFloat x => PyRepr.py_repr x
  end.

Definition int_of_str (s : string) : result Z :=
  match PyNum.py_int s with
  | Some n => Ok n
  | None => Raise (ValueError "invalid literal for int() with base 10")
  end.

(** [float(item) if "." in item else int(item)] *)
Definition convert (item : string) : result num :=
  if PyStr.contains "." item then
    let* x := float_of_str item in Ok (PyFloat x)
  else
    let* n := int_of_str item in Ok (PyInt n).

(** The list comprehension over the fields of a line. *)
Fixpoint convert_all (items : list string) : result (list num) :=
  match items with
  | [] => Ok []
  | item :: rest =>
      let* v := convert item in
      let* vs := convert_all rest in
      Ok (v :: vs)
  end.

(** [line.strip().lstrip("#").split()] *)
Definition header_of (line : string) : list string :=
  PyStr.split (PyStr.lstrip_char "#" (PyStr.strip line)).

(** The loop over the data lines; [out] is the text written so far, which
    stays in the file when a conversion raises. *)
Fixpoint write_rows (data_lines : list string) (out : string)
  : string * result unit :=
  match data_lines with
  | [] => (out, Ok tt)
  | line :: rest =>
      match convert_all (PyStr.split (PyStr.strip line)) with
      | Ok data =>
          write_rows rest (out ++ Csv.writerow (List.map str data))
      | Raise e => (out, Raise e)
      end
  end.

(** [input] is the text of [input_file]; the result pairs the text of
    [output_file] with the outcome.  [readline()] gives the empty string at
    the end of the file. *)
Definition create_csv_from_aims_traj_dump (input : string)
  : string * result unit :=
  let lines := PyStr.readlines input in
  let header := header_of (List.hd EmptyString lines) in
  write_rows (List.tl lines) (Csv.writerow header).

(** ** The two readings that the round trip compares *)

(** A table: the column names and the rows of typed values. *)
Definition table : Type := list string * list (list num).

Fixpoint all_some {X Y} (f : X -> option Y) (xs : list X) : option (list Y) :=
  match xs with
  | [] => Some []
  | x :: rest =>
      match f x, all_some f rest with
      | Some y, Some ys => Some (y :: ys)
      | _, _ => None
      end
  end.

(** A field of the raw table: a float when it contains a decimal point,
    an integer otherwise. *)
Definition typed_field (item : string) : option num :=
  if PyStr.contains "." item then option_map PyFloat (PyNum.py_float item)
  else option_map PyInt (PyNum.py_int item).

(** Parsing the raw whitespace-delimited table directly. *)
Definition parse_raw (input : string) : option table :=
  let lines := PyStr.readlines input in
  match all_some (fun l => all_some typed_field (PyStr.split (PyStr.strip l)))
                 (List.tl lines) with
  | Some rows => Some (header_of (List.hd EmptyString lines), rows)
  | None => None
  end.

(** A number of the comma-delimited table: an integer when the text is an
    integer literal, a float otherwise. *)
Definition read_number (s : string) : option num :=
  match PyNum.py_int s with
  | Some n => Some (PyInt n)
  | None => option_map PyFloat (PyNum.py_float s)
  end.

(** Parsing the normalized table as comma-delimited. *)
Definition parse_csv (text : string) : option table :=
  match Csv.reader text with
  | [] => None
  | header :: records =>
      match all_some (all_some read_number) records with
      | Some rows => Some (header, rows)
      | None => None
      end
  end.

(** The typing of the raw fields of a line. *)
Definition typed_as (item : string) (v : num) : Prop :=
  match v with
  | PyFloat _ => PyStr.contains "." item = true
  | PyInt _ => PyStr.contains "." item = false
  end.

End Normalizer.

(* ===================================================================== *)
(** * Notions used in the statements and proofs *)
(* ===================================================================== *)

(** A binary64 datum that is a number other than zero. *)
Definition nonzero_number (x : spec_float) : Prop :=
  match x with
  | S754_finite _ _ _ | S754_infinity _ => True
  | _ => False
  end.

(** The atom list and the mass map of a state of the topology parser. *)
Definition topology (s : Topology.state) : list string * gmap string float :=
  (Topology.st_atoms s, Topology.st_masses s).

Definition result_map {X Y} (f : X -> Y) (r : result X) : result Y :=
  match r with Ok x => Ok (f x) | Raise e => Raise e end.

(** The value of a digit string read after the value [acc]. *)
Fixpoint uint_val (acc : Z) (d : Decimal.uint) : Z :=
  match d with
  | Decimal.Nil => acc
  | Decimal.D0 l => uint_val (10 * acc + 0) l
  | Decimal.D1 l => uint_val (10 * acc + 1) l
  | Decimal.D2 l => uint_val (10 * acc + 2) l
  | Decimal.D3 l => uint_val (10 * acc + 3) l
  | Decimal.D4 l => uint_val (10 * acc + 4) l
  | Decimal.D5 l => uint_val (10 * acc + 5) l
  | Decimal.D6 l => uint_val (10 * acc + 6) l
  | Decimal.D7 l => uint_val (10 * acc + 7) l
  | Decimal.D8 l => uint_val (10 * acc + 8) l
  | Decimal.D9 l => uint_val (10 * acc + 9) l
  end.

(** What may follow a run of digits: nothing, or a character that is
    neither a digit nor an underscore. *)
Definition stops (rest : string) : Prop :=
  match rest with
  | EmptyString => True
  | String c _ => PyNum.digit_val c = None /\ Ascii.eqb c "_" = false
  end.

Definition is_digit (c : ascii) : bool :=
  match PyNum.digit_val c with Some _ => true | None => false end.

Definition sign_text (neg : bool) : string := if neg then "-" else "".

(** The characters that [repr] and [str] print. *)
Definition repr_char (c : ascii) : bool :=
  is_digit c
  || Ascii.eqb c "." || Ascii.eqb c "e" || Ascii.eqb c "+" || Ascii.eqb c "-"
  || Ascii.eqb c "i" || Ascii.eqb c "n" || Ascii.eqb c "f" || Ascii.eqb c "a".

(** The characters that mark a text as not an integer literal. *)
Definition marker (c : ascii) : bool :=
  Ascii.eqb c "." || Ascii.eqb c "e" || Ascii.eqb c "n".

Fixpoint has_marker (s : string) : bool :=
  match s with
  | EmptyString => false
  | String c s' => marker c || has_marker s'
  end.

(** The characters of an integer literal. *)
Definition int_char (c : ascii) : bool :=
  PyStr.is_space c || is_digit c
  || Ascii.eqb c "_" || Ascii.eqb c "+" || Ascii.eqb c "-".

(** What holds of every text that [repr] may return. *)
Definition repr_text (t : string) : Prop :=
  PyStr.all_chars repr_char t = true /\ has_marker t = true.

(** The states in which the csv reader begins a field. *)
Definition starting (st : Csv.pstate) : Prop :=
  st = Csv.StartRecord \/ st = Csv.StartField.

(** A character that ends no line. *)
Definition no_break (c : ascii) : bool :=
  negb (Ascii.eqb c Csv.CR || Ascii.eqb c Csv.LF).

(** The text of a list of records, each with its terminator. *)
Fixpoint records_text (records : list (list string)) : string :=
  match records with
  | [] => EmptyString
  | r :: rest => (Csv.writerow r ++ records_text rest)%string
  end.

(** The fields of a data line. *)
Definition fields_of (line : string) : list string :=
  PyStr.split (PyStr.strip line).

(* ===================================================================== *)
(** * [AimsIO.__post_init__]: the two parsers *)
(* ===================================================================== *)

Module Init.

(** The first two statements of [__post_init__]: [self.get_ex_shift()],
    then [self.extract_masses_and_symbols()].  [control] and [fms_out] are
    the texts of the two files; an exception of the first call leaves the
    second one unexecuted. *)
Definition parse_inputs (self : AimsIO) (control fms_out : string)
  : result AimsIO :=
  let* s := Control.get_ex_shift self control in
  Topology.extract_masses_and_symbols s fms_out.

End Init.

(* ===================================================================== *)
(** * [AimsIO.read_energy] *)
(* ===================================================================== *)

Module Energy.

(** What [read_energy] can raise: an exception of the model so far, or
    the [AttributeError] of reading [self.ex_shift] when it was never
    assigned (the dataclass declares the field with [field(init=False)]
    and no default, so that only [get_ex_shift] creates it). *)
Inductive raised : Type :=
| Builtin (e : exn)
| AttributeError (attr : string).

(** [str(file).split(".")[-1]]: the text after the last point of the
    path, and the whole path when it holds no point. *)
Definition last_field (file : string) : string :=
  List.last (PyStr.split_on "." file) EmptyString.

(** The name of the energy file next to a trajectory file:
    ["PotEn." + str(file).split(".")[-1]]. *)
Definition poten_name (file : string) : string :=
  "PotEn." ++ last_field file.

Section Table.

Context {A : Type}.

(** A position among [n] columns, as [iloc] reads an integer of an array
    indexer: a negative one counts from the end, one outside of
    [-n .. n-1] is out of bounds. *)
Definition position (n : nat) (j : Z) : option nat :=
  if ((0 <=? j) && (j <? Z.of_nat n))%Z then Some (Z.to_nat j)
  else if ((- Z.of_nat n <=? j) && (j <? 0))%Z then
    Some (Z.to_nat (j + Z.of_nat n))
  else None.

Fixpoint positions_of (n : nat) (idx : list Z) : option (list nat) :=
  match idx with
  | [] => Some []
  | j :: rest =>
      match position n j, positions_of n rest with
      | Some p, Some ps => Some (p :: ps)
      | _, _ => None
      end
  end.

(** The entries of a row at the given positions, in the order of the
    positions. *)
Definition take_columns (js : list nat) (row : list A) : list A :=
  omap (fun j => nth_error row j) js.

(** [df.iloc[:, idx].values] for a one-dimensional integer array [idx]:
    the columns at the positions of [idx], in that order and with
    repetitions; pandas raises [IndexError] when a position is out of
    bounds. *)
Definition iloc_columns (df : Trajectory.DataFrame A) (idx : list Z)
  : result (ndarray A) :=
  match positions_of (length (Trajectory.columns df)) idx with
  | Some js =>
      Ok (mk_ndarray [length (Trajectory.rows df); length js]
                     (concat (List.map (take_columns js) (Trajectory.rows df))))
  | None => Raise IndexError
  end.

End Table.

(** [poten_dump] is the table that [pd.read_table(file, sep="\s+",
    header=0)] returns; [state] is the one-dimensional integer array that
    the caller passes ([states[0]]).  The columns are selected first, and
    [self.ex_shift] is read afterwards. *)
Definition read_energy (self : AimsIO)
    (poten_dump : Trajectory.DataFrame float) (state : list Z)
  : ndarray float + raised :=
  match iloc_columns poten_dump state with
  | Raise e => inr (Builtin e)
  | Ok energies =>
      match ex_shift self with
      | Some shift => inl (Numpy.map (fun x => x - shift)%float energies)
      | None => inr (AttributeError "ex_shift")
      end
  end.

End Energy.

(* ===================================================================== *)
(** * [AimsIO.gen_extxyz_for_trajdump_files] *)
(* ===================================================================== *)

Module Pipeline.

(** [s.endswith(p)]: some suffix of [s] is [p]. *)
Fixpoint endswith (s p : string) : bool :=
  String.eqb s p ||
  match s with
  | EmptyString => false
  | String _ s' => endswith s' p
  end.

(** [file.name.endswith(("csv", "extxyz"))] *)
Definition is_output (name : string) : bool :=
  endswith name "csv" || endswith name "extxyz".

(** The names that the pattern ["TrajDump*"] matches. *)
Definition matches_pattern (name : string) : bool :=
  PyStr.startswith name "TrajDump".

(** [sorted] on the paths of one directory, which compare as their names
    do, character by character. *)
Fixpoint insert (x : string) (l : list string) : list string :=
  match l with
  | [] => [x]
  | y :: l' => if String.ltb y x then y :: insert x l' else x :: y :: l'
  end.

Definition sorted (l : list string) : list string := fold_right insert [] l.

(** The files that the loop converts, in the order of the loop: the
    entries of [self.path] that match the pattern, sorted, without those
    whose name ends in "csv" or "extxyz". *)
Definition files_to_convert (entries : list string) : list string :=
  List.filter (fun name => negb (is_output name))
              (sorted (List.filter matches_pattern entries)).

(** [file.name + ".csv"], the name of the table that
    [create_csv_from_aims_traj_dump] writes. *)
Definition csv_name (name : string) : string := name ++ ".csv".

(** [file.name + f"-state-{states[0][0]}.extxyz"] *)
Definition extxyz_name (name : string) (state : Z) : string :=
  name ++ "-state-" ++ PyRepr.str_of_Z state ++ ".extxyz".

(** [states[0][0]] on the two-dimensional array of the state columns. *)
Definition first_state (states : ndarray Z) : result Z :=
  let* row := get0 states 0 in
  let* cell := get0 row 0 in
  py_index (data cell) 0.

Section Naming.

Context {A : Type}.
Variable astype_int : A -> Z.

(** The name of the structure file of one trajectory: the statements
    [positions, momenta, states, time = self.read_trajdump(file)] and
    [filename = ...] of the loop body. *)
Definition output_name (name : string) (traj_dump : Trajectory.DataFrame A)
  : result string :=
  let* (_, _, states, _) := Trajectory.read_trajdump astype_int traj_dump in
  let* s := first_state states in
  Ok (extxyz_name name s).

End Naming.

End Pipeline.

(* ===================================================================== *)
(** * Further notions used in the statements and proofs *)
(* ===================================================================== *)

(** A state of the topology parser in which the masses are keyed by
    listed atoms, and the current element is a listed atom. *)
Definition keys_listed (s : Topology.state) : Prop :=
  (forall e, is_Some (Topology.st_masses s !! e) -> In e (Topology.st_atoms s))
  /\ (forall e, Topology.st_element s = Some e -> In e (Topology.st_atoms s)).

(** The order of the file names: [a] is not after [b]. *)
Definition not_after (a b : string) : Prop := String.ltb b a = false.

(** What a pass of the writer's loop can raise: the [IndexError] of an
    index out of range, or an exception of the [Atoms] constructor. *)
Definition writer_error (e : exn) : Prop :=
  e = IndexError
  \/ (exists s, e = KeyError s)
  \/ (exists m, e = TypeError m)
  \/ (exists a b, e = Ase.wrong_length a b)
  \/ (exists sh, e = Ase.wrong_shape sh).

(** The first character of a text. *)
Definition first_char (s : string) : option ascii :=
  match s with
  | EmptyString => None
  | String c _ => Some c
  end.

(* ===================================================================== *)
(** * Facts of binary64 arithmetic *)
(* ===================================================================== *)

Section FloatFacts.

#[local] Open Scope float_scope.

Lemma SFcompare_refl (x : spec_float) :
  x <> S754_nan -> SFcompare x x = Some Eq.
Proof.
  destruct x as [s|s| |s m e]; simpl; intros H; try congruence.
  - destruct s; reflexivity.
  - rewrite Z.compare_refl, Pos.compare_cont_refl. destruct s; reflexivity.
Qed.

Lemma is_nan_spec (x : float) :
  is_nan x = true <-> Prim2SF x = S754_nan.
Proof.
  unfold is_nan. rewrite FloatAxioms.eqb_spec. unfold SFeqb.
  destruct (Prim2SF x) as [s|s| |s m e] eqn:E.
  4: rewrite SFcompare_refl by discriminate.
  1,2: rewrite SFcompare_refl by discriminate.
  all: simpl; split; congruence.
Qed.

Lemma is_zero_spec (x : float) :
  is_zero x = true <-> exists s, Prim2SF x = S754_zero s.
Proof.
  unfold is_zero. rewrite FloatAxioms.eqb_spec. unfold SFeqb.
  change (Prim2SF zero) with (S754_zero false).
  destruct (Prim2SF x) as [s|s| |s m e]; simpl.
  - split; [eauto | reflexivity].
  - destruct s; split; try discriminate; intros [s' H]; discriminate.
  - split; try discriminate; intros [s' H]; discriminate.
  - destruct s; split; try discriminate; intros [s' H]; discriminate.
Qed.

Lemma is_infinity_spec (x : float) :
  is_infinity x = true <-> exists s, Prim2SF x = S754_infinity s.
Proof.
  unfold is_infinity. rewrite FloatAxioms.eqb_spec, abs_spec. unfold SFeqb.
  change (Prim2SF infinity) with (S754_infinity false).
  destruct (Prim2SF x) as [s|s| |s m e]; simpl.
  - split; try discriminate; intros [s' H]; discriminate.
  - split; [eauto | reflexivity].
  - split; try discriminate; intros [s' H]; discriminate.
  - split; try discriminate; intros [s' H]; discriminate.
Qed.

(** A finite number is a zero or has a mantissa and an exponent. *)
Lemma is_finite_spec (x : float) :
  is_finite x = true <->
  (exists s, Prim2SF x = S754_zero s) \/ (exists s m e, Prim2SF x = S754_finite s m e).
Proof.
  unfold is_finite.
  destruct (is_nan x) eqn:En; [apply is_nan_spec in En|].
  { simpl. rewrite En. split; [discriminate|].
    intros [[s H]|(s & m & e & H)]; discriminate. }
  destruct (is_infinity x) eqn:Ei; [apply is_infinity_spec in Ei|].
  { simpl. destruct Ei as [s ->]. split; [discriminate|].
    intros [[s' H]|(s' & m & e & H)]; discriminate. }
  simpl. split; [intros _|reflexivity].
  destruct (Prim2SF x) as [s|s| |s m e] eqn:E.
  - left; eauto.
  - exfalso. assert (is_infinity x = true) by (apply is_infinity_spec; eauto).
    congruence.
  - exfalso. assert (is_nan x = true) by (apply is_nan_spec; exact E). congruence.
  - right; eauto.
Qed.

(** [x - x] is [+0.0] for a finite [x]. *)
Lemma sub_diag_finite (x : float) :
  is_finite x = true -> x - x = zero.
Proof.
  intros H. apply Prim2SF_inj. rewrite sub_spec.
  change (Prim2SF zero) with (S754_zero false).
  apply is_finite_spec in H. destruct H as [[s ->]|(s & m & e & ->)].
  - destruct s; reflexivity.
  - unfold SF64sub, SFsub. rewrite Z.sub_diag. reflexivity.
Qed.

(** Dividing by a zero gives an infinity or a NaN, and raises nothing. *)
Lemma div_by_zero (x d : float) :
  is_zero d = true -> is_infinity (x / d) || is_nan (x / d) = true.
Proof.
  intros H. apply is_zero_spec in H. destruct H as [sd Hd].
  apply orb_true_iff.
  destruct (Prim2SF x) as [s|s| |s m e] eqn:E.
  - right. apply is_nan_spec. rewrite div_spec, E, Hd. reflexivity.
  - left. apply is_infinity_spec. rewrite div_spec, E, Hd. simpl. eauto.
  - right. apply is_nan_spec. rewrite div_spec, E, Hd. reflexivity.
  - left. apply is_infinity_spec. rewrite div_spec, E, Hd. simpl. eauto.
Qed.

Lemma div_by_nan (x d : float) :
  is_nan d = true -> is_nan (x / d) = true.
Proof.
  intros H. apply is_nan_spec in H. apply is_nan_spec.
  rewrite div_spec, H. destruct (Prim2SF x); reflexivity.
Qed.

(** A zero divided by anything but a zero or a NaN is a zero. *)
Lemma zero_div (n d : float) :
  is_zero n = true -> is_zero d = false -> is_nan d = false ->
  is_zero (n / d) = true.
Proof.
  intros Hn Hz Hnan. apply is_zero_spec in Hn. destruct Hn as [sn Hn].
  apply is_zero_spec. rewrite div_spec, Hn.
  destruct (Prim2SF d) as [s|s| |s m e] eqn:E.
  - exfalso. assert (is_zero d = true) by (apply is_zero_spec; eauto). congruence.
  - simpl. eauto.
  - exfalso. assert (is_nan d = true) by (apply is_nan_spec; exact E). congruence.
  - simpl. eauto.
Qed.

Lemma compare_cont_Eq (m1 m2 : positive) :
  Pos.compare_cont Eq m1 m2 = Eq -> m1 = m2.
Proof. apply Pos.compare_eq. Qed.

(** Two numbers that compare equal are both zeros, the same infinity, or
    the same finite number. *)
Lemma SFeqb_true (x y : spec_float) :
  SFeqb x y = true ->
  (exists s s', x = S754_zero s /\ y = S754_zero s')
  \/ (exists s, x = S754_infinity s /\ y = S754_infinity s)
  \/ (exists s m e, x = S754_finite s m e /\ y = S754_finite s m e).
Proof.
  unfold SFeqb.
  destruct x as [s|s| |s m e], y as [s'|s'| |s' m' e']; simpl;
    try (destruct s); try (destruct s'); simpl; try discriminate;
    try (intros _; left; eauto; fail);
    try (intros _; right; left; eauto; fail);
    destruct (Z.compare e e') eqn:Ee; try discriminate;
    destruct (Pos.compare_cont Eq m m') eqn:Em; try discriminate;
    intros _; apply Z.compare_eq in Ee; apply Pos.compare_eq in Em; subst;
    right; right; eauto.
Qed.

(** The difference of two timestamps that compare equal is a zero or a
  NaN. *)
Lemma sub_of_equal (a b : float) :
  (a =? b) = true -> is_zero (b - a) || is_nan (b - a) = true.
Proof.
  rewrite FloatAxioms.eqb_spec. intros H. apply SFeqb_true in H. apply orb_true_iff.
  destruct H as [(s & s' & Ha & Hb)|[(s & Ha & Hb)|(s & m & e & Ha & Hb)]].
  - left. apply is_zero_spec. rewrite sub_spec, Ha, Hb.
    destruct s, s'; simpl; eauto.
  - right. apply is_nan_spec. rewrite sub_spec, Ha, Hb. destruct s; reflexivity.
  - left. apply is_zero_spec. rewrite sub_spec, Ha, Hb.
    unfold SF64sub, SFsub. rewrite Z.sub_diag. simpl. eauto.
Qed.

End FloatFacts.

(* ===================================================================== *)
(** * Rounding never turns a non-zero difference into zero *)
(* ===================================================================== *)

Section Rounding.

#[local] Open Scope Z_scope.

Lemma digits2_pos_bounds (m : positive) :
  2 ^ (Zpos (digits2_pos m) - 1) <= Zpos m < 2 ^ Zpos (digits2_pos m).
Proof.
  induction m as [m IH|m IH|]; simpl digits2_pos.
  - rewrite Pos2Z.inj_succ.
    replace (Z.succ (Zpos (digits2_pos m)) - 1) with (Z.succ (Zpos (digits2_pos m) - 1)) by lia.
    rewrite !Z.pow_succ_r by lia. lia.
  - rewrite Pos2Z.inj_succ.
    replace (Z.succ (Zpos (digits2_pos m)) - 1) with (Z.succ (Zpos (digits2_pos m) - 1)) by lia.
    rewrite !Z.pow_succ_r by lia. lia.
  - simpl. lia.
Qed.

Lemma shr_1_div2 (mrs : shr_record) :
  0 <= shr_m mrs -> shr_m (shr_1 mrs) = shr_m mrs / 2.
Proof.
  destruct mrs as [m r s]. simpl. intros Hm.
  rewrite <- Z.div2_div.
  destruct m as [|[p|p|]|p]; try reflexivity. lia.
Qed.

Lemma iter_pos_shr_1 (p : positive) (mrs : shr_record) :
  0 <= shr_m mrs ->
  shr_m (SpecFloat.iter_pos shr_1 p mrs) = shr_m mrs / 2 ^ Zpos p.
Proof.
  revert mrs. induction p as [p IH|p IH|]; intros mrs Hm; simpl SpecFloat.iter_pos.
  - assert (H1 : 0 <= shr_m (shr_1 mrs)).
    { rewrite shr_1_div2 by assumption. apply Z.div_pos; lia. }
    assert (H2 : 0 <= shr_m (SpecFloat.iter_pos shr_1 p (shr_1 mrs))).
    { rewrite IH by assumption. apply Z.div_pos; [assumption|]. apply Z.pow_pos_nonneg; lia. }
    assert (Hp : 0 < 2 ^ Zpos p) by (apply Z.pow_pos_nonneg; lia).
    rewrite IH, IH, shr_1_div2 by assumption.
    rewrite !Z.div_div by lia.
    f_equal. replace (Zpos p~1) with (1 + Zpos p + Zpos p) by lia.
    rewrite !Z.pow_add_r by lia. lia.
  - assert (H2 : 0 <= shr_m (SpecFloat.iter_pos shr_1 p mrs)).
    { rewrite IH by assumption. apply Z.div_pos; [assumption|]. apply Z.pow_pos_nonneg; lia. }
    assert (Hp : 0 < 2 ^ Zpos p) by (apply Z.pow_pos_nonneg; lia).
    rewrite IH, IH by assumption.
    rewrite !Z.div_div by lia.
    f_equal. replace (Zpos p~0) with (Zpos p + Zpos p) by lia.
    rewrite !Z.pow_add_r by lia. lia.
  - rewrite shr_1_div2 by assumption. reflexivity.
Qed.

Lemma shr_m_record_of_loc (m : Z) (l : location) :
  shr_m (shr_record_of_loc m l) = m.
Proof. destruct l as [|[]]; reflexivity. Qed.

Lemma fexp_ge_emin (e : Z) : SpecFloat.emin prec emax <= fexp prec emax e.
Proof. unfold fexp. lia. Qed.

(** The right shift that brings a positive mantissa to its format exponent
    keeps it positive, when the exponent is not below [emin]. *)
Lemma shr_fexp_pos (m e : Z) (l : location) :
  0 < m -> SpecFloat.emin prec emax <= e ->
  0 < shr_m (fst (shr_fexp prec emax m e l))
  /\ SpecFloat.emin prec emax <= snd (shr_fexp prec emax m e l).
Proof.
  intros Hm He. unfold shr_fexp, shr.
  destruct m as [|p|p]; try lia. simpl Zdigits2.
  pose proof (digits2_pos_bounds p) as [Hlo _].
  destruct (fexp prec emax (Zpos (digits2_pos p) + e) - e) as [|n|n] eqn:En;
    simpl fst; simpl snd.
  - rewrite shr_m_record_of_loc. lia.
  - rewrite iter_pos_shr_1 by (rewrite shr_m_record_of_loc; lia).
    rewrite shr_m_record_of_loc. split.
    + apply Z.div_str_pos. split; [apply Z.pow_pos_nonneg; lia|].
      eapply Z.le_trans; [|exact Hlo].
      apply Z.pow_le_mono_r; [lia|].
      unfold fexp, SpecFloat.emin, prec, emax in *. lia.
    + rewrite <- En. pose proof (fexp_ge_emin (Zpos (digits2_pos p) + e)). lia.
  - rewrite shr_m_record_of_loc. lia.
Qed.

Lemma round_nearest_even_pos (m : Z) (l : location) :
  0 < m -> 0 < round_nearest_even m l.
Proof.
  intros Hm. destruct l as [|[]]; simpl; try lia.
  destruct (Z.even m); lia.
Qed.

Lemma binary_round_aux_nonzero (s : bool) (m e : Z) (l : location) :
  0 < m -> SpecFloat.emin prec emax <= e ->
  nonzero_number (binary_round_aux prec emax s m e l).
Proof.
  intros Hm He. unfold binary_round_aux.
  destruct (shr_fexp_pos m e l Hm He) as [H1 H1'].
  destruct (shr_fexp prec emax m e l) as [mrs' e'] eqn:E1. simpl in H1, H1'.
  pose proof (round_nearest_even_pos _ (loc_of_shr_record mrs') H1) as H2.
  destruct (shr_fexp_pos _ e' loc_Exact H2 H1') as [H3 _].
  destruct (shr_fexp prec emax _ e' loc_Exact) as [mrs'' e''] eqn:E2. simpl in H3.
  destruct (shr_m mrs'') as [|q|q]; try lia.
  destruct (e'' <=? emax - prec); exact I.
Qed.

Lemma binary_round_nonzero (s : bool) (m : positive) (e : Z) :
  SpecFloat.emin prec emax <= e ->
  nonzero_number (binary_round prec emax s m e).
Proof.
  intros He. unfold binary_round, shl_align.
  destruct (fexp prec emax (Zpos (digits2_pos m) + e) - e) as [|n|n] eqn:En.
  - apply binary_round_aux_nonzero; [lia | exact He].
  - apply binary_round_aux_nonzero; [lia | exact He].
  - apply binary_round_aux_nonzero; [lia | apply fexp_ge_emin].
Qed.

Lemma binary_normalize_nonzero (z e : Z) (szero : bool) :
  z <> 0 -> SpecFloat.emin prec emax <= e ->
  nonzero_number (binary_normalize prec emax z e szero).
Proof.
  intros Hz He. destruct z as [|p|p]; [congruence| |];
    simpl; apply binary_round_nonzero, He.
Qed.

Lemma shl_align_value (m : positive) (e e' : Z) :
  e' <= e -> Zpos (fst (shl_align m e e')) = Zpos m * 2 ^ (e - e').
Proof.
  intros H. unfold shl_align.
  destruct (e' - e) as [|d|d] eqn:Ed; simpl fst.
  - replace (e - e') with 0 by lia. lia.
  - lia.
  - replace (e - e') with (Zpos d) by lia.
    change (Pos.iter xO m d) with (shift_pos d m).
    rewrite shift_pos_correct. change (Z.pow_pos 2 d) with (2 ^ Zpos d). lia.
Qed.

(** The scaled mantissa [m * 2^a] lies in the binade of [digits m + a]. *)
Lemma scaled_bounds (m : positive) (a : Z) :
  0 <= a ->
  2 ^ (Zpos (digits2_pos m) + a - 1) <= Zpos m * 2 ^ a
                                     < 2 ^ (Zpos (digits2_pos m) + a).
Proof.
  intros Ha. pose proof (digits2_pos_bounds m) as [Hlo Hhi].
  assert (Hp : 0 < 2 ^ a) by (apply Z.pow_pos_nonneg; lia).
  replace (Zpos (digits2_pos m) + a - 1) with (Zpos (digits2_pos m) - 1 + a) by lia.
  rewrite !Z.pow_add_r by lia. split.
  - apply Z.mul_le_mono_nonneg_r; lia.
  - apply Z.mul_lt_mono_pos_r; lia.
Qed.

Lemma binade_unique (x d1 d2 : Z) :
  0 <= d1 - 1 -> 0 <= d2 - 1 ->
  2 ^ (d1 - 1) <= x < 2 ^ d1 -> 2 ^ (d2 - 1) <= x < 2 ^ d2 -> d1 = d2.
Proof.
  intros H1 H2 [L1 U1] [L2 U2].
  destruct (Z.lt_trichotomy d1 d2) as [Hlt|[Heq|Hgt]]; [|exact Heq|]; exfalso.
  - assert (2 ^ d1 <= 2 ^ (d2 - 1)) by (apply Z.pow_le_mono_r; lia). lia.
  - assert (2 ^ d2 <= 2 ^ (d1 - 1)) by (apply Z.pow_le_mono_r; lia). lia.
Qed.

(** Two canonical mantissas that agree once aligned are the same number. *)
Lemma aligned_eq (mx my : positive) (ex ey : Z) :
  canonical_mantissa prec emax mx ex = true ->
  canonical_mantissa prec emax my ey = true ->
  Zpos (fst (shl_align mx ex (Z.min ex ey)))
    = Zpos (fst (shl_align my ey (Z.min ex ey))) ->
  mx = my /\ ex = ey.
Proof.
  unfold canonical_mantissa. intros Hx Hy.
  apply Z.eqb_eq in Hx. apply Z.eqb_eq in Hy.
  rewrite !shl_align_value by lia. intros Heq.
  pose proof (scaled_bounds mx (ex - Z.min ex ey) ltac:(lia)) as Bx.
  pose proof (scaled_bounds my (ey - Z.min ex ey) ltac:(lia)) as By.
  rewrite Heq in Bx.
  assert (Hd : Zpos (digits2_pos mx) + (ex - Z.min ex ey)
               = Zpos (digits2_pos my) + (ey - Z.min ex ey)).
  { eapply binade_unique; [| |exact Bx|exact By]; lia. }
  assert (He : ex = ey).
  { rewrite <- Hx, <- Hy. f_equal. lia. }
  subst ey. split; [|reflexivity].
  rewrite Z.min_id, Z.sub_diag in Heq. simpl in Heq. lia.
Qed.

(** The difference of two distinct finite numbers is neither a zero nor a
  NaN: binary64 has gradual underflow. *)
Lemma SFsub_distinct (x y : spec_float) :
  SpecFloat.valid_binary prec emax x = true ->
  SpecFloat.valid_binary prec emax y = true ->
  match x with S754_zero _ | S754_finite _ _ _ => True | _ => False end ->
  match y with S754_zero _ | S754_finite _ _ _ => True | _ => False end ->
  SFeqb x y = false ->
  nonzero_number (SFsub prec emax y x).
Proof.
  intros Vx Vy Fx Fy Hne.
  destruct x as [sx|sx| |sx mx ex], y as [sy|sy| |sy my ey];
    try contradiction; try exact I.
  - discriminate Hne.
  - simpl in Vx, Vy. unfold bounded in Vx, Vy.
    apply andb_prop in Vx, Vy. destruct Vx as [Cx _], Vy as [Cy _].
    unfold SFsub. apply binary_normalize_nonzero.
    + intros Hz.
      assert (Px := Pos2Z.pos_is_pos (fst (shl_align mx ex (Z.min ey ex)))).
      assert (Py := Pos2Z.pos_is_pos (fst (shl_align my ey (Z.min ey ex)))).
      destruct sx, sy; unfold cond_Zopp in Hz; try lia.
      * assert (E : Zpos (fst (shl_align my ey (Z.min ey ex)))
                    = Zpos (fst (shl_align mx ex (Z.min ey ex)))) by lia.
        apply aligned_eq in E; try assumption. destruct E as [-> ->].
        unfold SFeqb in Hne. rewrite SFcompare_refl in Hne; discriminate.
      * assert (E : Zpos (fst (shl_align my ey (Z.min ey ex)))
                    = Zpos (fst (shl_align mx ex (Z.min ey ex)))) by lia.
        apply aligned_eq in E; try assumption. destruct E as [-> ->].
        unfold SFeqb in Hne. rewrite SFcompare_refl in Hne; discriminate.
    + unfold canonical_mantissa in Cx, Cy.
      apply Z.eqb_eq in Cx. apply Z.eqb_eq in Cy.
      pose proof (fexp_ge_emin (Zpos (digits2_pos mx) + ex)).
      pose proof (fexp_ge_emin (Zpos (digits2_pos my) + ey)). lia.
Qed.

End Rounding.

Section FloatDistinct.

#[local] Open Scope float_scope.

Lemma nonzero_number_flags (r : float) :
  nonzero_number (Prim2SF r) -> is_zero r = false /\ is_nan r = false.
Proof.
  intros H. split.
  - destruct (is_zero r) eqn:E; [|reflexivity].
    apply is_zero_spec in E. destruct E as [s E]. rewrite E in H. contradiction.
  - destruct (is_nan r) eqn:E; [|reflexivity].
    apply is_nan_spec in E. rewrite E in H. contradiction.
Qed.

(** Distinct finite timestamps have a non-zero difference. *)
Lemma sub_of_distinct (a b : float) :
  is_finite a = true -> is_finite b = true -> (a =? b) = false ->
  is_zero (b - a) = false /\ is_nan (b - a) = false.
Proof.
  intros Fa Fb Hne. apply nonzero_number_flags.
  rewrite sub_spec. apply SFsub_distinct.
  - apply Prim2SF_valid.
  - apply Prim2SF_valid.
  - apply is_finite_spec in Fa. destruct Fa as [[s ->]|(s & m & e & ->)]; exact I.
  - apply is_finite_spec in Fb. destruct Fb as [[s ->]|(s & m & e & ->)]; exact I.
  - rewrite <- FloatAxioms.eqb_spec. exact Hne.
Qed.

End FloatDistinct.

(* ===================================================================== *)
(** * Properties of the control parser *)
(* ===================================================================== *)

Section ControlFacts.

Import Control.

Lemma scan_key_absent (self : AimsIO) (lines : list string) :
  Forall (fun line => PyStr.contains "ExShift" line = false) lines ->
  scan self lines = Ok self.
Proof.
  induction 1 as [|line rest Hline _ IH]; simpl.
  - reflexivity.
  - rewrite Hline. exact IH.
Qed.

(** The first line with the key decides the result; later lines are not
    read. *)
Lemma scan_first_hit (self : AimsIO) (before : list string) (line : string)
    (rest : list string) :
  Forall (fun l => PyStr.contains "ExShift" l = false) before ->
  PyStr.contains "ExShift" line = true ->
  scan self (before ++ line :: rest) = scan self [line].
Proof.
  induction 1 as [|l before Hl _ IH]; intros Hhit; simpl.
  - rewrite Hhit. reflexivity.
  - rewrite Hl. simpl in IH. apply IH, Hhit.
Qed.

End ControlFacts.

(** C1 (code defect).  On the control file whose only line is
    [SomeKey=1 ExShift=78.5 OtherKey=2] the parser stores 1.0, the value of
    the first token of the line, and not the 78.5 that follows [ExShift=]:
    the line is found by the key, but the value is read from token 0. *)
Theorem get_ex_shift_reads_first_token :
  Control.get_ex_shift (fresh "metal") "SomeKey=1 ExShift=78.5 OtherKey=2"
    = Ok (set_ex_shift (fresh "metal") 1%float)
  /\ PyNum.py_float "78.5" = Some 78.5%float
  /\ 1%float <> 78.5%float.
Proof.
  split; [vm_compute; reflexivity|].
  split; [vm_compute; reflexivity|].
  intros H.
  assert (E : PrimFloat.eqb 1 1 = PrimFloat.eqb 78.5 1) by (rewrite <- H; reflexivity).
  vm_compute in E. discriminate E.
Qed.

(** C8 as stated fails: a control file without the key makes the parser
    return normally, and [ex_shift] stays unset. *)
Lemma get_ex_shift_missing_key_returns :
  Control.key_absent "SomeKey=1 OtherKey=2"
  /\ Control.get_ex_shift (fresh "metal") "SomeKey=1 OtherKey=2"
       = Ok (fresh "metal")
  /\ ex_shift (fresh "metal") = None.
Proof.
  split; [|split; [vm_compute; reflexivity | reflexivity]].
  unfold Control.key_absent. vm_compute PyStr.readlines.
  constructor; [vm_compute; reflexivity | constructor].
Qed.

(** C8 (amended).  For every control file in which no line contains the
    energy-shift key, [get_ex_shift] raises nothing and returns with the
    object unchanged; an [ex_shift] that was unset stays unset. *)
Theorem get_ex_shift_key_absent (self : AimsIO) (control : string) :
  Control.key_absent control ->
  Control.get_ex_shift self control = Ok self.
Proof.
  intros H. unfold Control.get_ex_shift. apply scan_key_absent, H.
Qed.

Lemma get_ex_shift_key_absent_witness :
  Control.get_ex_shift (fresh "metal") "SomeKey=1 OtherKey=2" = Ok (fresh "metal").
Proof.
  apply (get_ex_shift_key_absent (fresh "metal") "SomeKey=1 OtherKey=2").
  unfold Control.key_absent. vm_compute PyStr.readlines.
  constructor; [vm_compute; reflexivity | constructor].
Defined.

(* ===================================================================== *)
(** * Properties of numpy arrays *)
(* ===================================================================== *)

Section NumpyFacts.

Context {A B : Type}.

Lemma py_index_map (f : A -> B) (xs : list A) (i : nat) :
  py_index (List.map f xs) i
  = match py_index xs i with Ok x => Ok (f x) | Raise e => Raise e end.
Proof.
  unfold py_index. rewrite nth_error_map.
  destruct (nth_error xs i); reflexivity.
Qed.

Lemma py_index_lt (xs : list A) (i : nat) :
  i < length xs -> exists x, py_index xs i = Ok x /\ nth_error xs i = Some x.
Proof.
  intros Hi. unfold py_index.
  destruct (nth_error xs i) as [x|] eqn:E.
  - exists x. split; reflexivity.
  - apply nth_error_None in E. lia.
Qed.

Lemma get0_map (f : A -> B) (a : ndarray A) (i : nat) :
  get0 (Numpy.map f a) i
  = match get0 a i with Ok x => Ok (Numpy.map f x) | Raise e => Raise e end.
Proof.
  unfold get0, Numpy.map; simpl.
  destruct (shape a) as [|d sh]; [reflexivity|].
  destruct (Nat.ltb i d); [|reflexivity].
  simpl. rewrite skipn_map, firstn_map. reflexivity.
Qed.

Lemma Forall2_nth_error_l (P : A -> B -> Prop) (xs : list A) (ys : list B)
    (i : nat) (x : A) :
  Forall2 P xs ys -> nth_error xs i = Some x ->
  exists y, nth_error ys i = Some y /\ P x y.
Proof.
  intros H. revert i. induction H as [|x0 y0 xs ys Hxy _ IH]; intros i.
  - destruct i; discriminate.
  - destruct i as [|i]; simpl.
    + intros [= ->]. exists y0. split; [reflexivity | exact Hxy].
    + apply IH.
Qed.

Lemma py_index_raises (xs : list A) (i : nat) (e : exn) :
  py_index xs i = Raise e -> e = IndexError.
Proof.
  unfold py_index. destruct (nth_error xs i); congruence.
Qed.

Lemma get0_raises (a : ndarray A) (i : nat) (e : exn) :
  get0 a i = Raise e -> e = IndexError.
Proof.
  unfold get0. destruct (shape a); [congruence|].
  destruct (Nat.ltb i n); congruence.
Qed.

Lemma get0_lt (a : ndarray A) (d : nat) (sh : list nat) (i : nat) :
  shape a = d :: sh -> i < d -> exists x, get0 a i = Ok x /\ shape x = sh.
Proof.
  intros Hs Hi. unfold get0. rewrite Hs.
  destruct (Nat.ltb_spec i d); [|lia].
  eexists. split; reflexivity.
Qed.

End NumpyFacts.

(* ===================================================================== *)
(** * Properties of the structure writer *)
(* ===================================================================== *)

Section WriterFacts.

Import Writer.
Variables Hartree Bohr : float.

Lemma symbols2numbers_raises (symbols : list string) (e : exn) :
  Ase.symbols2numbers symbols = Raise e -> exists s, e = KeyError s.
Proof.
  induction symbols as [|s rest IH]; simpl; [discriminate|].
  unfold Ase.atomic_number, bind.
  destruct (Ase.number_in s Ase.chemical_symbols).
  - destruct (Ase.symbols2numbers rest); [discriminate|].
    intros [= <-]. apply IH. reflexivity.
  - intros [= <-]. eauto.
Qed.

Lemma atoms_raises (p : ndarray float) (symbols : list string) (e : exn) :
  Ase.atoms p symbols = Raise e -> writer_error e.
Proof.
  unfold Ase.atoms, bind.
  destruct (Ase.symbols2numbers symbols) as [numbers|e'] eqn:E.
  - unfold Ase.new_positions. destruct (shape p) as [|d sh].
    + intros [= <-]. right. right. left. eauto.
    + destruct (negb (Nat.eqb d (length numbers))).
      * intros [= <-]. right. right. right. left. eauto.
      * destruct (negb _); [|discriminate].
        intros [= <-]. right. right. right. right. eauto.
  - intros [= <-]. right. left. eapply symbols2numbers_raises, E.
Qed.

(** A pass of the loop raises nothing but the [IndexError] of an index
    out of range and what the [Atoms] constructor raises. *)
Lemma make_record_raises positions forces energy atoms i e :
  make_record Bohr positions forces energy atoms i = Raise e -> writer_error e.
Proof.
  unfold make_record, bind.
  destruct (get0 positions i) as [p|] eqn:E1;
    [|intros [= <-]; left; eapply get0_raises, E1].
  destruct (Ase.atoms _ atoms) eqn:E0;
    [|intros [= <-]; eapply atoms_raises, E0].
  destruct (py_index energy i) eqn:E2;
    [|intros [= <-]; left; eapply py_index_raises, E2].
  destruct (get0 forces i) eqn:E3;
    [|intros [= <-]; left; eapply get0_raises, E3].
  discriminate.
Qed.

Lemma write_frames_raises positions forces energy atoms steps file e :
  snd (write_frames Bohr positions forces energy atoms steps file) = Raise e ->
  writer_error e.
Proof.
  revert file. induction steps as [|i rest IH]; intros file; simpl.
  - discriminate.
  - destruct (make_record Bohr positions forces energy atoms i) eqn:E.
    + apply IH.
    + simpl. intros [= <-]. eapply make_record_raises, E.
Qed.

(** The error of an unsupported unit system is none of them. *)
Lemma writer_error_not_unsupported (e : exn) (u : string) :
  writer_error e -> e <> unsupported u.
Proof.
  unfold unsupported.
  intros [->|[(s & ->)|[(m & ->)|[(a & b & ->)|(sh & ->)]]]] H;
    try discriminate H;
    unfold Ase.wrong_length, Ase.wrong_shape in H; injection H as H;
    apply (f_equal first_char) in H; vm_compute in H; discriminate H.
Qed.

(** When every pass builds its record, the loop appends them all, in the
    order of the steps. *)
Lemma write_frames_all positions forces energy atoms steps file :
  Forall (fun i => returns (make_record Bohr positions forces energy atoms i) = true)
         steps ->
  exists recs,
    write_frames Bohr positions forces energy atoms steps file
      = (file ++ recs, Ok tt)
    /\ Forall2 (fun i r => make_record Bohr positions forces energy atoms i = Ok r)
               steps recs.
Proof.
  intros H. revert file.
  induction H as [|i rest Hi _ IH]; intros file; simpl.
  - exists []. rewrite app_nil_r. split; [reflexivity | constructor].
  - destruct (make_record Bohr positions forces energy atoms i) as [r|] eqn:E;
      [|discriminate Hi].
    destruct (IH (file ++ [r])) as (recs & Hw & Hall).
    exists (r :: recs). rewrite Hw, <- app_assoc. simpl.
    split; [reflexivity | constructor; assumption].
Qed.

Lemma number_in_known (s : string) (table : list string) :
  In s table -> exists z, Ase.number_in s table = Some z.
Proof.
  induction table as [|t table IH]; intros H; [contradiction|].
  simpl. destruct (String.eqb_spec t s) as [_|Hne]; [eauto|].
  destruct H as [->|H]; [contradiction Hne; reflexivity|].
  destruct (IH H) as [z ->]. eauto.
Qed.

Lemma symbols2numbers_known (symbols : list string) :
  Forall (fun s => In s Ase.chemical_symbols) symbols ->
  exists zs, Ase.symbols2numbers symbols = Ok zs
             /\ length zs = length symbols.
Proof.
  induction 1 as [|s rest Hs _ (zs & IH & Hl)]; simpl.
  - exists []. split; reflexivity.
  - unfold Ase.atomic_number.
    destruct (number_in_known s _ Hs) as [z ->].
    cbv beta iota delta [bind]. rewrite IH.
    exists (z :: zs). split; [reflexivity | simpl; rewrite Hl; reflexivity].
Qed.

(** [Atoms] accepts one row of three values per known symbol, and stores
    the array as it is. *)
Lemma atoms_accepts (p : ndarray float) (symbols : list string) :
  Forall (fun s => In s Ase.chemical_symbols) symbols ->
  shape p = [length symbols; 3] ->
  Ase.atoms p symbols = Ok p.
Proof.
  intros Hk Hs. unfold Ase.atoms.
  destruct (symbols2numbers_known symbols Hk) as (zs & -> & Hl).
  cbv beta iota delta [bind]. unfold Ase.new_positions. rewrite Hs, Hl.
  rewrite Nat.eqb_refl. cbn [negb].
  destruct p as [sh d]. cbn [shape data] in *. subst sh.
  destruct (Nat.eqb_spec (length symbols) 0) as [E|_].
  - cbn [shape tl]. rewrite bool_decide_eq_true_2 by reflexivity.
    cbn [negb]. rewrite E. reflexivity.
  - cbn [shape tl]. rewrite bool_decide_eq_true_2 by reflexivity.
    reflexivity.
Qed.

(** A pass of the loop over frames of one row of three values per known
    symbol: the record in terms of the data of the arrays. *)
Lemma make_record_frames (positions forces : ndarray float)
    (energy : list float) (atoms : list string) (T n i : nat) (e : float) :
  Forall (fun s => In s Ase.chemical_symbols) atoms ->
  shape positions = [T; length atoms; 3] ->
  shape forces = [n; length atoms; 3] ->
  i < T -> i < n -> nth_error energy i = Some e ->
  make_record Bohr positions
    (Numpy.map (fun x => x * (Hartree / Bohr))%float forces)
    (List.map (fun x => x * Hartree)%float energy) atoms i
  = Ok {| rec_symbols := atoms;
          rec_positions :=
            mk_ndarray [length atoms; 3]
              (List.map (fun x => x * Bohr)%float
                 (firstn (length atoms * 3)
                    (skipn (i * (length atoms * 3)) (data positions))));
          rec_energy := (e * Hartree)%float;
          rec_forces :=
            mk_ndarray [length atoms; 3]
              (List.map (fun x => x * (Hartree / Bohr))%float
                 (firstn (length atoms * 3)
                    (skipn (i * (length atoms * 3)) (data forces))));
          rec_pbc := false |}.
Proof.
  intros Hk Hp Hf HiT Hin He.
  assert (Hsize : size_of [length atoms; 3] = length atoms * 3)
    by (simpl; lia).
  assert (Gp : get0 positions i
               = Ok (mk_ndarray [length atoms; 3]
                       (firstn (length atoms * 3)
                          (skipn (i * (length atoms * 3)) (data positions))))).
  { unfold get0. rewrite Hp. destruct (Nat.ltb_spec i T); [|lia].
    rewrite Hsize. reflexivity. }
  assert (Gf : get0 forces i
               = Ok (mk_ndarray [length atoms; 3]
                       (firstn (length atoms * 3)
                          (skipn (i * (length atoms * 3)) (data forces))))).
  { unfold get0. rewrite Hf. destruct (Nat.ltb_spec i n); [|lia].
    rewrite Hsize. reflexivity. }
  unfold make_record. rewrite Gp. cbv beta iota delta [bind].
  rewrite atoms_accepts by (try assumption; reflexivity).
  rewrite py_index_map. unfold py_index. rewrite He.
  rewrite get0_map, Gf. reflexivity.
Qed.

End WriterFacts.

(** C9.  With any unit system other than "metal", [write_extxyz] raises the
    unsupported-unit error; with "metal" it never raises that error,
    whatever the other arguments are. *)
Theorem write_extxyz_unsupported_iff (Hartree Bohr : float) (self : AimsIO)
    (file : list Writer.StructureRecord) (positions forces : ndarray float)
    (energy : list float) (atoms : list string) :
  (units self <> "metal" ->
   snd (Writer.write_extxyz Hartree Bohr self file positions forces energy atoms)
     = Raise (Writer.unsupported (units self)))
  /\ (units self = "metal" ->
      forall u,
        snd (Writer.write_extxyz Hartree Bohr self file positions forces energy atoms)
          <> Raise (Writer.unsupported u)).
Proof.
  unfold Writer.write_extxyz. split.
  - intros Hne. destruct (String.eqb_spec (units self) "metal") as [E|_].
    + contradiction.
    + reflexivity.
  - intros E u. rewrite E. simpl String.eqb. cbv iota.
    destruct (shape0 _) as [n|e] eqn:Hs.
    + intros Hr. apply write_frames_raises in Hr.
      exact (writer_error_not_unsupported _ u Hr eq_refl).
    + simpl. intros [= ->]. unfold shape0, py_index in Hs.
      destruct (nth_error _ _); discriminate.
Qed.

Lemma write_extxyz_unsupported_iff_witness :
  snd (Writer.write_extxyz 27.211386024367243 0.5291772105638411
         (fresh "real") [] (mk_ndarray [0] []) (mk_ndarray [0] []) [] ["H"])
    = Raise (ValueError "Units real not supported")
  /\ snd (Writer.write_extxyz 27.211386024367243 0.5291772105638411
           (fresh "metal") [] (mk_ndarray [0] []) (mk_ndarray [0] []) [] ["H"])
       <> Raise (Writer.unsupported "metal").
Proof.
  split.
  - apply (write_extxyz_unsupported_iff _ _ (fresh "real")). simpl. discriminate.
  - apply (write_extxyz_unsupported_iff _ _ (fresh "metal")). reflexivity.
Defined.

(** C10.  With a unit system other than "metal", [write_extxyz] raises
    before the loop is entered: the destination file is returned as it was,
    with no record appended. *)
Theorem write_extxyz_unsupported_file_unchanged (Hartree Bohr : float)
    (self : AimsIO) (file : list Writer.StructureRecord)
    (positions forces : ndarray float) (energy : list float)
    (atoms : list string) :
  units self <> "metal" ->
  Writer.write_extxyz Hartree Bohr self file positions forces energy atoms
    = (file, Raise (Writer.unsupported (units self))).
Proof.
  intros Hne. unfold Writer.write_extxyz.
  destruct (String.eqb_spec (units self) "metal") as [E|_].
  - contradiction.
  - reflexivity.
Qed.

(** C6 as stated fails: an atom list that does not fit the frames.  With
    two position frames and one force frame of one atom each, two energies
    and the atom list [H, H], the [Atoms] constructor raises the
    [ValueError] of an array of wrong length in the first pass: nothing is
    appended. *)
Lemma write_extxyz_atom_list_mismatch :
  Writer.write_extxyz 2 0.5 (fresh "metal") []
    (of_list3 1 3 [[[1; 2; 3]]; [[4; 5; 6]]]%float)
    (of_list3 1 3 [[[1; 0; 0]]]%float) [10; 20]%float ["H"; "H"]
  = ([], Raise (Ase.wrong_length 1 2))
  /\ Ase.wrong_length 1 2
     = ValueError ("Array " ++ Ase.dq ++ "positions" ++ Ase.dq
                   ++ " has wrong length: 1 != 2.").
Proof. split; vm_compute; reflexivity. Qed.

(** C6 (amended).  Under "metal", for an atom list of N chemical symbols
    that ase knows, T position frames and T - 1 force frames of shape
    (N, 3) each, and at least T energies, [write_extxyz] appends exactly
    T - 1 records to the file and returns: record [i] holds the atom list,
    the values of [positions[i]] times Bohr, [energy[i]] times Hartree, the
    values of [forces[i]] times Hartree / Bohr and [pbc = False], for
    [i = 0 .. T - 2] in this order; the last position frame appears in no
    record.  The frames are given by the data of the arrays: frame [i] is
    the block of [N * 3] values from offset [i * (N * 3)]. *)
Theorem write_extxyz_metal_records (Hartree Bohr : float) (self : AimsIO)
    (file : list Writer.StructureRecord) (positions forces : ndarray float)
    (energy : list float) (atoms : list string) (T : nat) :
  units self = "metal" ->
  Forall (fun s => In s Ase.chemical_symbols) atoms ->
  shape positions = [T; length atoms; 3] ->
  shape forces = [T - 1; length atoms; 3] ->
  T <= length energy ->
  exists recs,
    Writer.write_extxyz Hartree Bohr self file positions forces energy atoms
      = (file ++ recs, Ok tt)
    /\ length recs = T - 1
    /\ forall i, i < T - 1 ->
         exists r e,
           nth_error recs i = Some r
           /\ nth_error energy i = Some e
           /\ Writer.rec_symbols r = atoms
           /\ Writer.rec_pbc r = false
           /\ Writer.rec_energy r = (e * Hartree)%float
           /\ shape (Writer.rec_positions r) = [length atoms; 3]
           /\ data (Writer.rec_positions r)
              = List.map (fun x => x * Bohr)%float
                  (firstn (length atoms * 3)
                     (skipn (i * (length atoms * 3)) (data positions)))
           /\ shape (Writer.rec_forces r) = [length atoms; 3]
           /\ data (Writer.rec_forces r)
              = List.map (fun x => x * (Hartree / Bohr))%float
                  (firstn (length atoms * 3)
                     (skipn (i * (length atoms * 3)) (data forces))).
Proof.
  intros Hu Hk Hp Hf He. unfold Writer.write_extxyz.
  rewrite Hu. simpl String.eqb. cbv iota.
  unfold shape0, Numpy.map at 1. simpl shape. rewrite Hf. simpl py_index.
  assert (Hrec : forall i, i < T - 1 ->
            exists e, nth_error energy i = Some e
              /\ Writer.make_record Bohr positions
                   (Numpy.map (fun x => x * (Hartree / Bohr))%float forces)
                   (List.map (fun x => x * Hartree)%float energy) atoms i
                 = Ok {| Writer.rec_symbols := atoms;
                         Writer.rec_positions :=
                           mk_ndarray [length atoms; 3]
                             (List.map (fun x => x * Bohr)%float
                                (firstn (length atoms * 3)
                                   (skipn (i * (length atoms * 3))
                                          (data positions))));
                         Writer.rec_energy := (e * Hartree)%float;
                         Writer.rec_forces :=
                           mk_ndarray [length atoms; 3]
                             (List.map (fun x => x * (Hartree / Bohr))%float
                                (firstn (length atoms * 3)
                                   (skipn (i * (length atoms * 3))
                                          (data forces))));
                         Writer.rec_pbc := false |}).
  { intros i Hi.
    destruct (py_index_lt energy i ltac:(lia)) as (e & _ & Ee).
    exists e. split; [exact Ee|].
    apply (make_record_frames Hartree Bohr positions forces energy atoms
             T (T - 1) i e); (assumption || lia). }
  destruct (write_frames_all Bohr positions
              (Numpy.map (fun x => x * (Hartree / Bohr))%float forces)
              (List.map (fun x => x * Hartree)%float energy)
              atoms (seq 0 (T - 1)) file)
    as (recs & Hw & Hall).
  { apply List.Forall_forall. intros i Hi. apply in_seq in Hi.
    destruct (Hrec i ltac:(lia)) as (e & _ & ->). reflexivity. }
  exists recs. split; [exact Hw|]. split.
  - apply Forall2_length in Hall. rewrite length_seq in Hall. symmetry. exact Hall.
  - intros i Hi. destruct (Hrec i Hi) as (e & Ee & Hr).
    destruct (Forall2_nth_error_l _ _ _ i i Hall) as (r & Hn & Hm).
    { rewrite nth_error_seq. destruct (Nat.ltb_spec i (T - 1)); [reflexivity | lia]. }
    cbv beta in Hm. rewrite Hr in Hm. injection Hm as <-.
    eexists _, e. split; [exact Hn|]. split; [exact Ee|].
    repeat split.
Qed.

Lemma write_extxyz_metal_records_witness :
  Writer.write_extxyz 2 0.5 (fresh "metal") []
    (of_list3 1 3 [[[1; 2; 3]]; [[4; 5; 6]]; [[7; 8; 9]]]%float)
    (of_list3 1 3 [[[1; 0; 0]]; [[0; 2; 0]]]%float) [10; 20; 30]%float ["H"]
  = ([ {| Writer.rec_symbols := ["H"];
          Writer.rec_positions := mk_ndarray [1; 3] [0.5; 1; 1.5]%float;
          Writer.rec_energy := 20%float;
          Writer.rec_forces := mk_ndarray [1; 3] [4; 0; 0]%float;
          Writer.rec_pbc := false |};
       {| Writer.rec_symbols := ["H"];
          Writer.rec_positions := mk_ndarray [1; 3] [2; 2.5; 3]%float;
          Writer.rec_energy := 40%float;
          Writer.rec_forces := mk_ndarray [1; 3] [0; 8; 0]%float;
          Writer.rec_pbc := false |} ],
     Ok tt).
Proof.
  destruct (write_extxyz_metal_records 2 0.5 (fresh "metal") []
              (of_list3 1 3 [[[1; 2; 3]]; [[4; 5; 6]]; [[7; 8; 9]]]%float)
              (of_list3 1 3 [[[1; 0; 0]]; [[0; 2; 0]]]%float)
              [10; 20; 30]%float ["H"] 3)
    as (recs & Hw & _).
  - reflexivity.
  - constructor; [|constructor]. vm_compute. tauto.
  - reflexivity.
  - reflexivity.
  - simpl. lia.
  - rewrite Hw. vm_compute in Hw. injection Hw as <-. reflexivity.
Defined.

Lemma write_extxyz_unsupported_file_unchanged_witness :
  Writer.write_extxyz 2 0.5 (fresh "real") []
    (of_list3 1 3 [[[1; 2; 3]]; [[4; 5; 6]]]%float)
    (of_list3 1 3 [[[1; 0; 0]]]%float) [10; 20]%float ["H"]
  = ([], Raise (ValueError "Units real not supported")).
Proof.
  apply (write_extxyz_unsupported_file_unchanged 2 0.5 (fresh "real")).
  simpl. discriminate.
Defined.

(* ===================================================================== *)
(** * Properties of the force estimator *)
(* ===================================================================== *)

Section ForcesFacts.

Import Forces.

Lemma concat_chunk {A} (n : nat) (ls : list (list A)) (t : nat) (l : list A) :
  Forall (fun l => length l = n) ls ->
  nth_error ls t = Some l ->
  firstn n (skipn (t * n) (concat ls)) = l.
Proof.
  intros H. revert t l. induction H as [|l0 ls Hl0 _ IH]; intros t l.
  - destruct t; discriminate.
  - destruct t as [|t]; simpl.
    + intros [= ->]. rewrite skipn_O, firstn_app, Hl0, Nat.sub_diag, firstn_O, app_nil_r.
      rewrite <- Hl0. apply firstn_all.
    + intros Ht. rewrite skipn_app, Hl0.
      rewrite skipn_all2 by lia.
      replace (n + t * n - n) with (t * n) by lia.
      simpl. apply IH, Ht.
Qed.

(** A sub-array of an array laid out as its shape says has the shape and
  the size of the remaining axes. *)
Lemma get0_wf {A} (a : ndarray A) (d : nat) (sh : list nat) (i : nat) :
  wf a -> shape a = d :: sh -> i < d ->
  exists x, get0 a i = Ok x /\ shape x = sh /\ length (data x) = size_of sh.
Proof.
  intros Hwf Hs Hi. unfold get0. rewrite Hs.
  destruct (Nat.ltb_spec i d); [|lia].
  eexists. split; [reflexivity|]. split; [reflexivity|]. simpl.
  unfold wf in Hwf. rewrite Hs in Hwf. simpl in Hwf.
  rewrite length_firstn, length_skipn. nia.
Qed.

Lemma stack_cons {A} (x : ndarray A) (xs : list (ndarray A)) :
  stack (x :: xs)
  = if forallb (fun y => bool_decide (shape y = shape x)) (x :: xs)
    then Ok (mk_ndarray (length (x :: xs) :: shape x)
                        (concat (List.map data (x :: xs))))
    else Raise (ValueError "inhomogeneous shape").
Proof. reflexivity. Qed.

Lemma stack_same_shape {A} (fs : list (ndarray A)) (sh : list nat) :
  fs <> [] ->
  Forall (fun f => shape f = sh /\ length (data f) = size_of sh) fs ->
  stack fs = Ok (mk_ndarray (length fs :: sh) (concat (List.map data fs))).
Proof.
  intros Hne H. destruct fs as [|f0 fs']; [congruence|].
  rewrite stack_cons.
  assert (Hs0 : shape f0 = sh) by (inversion H as [|? ? [? ?]]; assumption).
  rewrite Hs0.
  replace (forallb _ _) with true; [reflexivity|].
  symmetry. apply forallb_forall. intros y Hy. apply bool_decide_eq_true.
  rewrite Forall_forall in H. apply list_elem_of_In in Hy.
  destruct (H y Hy) as [-> _]. reflexivity.
Qed.

(** [np.array] of frames of one shape, and what indexing gives back. *)
Lemma stack_frames {A} (fs : list (ndarray A)) (sh : list nat) :
  Forall (fun f => shape f = sh /\ length (data f) = size_of sh) fs ->
  exists a, stack fs = Ok a
            /\ shape0 a = Ok (length fs)
            /\ data a = concat (List.map data fs)
            /\ forall t f, nth_error fs t = Some f -> get0 a t = Ok f.
Proof.
  intros H.
  assert (Hcase : fs = [] \/ fs <> []) by (destruct fs; [left|right]; congruence).
  destruct Hcase as [->|Hne].
  - eexists. split; [reflexivity|]. split; [reflexivity|]. split; [reflexivity|].
    intros [|t] f; discriminate.
  - rewrite (stack_same_shape fs sh Hne H).
    exists (mk_ndarray (length fs :: sh) (concat (List.map data fs))).
    split; [reflexivity|]. split; [reflexivity|]. split; [reflexivity|].
    intros t f Ht. unfold get0. cbn [shape data].
    assert (Hlt : t < length fs) by (apply nth_error_Some; congruence).
    destruct (Nat.ltb_spec t (length fs)); [|lia].
    rewrite (concat_chunk (size_of sh) (List.map data fs) t (data f)).
    + rewrite Forall_forall in H.
      assert (Hf : f ∈ fs) by (apply list_elem_of_In; eapply nth_error_In, Ht).
      destruct (H f Hf) as [<- _]. destruct f; reflexivity.
    + apply List.Forall_map. eapply List.Forall_impl; [|exact H].
      intros x [_ Hx]. exact Hx.
    + rewrite nth_error_map, Ht. reflexivity.
Qed.

Lemma loop_all (momenta : ndarray float) (time : list float)
    (steps : list nat) (acc : list (ndarray float)) :
  Forall (fun t => returns (force_at momenta time t) = true) steps ->
  exists fs,
    loop momenta time steps acc = Ok (acc ++ fs)
    /\ Forall2 (fun t f => force_at momenta time t = Ok f) steps fs.
Proof.
  intros H. revert acc. induction H as [|t rest Ht _ IH]; intros acc; simpl.
  - exists []. rewrite app_nil_r. split; [reflexivity | constructor].
  - destruct (force_at momenta time t) as [f|] eqn:E; [|discriminate Ht].
    simpl. destruct (IH (acc ++ [f])) as (fs & Hl & Hall).
    exists (f :: fs). rewrite Hl, <- app_assoc.
    split; [reflexivity | constructor; assumption].
Qed.

(** The finite difference at one step, for a well-formed trajectory. *)
Lemma force_at_ok (momenta : ndarray float) (time : list float)
    (T : nat) (sh : list nat) (t : nat) :
  wf momenta -> shape momenta = T :: sh -> T <= length time -> t + 1 < T ->
  exists m0 m1 t0 t1,
    get0 momenta t = Ok m0 /\ get0 momenta (t + 1) = Ok m1
    /\ nth_error time t = Some t0 /\ nth_error time (t + 1) = Some t1
    /\ force_at momenta time t
       = Ok (Numpy.map (fun x => x / (t1 - t0))%float (map2 PrimFloat.sub m1 m0))
    /\ shape m1 = sh
    /\ length (data m0) = size_of sh /\ length (data m1) = size_of sh.
Proof.
  intros Hwf Hs Ht Hlt.
  destruct (get0_wf momenta T sh t Hwf Hs ltac:(lia)) as (m0 & E0 & S0 & L0).
  destruct (get0_wf momenta T sh (t + 1) Hwf Hs Hlt) as (m1 & E1 & S1 & L1).
  destruct (py_index_lt time t ltac:(lia)) as (t0 & P0 & N0).
  destruct (py_index_lt time (t + 1) ltac:(lia)) as (t1 & P1 & N1).
  exists m0, m1, t0, t1. repeat split; try assumption.
  unfold force_at, bind. rewrite E1, E0, P1, P0. reflexivity.
Qed.

Lemma Forall2_Forall_right {A B} (P : A -> B -> Prop) (Q : B -> Prop)
    (xs : list A) (ys : list B) :
  Forall2 P xs ys -> (forall x y, In x xs -> P x y -> Q y) -> Forall Q ys.
Proof.
  induction 1 as [|x y xs ys Hxy _ IH]; intros HQ; constructor.
  - apply (HQ x y); [left; reflexivity | exact Hxy].
  - apply IH. intros x' y' Hin. apply HQ. right. exact Hin.
Qed.

Lemma Forall_zip_with_diag {A B} (f : A -> A -> B) (P : B -> Prop) (d : list A) :
  Forall (fun x => P (f x x)) d -> Forall P (zip_with f d d).
Proof.
  induction 1; simpl; constructor; assumption.
Qed.

(** What [calc_forces] returns for a well-formed trajectory: it raises
    nothing, whatever the timestamps are. *)
Lemma calc_forces_entries (momenta : ndarray float) (time : list float)
    (T : nat) (sh : list nat) :
  wf momenta -> shape momenta = T :: sh -> T <= length time ->
  exists forces fs,
    calc_forces momenta time = Ok forces
    /\ shape0 forces = Ok (T - 1)
    /\ data forces = concat (List.map data fs)
    /\ Forall2 (fun t f => force_at momenta time t = Ok f) (seq 0 (T - 1)) fs
    /\ forall t f, nth_error fs t = Some f -> get0 forces t = Ok f.
Proof.
  intros Hwf Hs Ht.
  destruct (loop_all momenta time (seq 0 (T - 1)) []) as (fs & Hl & Hall).
  { apply Forall_forall. intros t Hin. apply elem_of_seq in Hin.
    destruct (force_at_ok momenta time T sh t Hwf Hs Ht ltac:(lia))
      as (m0 & m1 & t0 & t1 & _ & _ & _ & _ & -> & _). reflexivity. }
  destruct (stack_frames fs sh) as (forces & Hst & Hsh & Hd & Hget).
  { eapply Forall2_Forall_right; [exact Hall|].
    intros t f Hin Hf. apply in_seq in Hin.
    destruct (force_at_ok momenta time T sh t Hwf Hs Ht ltac:(lia))
      as (m0 & m1 & t0 & t1 & _ & _ & _ & _ & Hf' & S1 & L0 & L1).
    cbv beta in Hf. rewrite Hf' in Hf. injection Hf as <-. split; [exact S1|].
    cbn [Numpy.map map2 data]. rewrite length_map, length_zip_with. lia. }
  exists forces, fs. unfold calc_forces, shape0 at 1. rewrite Hs.
  change (py_index (T :: sh) 0) with (Ok (A:=nat) T).
  unfold bind. rewrite Hl. simpl app. rewrite Hst.
  split; [reflexivity|]. split.
  - rewrite Hsh. f_equal. apply Forall2_length in Hall.
    rewrite length_seq in Hall. symmetry. exact Hall.
  - split; [exact Hd|]. split; [exact Hall | exact Hget].
Qed.

End ForcesFacts.

(** C3 as stated fails: a constant momentum need not give zero forces.
    With the momentum [[inf, inf, inf]] at both timesteps and the times 0
    and 1, which are distinct, the entry of the series is
    [(inf - inf) / (1 - 0)], a NaN in each component, and a NaN is no
    zero. *)
Lemma calc_forces_constant_infinite_momentum :
  let momenta :=
    of_list3 1 3 [[[infinity; infinity; infinity]];
                  [[infinity; infinity; infinity]]] in
  Forces.constant_momentum momenta 2
  /\ Forces.distinct_consecutive [0; 1]%float
  /\ Forces.calc_forces momenta [0; 1]%float
     = Ok (mk_ndarray [1; 1; 3] [nan; nan; nan])
  /\ is_zero nan = false.
Proof.
  intros momenta. split; [|split; [|split]].
  - intros [|[|t]] Ht; try reflexivity. lia.
  - intros [|[|t]] t0 t1 E0 E1; simpl in E0, E1; try discriminate;
      try (destruct t; discriminate);
      inversion E0; inversion E1; subst; reflexivity.
  - vm_compute. reflexivity.
  - reflexivity.
Qed.

(** C3 (amended).  For a trajectory of T >= 1 timesteps with one timestamp
    per timestep, [calc_forces] returns a series of length T - 1 whose
    entry [t] is [(momenta[t+1] - momenta[t]) / (time[t+1] - time[t])],
    elementwise in binary64 arithmetic.  Consequently a constant momentum
    of finite values gives forces that are all zero when the timestamps are
    finite and consecutive ones are distinct; and the momenta [[0,0,0]],
    [[2,0,0]], [[2,0,0]] at the times 0, 1, 2 give the forces [[2,0,0]],
    [[0,0,0]]. *)
Theorem calc_forces_finite_difference (momenta : ndarray float)
    (time : list float) (T : nat) (sh : list nat) :
  wf momenta -> shape momenta = T :: sh -> 1 <= T -> length time = T ->
  (exists forces,
     Forces.calc_forces momenta time = Ok forces
     /\ shape0 forces = Ok (T - 1)
     /\ (forall t, t < T - 1 ->
           exists m0 m1 t0 t1,
             get0 momenta t = Ok m0 /\ get0 momenta (t + 1) = Ok m1
             /\ nth_error time t = Some t0 /\ nth_error time (t + 1) = Some t1
             /\ get0 forces t
                = Ok (Numpy.map (fun x => x / (t1 - t0))%float
                                (map2 PrimFloat.sub m1 m0)))
     /\ (Forces.constant_momentum momenta T ->
         Forall (fun x => is_finite x = true) (data momenta) ->
         Forall (fun x => is_finite x = true) time ->
         Forces.distinct_consecutive time ->
         Forall (fun x => is_zero x = true) (data forces)))
  /\ option_map tolist3
       (match Forces.calc_forces
                (of_list3 1 3 [[[0; 0; 0]]; [[2; 0; 0]]; [[2; 0; 0]]]%float)
                [0; 1; 2]%float
        with Ok a => Some a | Raise _ => None end)
     = Some [[[2; 0; 0]]; [[0; 0; 0]]]%float.
Proof.
  intros Hwf Hs HT Hlen. split; [|vm_compute; reflexivity].
  destruct (calc_forces_entries momenta time T sh Hwf Hs ltac:(lia))
    as (forces & fs & Hc & Hsh & Hd & Hall & Hget).
  exists forces. split; [exact Hc|]. split; [exact Hsh|]. split.
  - intros t Ht.
    destruct (force_at_ok momenta time T sh t Hwf Hs ltac:(lia) ltac:(lia))
      as (m0 & m1 & t0 & t1 & E0 & E1 & N0 & N1 & Hf & _).
    exists m0, m1, t0, t1. repeat split; try assumption.
    destruct (Forall2_nth_error_l _ _ _ t t Hall) as (f & Hn & Hm).
    { rewrite nth_error_seq. destruct (Nat.ltb_spec t (T - 1)); [reflexivity | lia]. }
    cbv beta in Hm. rewrite Hf in Hm. injection Hm as <-. apply Hget, Hn.
  - intros Hconst Hfin Htime Hdist. rewrite Hd.
    apply Forall_concat, List.Forall_map.
    eapply Forall2_Forall_right; [exact Hall|].
    intros t f Hin Hf. apply in_seq in Hin. cbv beta in Hf.
    destruct (force_at_ok momenta time T sh t Hwf Hs ltac:(lia) ltac:(lia))
      as (m0 & m1 & t0 & t1 & E0 & E1 & N0 & N1 & Hf' & _).
    rewrite Hf' in Hf. injection Hf as <-.
    assert (Em : m1 = m0).
    { rewrite (Hconst t) in E0 by lia. rewrite (Hconst (t + 1)) in E1 by lia.
      congruence. }
    subst m1. cbn [Numpy.map map2 data].
    apply List.Forall_map, Forall_zip_with_diag.
    assert (Hm0 : Forall (fun x => is_finite x = true) (data m0)).
    { unfold get0 in E0. rewrite Hs in E0.
      destruct (Nat.ltb t T); [|discriminate]. injection E0 as <-.
      cbn [data]. apply Forall_take, Forall_drop, Hfin. }
    assert (Ft0 : is_finite t0 = true).
    { rewrite Forall_forall in Htime. apply Htime, list_elem_of_In.
      eapply nth_error_In, N0. }
    assert (Ft1 : is_finite t1 = true).
    { rewrite Forall_forall in Htime. apply Htime, list_elem_of_In.
      eapply nth_error_In, N1. }
    destruct (sub_of_distinct t0 t1 Ft0 Ft1 (Hdist t t0 t1 N0 N1)) as [Hz Hn].
    eapply List.Forall_impl; [|exact Hm0].
    intros x Hx. cbv beta. rewrite (sub_diag_finite x Hx).
    apply zero_div; [reflexivity | exact Hz | exact Hn].
Qed.

Lemma calc_forces_finite_difference_witness :
  exists forces,
    Forces.calc_forces (of_list3 1 3 [[[1; 2; 3]]; [[1; 2; 3]]; [[1; 2; 3]]]%float)
                       [0; 0.5; 2]%float = Ok forces
    /\ shape0 forces = Ok 2
    /\ Forall (fun x => is_zero x = true) (data forces).
Proof.
  destruct (calc_forces_finite_difference
              (of_list3 1 3 [[[1; 2; 3]]; [[1; 2; 3]]; [[1; 2; 3]]]%float)
              [0; 0.5; 2]%float 3 [1; 3])
    as [(forces & Hc & Hsh & _ & Hz) _];
    [reflexivity | reflexivity | lia | reflexivity |].
  exists forces. split; [exact Hc|]. split; [exact Hsh|]. apply Hz.
  - intros [|[|[|t]]] Ht; try reflexivity. lia.
  - repeat constructor.
  - repeat constructor.
  - intros [|[|[|t]]] t0 t1 E0 E1; simpl in E0, E1; try discriminate;
      try (destruct t; discriminate);
      inversion E0; inversion E1; subst; reflexivity.
Defined.

(** C2 as stated fails: with two equal consecutive timestamps the call
    returns an array that holds an infinity and NaNs; nothing is raised. *)
Lemma calc_forces_equal_timestamps_returns :
  Forces.calc_forces (of_list3 1 3 [[[0; 0; 0]]; [[2; 0; 0]]]%float) [1; 1]%float
    = Ok (mk_ndarray [1; 1; 3] [infinity; nan; nan]).
Proof. vm_compute. reflexivity. Qed.

(** C2 (amended).  For every well-formed momentum/time input in which the
    timestamps [t] and [t + 1] are equal, [calc_forces] raises nothing: it
    returns the series of length T - 1, and every component of its entry
    [t] is an infinity or a NaN. *)
Theorem calc_forces_equal_timestamps (momenta : ndarray float)
    (time : list float) (T : nat) (sh : list nat) (t : nat) (t0 t1 : float) :
  wf momenta -> shape momenta = T :: sh -> length time = T ->
  t + 1 < T ->
  nth_error time t = Some t0 -> nth_error time (t + 1) = Some t1 ->
  (t0 =? t1)%float = true ->
  exists forces f,
    Forces.calc_forces momenta time = Ok forces
    /\ shape0 forces = Ok (T - 1)
    /\ get0 forces t = Ok f
    /\ Forall (fun x => Forces.inf_or_nan x = true) (data f).
Proof.
  intros Hwf Hs Hlen Ht N0 N1 Heq.
  destruct (calc_forces_entries momenta time T sh Hwf Hs ltac:(lia))
    as (forces & fs & Hc & Hsh & Hd & Hall & Hget).
  destruct (force_at_ok momenta time T sh t Hwf Hs ltac:(lia) Ht)
    as (m0 & m1 & t0' & t1' & E0 & E1 & N0' & N1' & Hf & _).
  assert (t0' = t0) by congruence. assert (t1' = t1) by congruence. subst t0' t1'.
  destruct (Forall2_nth_error_l _ _ _ t t Hall) as (f & Hn & Hm).
  { rewrite nth_error_seq. destruct (Nat.ltb_spec t (T - 1)); [reflexivity | lia]. }
  cbv beta in Hm. rewrite Hf in Hm. injection Hm as <-.
  eexists forces, _. split; [exact Hc|]. split; [exact Hsh|].
  split; [apply Hget, Hn|].
  cbn [Numpy.map data]. apply List.Forall_map, Forall_forall. intros x _.
  unfold Forces.inf_or_nan.
  pose proof (sub_of_equal t0 t1 Heq) as Hdt. apply orb_true_iff in Hdt.
  destruct Hdt as [Hz|Hn'].
  - apply div_by_zero, Hz.
  - rewrite (div_by_nan x _ Hn'). apply orb_true_r.
Qed.

Lemma calc_forces_equal_timestamps_witness :
  exists forces f,
    Forces.calc_forces (of_list3 1 3 [[[0; 0; 0]]; [[2; 0; 0]]]%float) [1; 1]%float
      = Ok forces
    /\ shape0 forces = Ok 1
    /\ get0 forces 0 = Ok f
    /\ Forall (fun x => Forces.inf_or_nan x = true) (data f).
Proof.
  apply (calc_forces_equal_timestamps
           (of_list3 1 3 [[[0; 0; 0]]; [[2; 0; 0]]]%float) [1; 1]%float
           2 [1; 3] 0 1%float 1%float); try reflexivity. lia.
Defined.

(* ===================================================================== *)
(** * Properties of the trajectory reader *)
(* ===================================================================== *)

Section TrajectoryFacts.

Import Trajectory.
Context {A : Type}.

(** On rows as long as the mask, a selection has as many entries as the
    mask has true flags. *)
Lemma select_length {B C} (mask : list bool) (r1 : list B) (r2 : list C) :
  length r1 = length mask -> length r2 = length mask ->
  length (select mask r1) = length (select mask r2).
Proof.
  revert r1 r2. induction mask as [|b mask IH]; intros r1 r2 H1 H2.
  - reflexivity.
  - destruct r1 as [|x1 r1]; [discriminate|].
    destruct r2 as [|x2 r2]; [discriminate|].
    simpl in *. destruct b; simpl; rewrite (IH r1 r2) by lia; reflexivity.
Qed.

Lemma concat_length_uniform {B} (n : nat) (ls : list (list B)) :
  Forall (fun l => length l = n) ls -> length (concat ls) = length ls * n.
Proof.
  induction 1 as [|l ls Hl _ IH]; simpl.
  - reflexivity.
  - rewrite length_app, IH, Hl. reflexivity.
Qed.

Lemma selected_rows_uniform (df : DataFrame A) (p : string) :
  rectangular df ->
  Forall (fun l => length l
                   = length (select (columns_contain df p) (columns df)))
         (List.map (select (columns_contain df p)) (rows df)).
Proof.
  intros Hrect. apply List.Forall_map.
  eapply List.Forall_impl; [|exact Hrect].
  intros r Hr. apply select_length.
  - unfold columns_contain. rewrite length_map. exact Hr.
  - unfold columns_contain. rewrite length_map. reflexivity.
Qed.

(** The reshape of a block of [3 * N] columns, for a table with a row. *)
Lemma reshape_block (df : DataFrame A) (p : string) (N : nat) :
  rectangular df -> 1 <= length (rows df) ->
  length (select (columns_contain df p) (columns df)) = 3 * N ->
  exists a,
    reshape_infer (loc_values df (columns_contain df p)) (length (rows df)) 3
      = Ok a
    /\ shape a = [length (rows df); N; 3]
    /\ forall i row, nth_error (rows df) i = Some row ->
         exists f, get0 a i = Ok f /\ shape f = [N; 3]
                   /\ data f = select (columns_contain df p) row.
Proof.
  intros Hrect Hrows Hk.
  pose proof (selected_rows_uniform df p Hrect) as Hu. rewrite Hk in Hu.
  unfold reshape_infer, loc_values. cbn [data].
  rewrite (concat_length_uniform _ _ Hu), length_map.
  set (R := length (rows df)) in *.
  replace (R * (3 * N)) with (N * (R * 3)) by lia.
  rewrite Nat.Div0.mod_mul, Nat.div_mul by lia.
  destruct (Nat.eqb_spec (R * 3) 0) as [E|_]; [lia|]. simpl orb. cbv iota.
  eexists. split; [reflexivity|]. split; [reflexivity|].
  intros i row Hi. unfold get0. cbn [shape data].
  assert (Hlt : i < R) by (apply nth_error_Some; congruence).
  destruct (Nat.ltb_spec i R); [|lia].
  eexists. split; [reflexivity|]. split; [reflexivity|]. cbn [data].
  replace (size_of [N; 3]) with (3 * N) by (simpl; lia).
  apply concat_chunk; [exact Hu|].
  rewrite nth_error_map, Hi. reflexivity.
Qed.

End TrajectoryFacts.

(** C5 as stated fails for a table without rows: [reshape(0, -1, 3)]
    cannot infer the middle dimension, and the reader raises. *)
Lemma read_trajdump_no_rows_raises :
  let df := Trajectory.mkDataFrame
              ["Time"; "pos1x"; "pos1y"; "pos1z"; "mom1x"; "mom1y"; "mom1z";
               "StateID"] (@nil (list float)) in
  Trajectory.rectangular df
  /\ length (Trajectory.select (Trajectory.columns_contain df "pos")
                               (Trajectory.columns df)) = 3 * 1
  /\ Trajectory.read_trajdump (fun _ => 0%Z) df
     = Raise (ValueError "cannot reshape array").
Proof.
  split; [constructor|]. split; reflexivity.
Qed.

(** C5 (amended).  For every normalized table with at least one row, a
    Time column, [3 * N] position columns and [3 * M] momentum columns,
    [read_trajdump] returns positions of shape (rows, N, 3) and momenta of
    shape (rows, M, 3); flattening the frame of row [i] gives back the
    position (momentum) columns of that row in their original order, three
    consecutive columns per atom. *)
Theorem read_trajdump_reshape {A : Type} (astype_int : A -> Z)
    (df : Trajectory.DataFrame A) (N M : nat) :
  Trajectory.rectangular df ->
  1 <= length (Trajectory.rows df) ->
  Trajectory.index_of "Time" (Trajectory.columns df) <> None ->
  length (Trajectory.select (Trajectory.columns_contain df "pos")
                            (Trajectory.columns df)) = 3 * N ->
  length (Trajectory.select (Trajectory.columns_contain df "mom")
                            (Trajectory.columns df)) = 3 * M ->
  exists positions momenta states time,
    Trajectory.read_trajdump astype_int df
      = Ok (positions, momenta, states, time)
    /\ shape positions = [length (Trajectory.rows df); N; 3]
    /\ shape momenta = [length (Trajectory.rows df); M; 3]
    /\ forall i row, nth_error (Trajectory.rows df) i = Some row ->
         exists p m,
           get0 positions i = Ok p
           /\ data p = Trajectory.select (Trajectory.columns_contain df "pos") row
           /\ tolist2 p
              = chunks 3 N (Trajectory.select (Trajectory.columns_contain df "pos") row)
           /\ get0 momenta i = Ok m
           /\ data m = Trajectory.select (Trajectory.columns_contain df "mom") row
           /\ tolist2 m
              = chunks 3 M (Trajectory.select (Trajectory.columns_contain df "mom") row).
Proof.
  intros Hrect Hrows Htime Hpos Hmom.
  destruct (reshape_block df "pos" N Hrect Hrows Hpos) as (positions & Ep & Sp & Gp).
  destruct (reshape_block df "mom" M Hrect Hrows Hmom) as (momenta & Em & Sm & Gm).
  unfold Trajectory.read_trajdump, Trajectory.column_values.
  destruct (Trajectory.index_of "Time" (Trajectory.columns df)) as [j|];
    [|congruence].
  unfold bind. rewrite Ep, Em.
  eexists positions, momenta, _, _. split; [reflexivity|].
  split; [exact Sp|]. split; [exact Sm|].
  intros i row Hi.
  destruct (Gp i row Hi) as (p & Hp & Shp & Dp).
  destruct (Gm i row Hi) as (m & Hm & Shm & Dm).
  exists p, m. repeat split; try assumption.
  - unfold tolist2. rewrite Shp, Dp. reflexivity.
  - unfold tolist2. rewrite Shm, Dm. reflexivity.
Qed.

Lemma read_trajdump_reshape_witness :
  let df := Trajectory.mkDataFrame
              ["Time"; "pos1x"; "pos1y"; "pos1z"; "pos2x"; "pos2y"; "pos2z";
               "mom1x"; "mom1y"; "mom1z"; "mom2x"; "mom2y"; "mom2z"; "StateID"]
              [[0; 1; 2; 3; 4; 5; 6; 7; 8; 9; 10; 11; 12; 1]%Z;
               [1; 21; 22; 23; 24; 25; 26; 27; 28; 29; 30; 31; 32; 1]%Z] in
  exists positions momenta states time,
    Trajectory.read_trajdump (fun z => z) df = Ok (positions, momenta, states, time)
    /\ tolist3 positions
       = [[[1; 2; 3]; [4; 5; 6]]; [[21; 22; 23]; [24; 25; 26]]]%Z
    /\ tolist3 momenta
       = [[[7; 8; 9]; [10; 11; 12]]; [[27; 28; 29]; [30; 31; 32]]]%Z.
Proof.
  intros df.
  destruct (read_trajdump_reshape (fun z => z) df 2 2)
    as (positions & momenta & states & time & Hr & _);
    [repeat constructor | simpl; lia | discriminate | reflexivity | reflexivity |].
  exists positions, momenta, states, time. split; [exact Hr|].
  vm_compute in Hr. injection Hr as <- <- _ _. split; reflexivity.
Defined.

(* ===================================================================== *)
(** * Properties of the topology parser *)
(* ===================================================================== *)

Section TopologyFacts.

Import Topology.

(** The lines from the sentinel on are never read. *)
Lemma scan_before_sentinel (s : state) (lines : list string) :
  scan s lines = scan s (before_sentinel lines).
Proof.
  revert s. induction lines as [|l rest IH]; intros s; simpl.
  - reflexivity.
  - destruct (is_sentinel l) eqn:E.
    + unfold step. unfold is_sentinel in E. rewrite E. reflexivity.
    + simpl. destruct (step s l) as [[s'|]|e]; simpl; try reflexivity. apply IH.
Qed.

Lemma before_sentinel_free (lines : list string) :
  Forall (fun l => is_sentinel l = false) (before_sentinel lines).
Proof.
  induction lines as [|l rest IH]; simpl.
  - constructor.
  - destruct (is_sentinel l) eqn:E; constructor; assumption.
Qed.

Lemma after_first_particle_Forall (P : string -> Prop) (lines : list string) :
  Forall P lines -> Forall P (after_first_particle lines).
Proof.
  induction 1 as [|l rest Hl H IH]; simpl.
  - constructor.
  - destruct (is_particle l); assumption.
Qed.

(** Before the first "Particle #" line nothing is recorded. *)
Lemma scan_until_particle (m : gmap string float) (a : list string)
    (el : option string) (lines : list string) :
  Forall (fun l => is_sentinel l = false) lines ->
  result_map topology (scan (mkState m a el false) lines)
  = result_map topology (scan (mkState m a el true) (after_first_particle lines)).
Proof.
  induction 1 as [|l rest Hl _ IH]; simpl.
  - reflexivity.
  - unfold step. unfold is_sentinel in Hl. rewrite Hl.
    unfold is_particle. destruct (PyStr.startswith (PyStr.strip l) "Particle #").
    + simpl. reflexivity.
    + simpl. exact IH.
Qed.

Lemma first_seen_cons (e0 : string) (m0 : float)
    (entries : list (string * float)) (e : string) :
  first_seen ((e0, m0) :: entries) e
  = if String.eqb e0 e then Some m0 else first_seen entries e.
Proof.
  unfold first_seen. simpl. destruct (String.eqb e0 e); reflexivity.
Qed.

Lemma scan_cons (s : state) (l : string) (rest : list string) :
  scan s (l :: rest)
  = match step s l with
    | Ok (Continue s') => scan s' rest
    | Ok Break => Ok s
    | Raise e => Raise e
    end.
Proof. simpl. destruct (step s l) as [[s'|]|e]; reflexivity. Qed.

Lemma step_particle (s : state) (l : string) :
  is_sentinel l = false -> is_particle l = true ->
  step s l = Ok (Continue (mkState (st_masses s) (st_atoms s) (st_element s) true)).
Proof.
  unfold is_sentinel, is_particle, step. intros -> ->. reflexivity.
Qed.

Lemma step_element (s : state) (l sym : string) :
  is_sentinel l = false -> is_particle l = false -> st_reading s = true ->
  is_element_line l = true -> symbol_of l = Some sym ->
  step s l = Ok (Continue (mkState (st_masses s) (st_atoms s ++ [sym])
                                   (Some sym) true)).
Proof.
  unfold is_sentinel, is_particle, is_element_line, symbol_of, step, py_index.
  intros -> -> -> -> ->. reflexivity.
Qed.

Lemma step_mass (s : state) (l el : string) (mass : float) :
  is_sentinel l = false -> is_particle l = false -> st_reading s = true ->
  is_element_line l = false -> is_mass_line l = true ->
  st_element s = Some el -> mass_of l = Some mass ->
  step s l
  = Ok (Continue match st_masses s !! el with
                 | Some _ => s
                 | None => mkState (<[el := mass]> (st_masses s)) (st_atoms s)
                                   (st_element s) (st_reading s)
                 end).
Proof.
  unfold is_sentinel, is_particle, is_element_line, is_mass_line, mass_of, step,
    py_index, float_of_str.
  intros -> -> Hr -> -> -> Hm. rewrite Hr.
  destruct (nth_error (PyStr.split (PyStr.strip l)) 1) as [tok|]; [|discriminate].
  cbv beta iota delta [bind]. rewrite Hm.
  destruct (st_masses s !! el); reflexivity.
Qed.

Lemma step_mass_no_element (s : state) (l : string) :
  is_sentinel l = false -> is_particle l = false -> st_reading s = true ->
  is_element_line l = false -> is_mass_line l = true ->
  st_element s = None ->
  step s l = Ok (Continue s).
Proof.
  unfold is_sentinel, is_particle, is_element_line, is_mass_line, step.
  intros -> -> -> -> -> ->. reflexivity.
Qed.

Lemma step_other (s : state) (l : string) :
  is_sentinel l = false -> is_particle l = false -> st_reading s = true ->
  is_element_line l = false -> is_mass_line l = false ->
  step s l = Ok (Continue s).
Proof.
  unfold is_sentinel, is_particle, is_element_line, is_mass_line, step.
  intros -> -> -> -> ->. reflexivity.
Qed.

Lemma element_lines_cons (l : string) (rest : list string) :
  element_lines (l :: rest)
  = if is_element_line l then l :: element_lines rest else element_lines rest.
Proof. reflexivity. Qed.

Lemma mass_entries_cons (cur : option string) (l : string) (rest : list string) :
  mass_entries cur (l :: rest)
  = if is_element_line l then
      mass_entries (match symbol_of l with Some e => Some e | None => cur end) rest
    else if is_mass_line l then
      match cur, mass_of l with
      | Some e, Some m => (e, m) :: mass_entries cur rest
      | _, _ => mass_entries cur rest
      end
    else mass_entries cur rest.
Proof. reflexivity. Qed.

(** The loop over a well-formed range, from any state that is reading. *)
Lemma scan_range (range : list string) :
  Forall (fun l => is_sentinel l = false) range ->
  Forall (fun l => well_formed_line l = true) range ->
  forall (m : gmap string float) (a : list string) (el : option string),
  exists s' atoms,
    scan (mkState m a el true) range = Ok s'
    /\ st_atoms s' = a ++ atoms
    /\ List.map Some atoms = List.map symbol_of (element_lines range)
    /\ forall e, st_masses s' !! e
                 = match m !! e with
                   | Some x => Some x
                   | None => first_seen (mass_entries el range) e
                   end.
Proof.
  induction 1 as [|l rest Hl _ IH]; intros Hwf m a el.
  - exists (mkState m a el true), []. simpl. rewrite app_nil_r.
    repeat split; try reflexivity. intros e. destruct (m !! e); reflexivity.
  - inversion Hwf as [|? ? Hwl Hwr]; subst. specialize (IH Hwr).
    unfold well_formed_line in Hwl.
    rewrite scan_cons, element_lines_cons, mass_entries_cons.
    destruct (is_particle l) eqn:Ep.
    + apply andb_prop in Hwl. destruct Hwl as [He Hm].
      apply negb_true_iff in He, Hm. rewrite He, Hm.
      rewrite step_particle by assumption. apply IH.
    + destruct (is_element_line l) eqn:Ee.
      * destruct (symbol_of l) as [sym|] eqn:Esym; [|discriminate].
        rewrite (step_element _ l sym) by (try assumption; reflexivity).
        destruct (IH m (a ++ [sym]) (Some sym))
          as (s' & atoms & Hs & Ha & Hsym & Hmass).
        exists s', (sym :: atoms). split; [exact Hs|]. split.
        { rewrite Ha, <- app_assoc. reflexivity. }
        split; [|exact Hmass].
        cbn [List.map]. rewrite Esym. f_equal. exact Hsym.
      * destruct (is_mass_line l) eqn:Em.
        -- destruct el as [el|].
           ++ destruct (mass_of l) as [mass|] eqn:Emass; [|discriminate].
              rewrite (step_mass _ l el mass) by (try assumption; reflexivity).
              cbn [st_masses st_atoms st_element st_reading].
              destruct (m !! el) as [y|] eqn:Emel.
              ** destruct (IH m a (Some el))
                   as (s' & atoms & Hs & Ha & Hsym & Hmass).
                 exists s', atoms. repeat split; try assumption.
                 intros e. rewrite Hmass, first_seen_cons.
                 destruct (m !! e) eqn:Eme; [reflexivity|].
                 destruct (String.eqb_spec el e) as [->|_];
                   [congruence | reflexivity].
              ** destruct (IH (<[el := mass]> m) a (Some el))
                   as (s' & atoms & Hs & Ha & Hsym & Hmass).
                 exists s', atoms. repeat split; try assumption.
                 intros e. rewrite Hmass, first_seen_cons.
                 destruct (String.eqb_spec el e) as [->|Hne].
                 --- rewrite lookup_insert_eq, Emel. reflexivity.
                 --- rewrite lookup_insert_ne by exact Hne. reflexivity.
           ++ rewrite step_mass_no_element by (try assumption; reflexivity).
              apply IH.
        -- rewrite step_other by (try assumption; reflexivity). apply IH.
Qed.

End TopologyFacts.

(** C4 as stated fails: an "Element:" line in the range that holds no
    second token makes the parser raise [IndexError], so no atom list is
    returned for the one "Element:" line of the range. *)
Lemma extract_masses_and_symbols_raises :
  let report := "Particle # 1
Element:
Propagate until: 10.0" in
  length (Topology.element_lines
            (Topology.particle_range (PyStr.splitlines report))) = 1
  /\ Topology.extract_masses_and_symbols (fresh "metal") report
     = Raise IndexError.
Proof. split; vm_compute; reflexivity. Qed.

(** The symbol of an "Element:" line is the second token of the line,
    whatever stands before the "Element:" token: on the line
    [Atom Element: C] the parser lists the atom "Element:". *)
Lemma extract_takes_second_token :
  Topology.extract_masses_and_symbols (fresh "metal") "Particle # 1
Atom Element: C
Propagate until: 10.0"
  = Ok (set_topology (fresh "metal") ["Element:"] ∅).
Proof. vm_compute. reflexivity. Qed.

(** C4 (amended).  Take the lines of the report strictly between the first
    line that begins with "Particle #" and the first line that contains
    "Propagate until:" (each line without its surrounding white space),
    and suppose that among them every line that begins with "Particle #"
    contains neither "Element:" nor "Mass:", every other line that contains
    "Element:" has at least two tokens separated by white space, and every
    remaining line that contains "Mass:" has a second token that [float]
    accepts.  Then the parser returns; its atom list holds the second token
    of each line of that range that contains "Element:", in order and with
    duplicates, so that its length is the number of those lines; and its
    mass map holds for each element exactly the first mass listed for it
    in that range, the mass of a "Mass:" line being its second token and
    its element the second token of the latest "Element:" line above it.
    Reports that agree above the "Propagate until:" line give the same
    result: what follows the marker contributes nothing. *)
Theorem extract_masses_and_symbols_range (self : AimsIO) (fms_out : string) :
  Forall (fun l => Topology.well_formed_line l = true)
         (Topology.particle_range (PyStr.splitlines fms_out)) ->
  (exists atoms masses,
     Topology.extract_masses_and_symbols self fms_out
       = Ok (set_topology self atoms masses)
     /\ length atoms
        = length (Topology.element_lines
                    (Topology.particle_range (PyStr.splitlines fms_out)))
     /\ List.map Some atoms
        = List.map Topology.symbol_of
            (Topology.element_lines
               (Topology.particle_range (PyStr.splitlines fms_out)))
     /\ forall e : string,
          masses !! e
          = Topology.first_seen
              (Topology.mass_entries None
                 (Topology.particle_range (PyStr.splitlines fms_out))) e)
  /\ forall other : string,
       Topology.before_sentinel (PyStr.splitlines other)
         = Topology.before_sentinel (PyStr.splitlines fms_out) ->
       Topology.extract_masses_and_symbols self other
         = Topology.extract_masses_and_symbols self fms_out.
Proof.
  intros Hwf. split.
  - unfold Topology.extract_masses_and_symbols.
    rewrite scan_before_sentinel.
    pose proof (scan_until_particle ∅ [] None _
                  (before_sentinel_free (PyStr.splitlines fms_out))) as Hskip.
    fold Topology.init in Hskip.
    fold (Topology.particle_range (PyStr.splitlines fms_out)) in Hskip.
    destruct (scan_range (Topology.particle_range (PyStr.splitlines fms_out)))
      with (m := (∅ : gmap string float)) (a := @nil string) (el := @None string)
      as (s' & atoms & Hs & Ha & Hsym & Hmass).
    { apply after_first_particle_Forall, before_sentinel_free. }
    { exact Hwf. }
    rewrite Hs in Hskip. simpl in Hskip.
    destruct (Topology.scan Topology.init
                (Topology.before_sentinel (PyStr.splitlines fms_out)))
      as [s0|e]; [|discriminate].
    simpl in Hskip. injection Hskip as Hatoms Hmasses.
    exists (Topology.st_atoms s0), (Topology.st_masses s0).
    split; [reflexivity|].
    rewrite Hatoms, Hmasses, Ha. simpl app.
    split; [|split; [exact Hsym|]].
    + rewrite <- (length_map Some atoms), Hsym, length_map. reflexivity.
    + intros e. rewrite Hmass, lookup_empty. reflexivity.
  - intros other Heq. unfold Topology.extract_masses_and_symbols.
    rewrite (scan_before_sentinel _ (PyStr.splitlines other)),
            (scan_before_sentinel _ (PyStr.splitlines fms_out)), Heq.
    reflexivity.
Qed.

Lemma extract_masses_and_symbols_range_witness :
  let report := "FMS topology
Particle #   1
  Element: C
  Mass: 21874.66
Particle #   2
  Element: C
  Mass: 21874.66
Particle #   3
  Element: H
  Mass: 1837.15
Particle #   4
  Element: H
  Mass: 1837.15
Particle #   5
  Element: H
  Mass: 1900.00
Particle #   6
  Element: H
  Mass: 1837.15
Propagate until: 1000.0
Particle #   7
  Element: O
  Mass: 29156.95
" in
  exists atoms masses,
    Topology.extract_masses_and_symbols (fresh "metal") report
      = Ok (set_topology (fresh "metal") atoms masses)
    /\ length atoms = 6
    /\ List.map Some atoms
       = [Some "C"; Some "C"; Some "H"; Some "H"; Some "H"; Some "H"]
    /\ masses !! "C" = Some 21874.66%float
    /\ masses !! "H" = Some 1837.15%float
    /\ masses !! "O" = None.
Proof.
  intros report.
  destruct (extract_masses_and_symbols_range (fresh "metal") report)
    as [(atoms & masses & Hr & Hlen & Hsym & Hmass) _].
  { vm_compute Topology.particle_range. repeat constructor. }
  exists atoms, masses. split; [exact Hr|].
  split; [rewrite Hlen; vm_compute; reflexivity|].
  split; [rewrite Hsym; vm_compute; reflexivity|].
  rewrite !Hmass. repeat split; vm_compute; reflexivity.
Defined.

(* ===================================================================== *)
(** * Decimal digits: printing and reading back *)
(* ===================================================================== *)

Section DecimalFacts.

Import PyNum PyRepr.
#[local] Open Scope Z_scope.

Lemma digits_tail_stops (acc : Z) (n : nat) (rest : string) :
  stops rest -> digits_tail acc n rest = (acc, n, rest).
Proof.
  destruct rest as [|c r]; simpl; [reflexivity|].
  intros [-> ->]. reflexivity.
Qed.

Lemma digits_tail_uint (d : Decimal.uint) (acc : Z) (n : nat) (rest : string) :
  stops rest ->
  exists n', digits_tail acc n (NilEmpty.string_of_uint d ++ rest)
             = (uint_val acc d, n', rest).
Proof.
  intros Hs. revert acc n.
  induction d; intros acc n; simpl;
    try (apply IHd).
  exists n. apply digits_tail_stops, Hs.
Qed.

Lemma uint_val_acc (d : Decimal.uint) (acc : positive) :
  uint_val (Zpos acc) d = Zpos (Pos.of_uint_acc d acc).
Proof.
  revert acc. induction d; intros acc; simpl; try reflexivity;
    rewrite <- IHd; f_equal; lia.
Qed.

Lemma uint_val_0 (d : Decimal.uint) :
  uint_val 0 d = Z.of_N (Pos.of_uint d).
Proof.
  induction d; simpl; try reflexivity; try exact IHd;
    rewrite <- uint_val_acc; reflexivity.
Qed.

Lemma uint_val_to_uint (p : positive) :
  uint_val 0 (Pos.to_uint p) = Zpos p.
Proof.
  rewrite uint_val_0, DecimalPos.Unsigned.of_to. reflexivity.
Qed.

(** The digits of a positive number start with a digit. *)
Lemma digits_of_pos_head (p : positive) :
  exists c s, digits_of_pos p = String c s /\ digit_val c <> None
              /\ Ascii.eqb c "-" = false /\ Ascii.eqb c "+" = false
              /\ Ascii.eqb c "." = false.
Proof.
  unfold digits_of_pos.
  pose proof (DecimalPos.Unsigned.to_uint_nonnil p) as Hn.
  destruct (Pos.to_uint p); try congruence; simpl;
    eexists _, _; (split; [reflexivity|]); repeat split; discriminate.
Qed.

(** Reading back the digits of a positive number. *)
Lemma digitpart_digits (p : positive) (rest : string) :
  stops rest ->
  exists n, digitpart 0 (digits_of_pos p ++ rest) = Some (Zpos p, n, rest).
Proof.
  intros Hs.
  destruct (digits_tail_uint (Pos.to_uint p) 0 0 rest Hs) as [n Hn].
  exists n. rewrite uint_val_to_uint in Hn. rewrite <- Hn.
  unfold digits_of_pos.
  pose proof (DecimalPos.Unsigned.to_uint_nonnil p) as Hnil.
  destruct (Pos.to_uint p); try congruence; reflexivity.
Qed.

End DecimalFacts.

Section StringFacts.

Lemma append_cons (c : ascii) (a b : string) :
  (String c a ++ b)%string = String c (a ++ b).
Proof. reflexivity. Qed.

Lemma append_empty_l (b : string) : ("" ++ b)%string = b.
Proof. reflexivity. Qed.

Lemma append_empty_r (s : string) : (s ++ "")%string = s.
Proof.
  induction s as [|c s IH]; [reflexivity|].
  rewrite append_cons, IH. reflexivity.
Qed.

Lemma append_assoc (a b c : string) :
  ((a ++ b) ++ c)%string = (a ++ (b ++ c))%string.
Proof.
  induction a as [|x a IH]; [reflexivity|].
  rewrite !append_cons, IH. reflexivity.
Qed.

Lemma all_chars_app (P : ascii -> bool) (a b : string) :
  PyStr.all_chars P (a ++ b) = PyStr.all_chars P a && PyStr.all_chars P b.
Proof.
  induction a as [|c a IH]; [reflexivity|].
  rewrite append_cons. simpl. rewrite IH, andb_assoc. reflexivity.
Qed.

Lemma all_chars_impl (P Q : ascii -> bool) (s : string) :
  (forall c, P c = true -> Q c = true) ->
  PyStr.all_chars P s = true -> PyStr.all_chars Q s = true.
Proof.
  intros HPQ. induction s as [|c s IH]; simpl; [reflexivity|].
  intros H. apply andb_prop in H. destruct H as [Hc Hs].
  rewrite (HPQ c Hc), (IH Hs). reflexivity.
Qed.

(** A string without whitespace is its own [strip()]. *)
Lemma rstrip_id (s : string) :
  PyStr.all_chars (fun c => negb (PyStr.is_space c)) s = true ->
  PyStr.rstrip s = s.
Proof.
  induction s as [|c s IH]; simpl; [reflexivity|].
  intros H. apply andb_prop in H. destruct H as [Hc Hs].
  rewrite (IH Hs). apply negb_true_iff in Hc. rewrite Hc.
  destruct s; reflexivity.
Qed.

Lemma strip_id (s : string) :
  PyStr.all_chars (fun c => negb (PyStr.is_space c)) s = true ->
  PyStr.strip s = s.
Proof.
  intros H. unfold PyStr.strip.
  assert (Hl : PyStr.lstrip s = s).
  { destruct s as [|c s]; [reflexivity|]. simpl in *.
    apply andb_prop in H. destruct H as [Hc _].
    apply negb_true_iff in Hc. rewrite Hc. reflexivity. }
  rewrite Hl. apply rstrip_id, H.
Qed.

End StringFacts.

Section IntRoundTrip.

Import PyNum PyRepr.

Lemma uint_digits (d : Decimal.uint) :
  PyStr.all_chars is_digit (NilEmpty.string_of_uint d) = true.
Proof. induction d; simpl; try reflexivity; exact IHd. Qed.

Lemma digits_of_pos_digits (p : positive) :
  PyStr.all_chars is_digit (digits_of_pos p) = true.
Proof. apply uint_digits. Qed.

Lemma is_digit_not_space (c : ascii) :
  is_digit c = true -> negb (PyStr.is_space c) = true.
Proof.
  unfold is_digit, digit_val, PyStr.is_space.
  destruct (Nat.leb_spec 48 (nat_of_ascii c)); simpl; [|discriminate].
  destruct (Nat.leb_spec (nat_of_ascii c) 57); simpl; [|discriminate].
  intros _.
  destruct (Nat.leb_spec (nat_of_ascii c) 13); [lia|].
  destruct (Nat.leb_spec (nat_of_ascii c) 31); [lia|].
  destruct (Nat.eqb_spec (nat_of_ascii c) 32); [lia|].
  rewrite !andb_false_r. reflexivity.
Qed.

Lemma digits_of_pos_strip (p : positive) :
  PyStr.strip (digits_of_pos p) = digits_of_pos p.
Proof.
  apply strip_id. eapply all_chars_impl; [|apply digits_of_pos_digits].
  apply is_digit_not_space.
Qed.

(** [int(str(n)) == n] *)
Lemma py_int_str_of_Z (n : Z) : py_int (str_of_Z n) = Some n.
Proof.
  destruct n as [|p|p]; [reflexivity| |].
  - unfold py_int, str_of_Z. rewrite digits_of_pos_strip.
    destruct (digits_of_pos_head p) as (c & s & E & Hd & Hm & Hp & _).
    destruct (digitpart_digits p "" I) as [n Hn]. rewrite append_empty_r in Hn.
    rewrite E in *. unfold sign. rewrite Hm, Hp, Hn. reflexivity.
  - unfold py_int, str_of_Z.
    assert (Hs : PyStr.strip (String "-" (digits_of_pos p))
                 = String "-" (digits_of_pos p)).
    { apply strip_id. simpl. eapply all_chars_impl; [|apply digits_of_pos_digits].
      apply is_digit_not_space. }
    rewrite Hs.
    destruct (digitpart_digits p "" I) as [n Hn]. rewrite append_empty_r in Hn.
    unfold sign. simpl Ascii.eqb. cbv iota. rewrite Hn. reflexivity.
Qed.

End IntRoundTrip.

(* ===================================================================== *)
(** * Reading an exact decimal value gives the number itself *)
(* ===================================================================== *)

Section ExactDivision.

#[local] Open Scope Z_scope.

Lemma shr_1_even (z : Z) :
  0 < z ->
  shr_1 {| shr_m := z * 2; shr_r := false; shr_s := false |}
  = {| shr_m := z; shr_r := false; shr_s := false |}.
Proof.
  intros Hz. destruct z as [|q|q]; try lia.
  replace (Zpos q * 2) with (Zpos q~0) by lia. reflexivity.
Qed.

Lemma iter_pos_xI {X} (f : X -> X) (p : positive) (x : X) :
  SpecFloat.iter_pos f p~1 x = SpecFloat.iter_pos f p (SpecFloat.iter_pos f p (f x)).
Proof. reflexivity. Qed.

Lemma iter_pos_xO {X} (f : X -> X) (p : positive) (x : X) :
  SpecFloat.iter_pos f p~0 x = SpecFloat.iter_pos f p (SpecFloat.iter_pos f p x).
Proof. reflexivity. Qed.

Lemma iter_pos_xH {X} (f : X -> X) (x : X) : SpecFloat.iter_pos f 1 x = f x.
Proof. reflexivity. Qed.

(** Shifting out [p] zero bits loses nothing. *)
Lemma iter_pos_shr_1_exact (p : positive) (z : Z) :
  0 < z ->
  SpecFloat.iter_pos shr_1 p
    {| shr_m := z * 2 ^ Zpos p; shr_r := false; shr_s := false |}
  = {| shr_m := z; shr_r := false; shr_s := false |}.
Proof.
  revert z. induction p as [p IH|p IH|]; intros z Hz.
  - assert (Hp : 0 < 2 ^ Zpos p) by (apply Z.pow_pos_nonneg; lia).
    replace (z * 2 ^ Zpos p~1) with (z * 2 ^ Zpos p * 2 ^ Zpos p * 2).
    2:{ replace (Zpos p~1) with (Zpos p + Zpos p + 1) by lia.
        rewrite !Z.pow_add_r by lia. lia. }
    rewrite iter_pos_xI, shr_1_even by nia. rewrite IH by nia. apply IH, Hz.
  - assert (Hp : 0 < 2 ^ Zpos p) by (apply Z.pow_pos_nonneg; lia).
    replace (z * 2 ^ Zpos p~0) with (z * 2 ^ Zpos p * 2 ^ Zpos p).
    2:{ replace (Zpos p~0) with (Zpos p + Zpos p) by lia.
        rewrite !Z.pow_add_r by lia. lia. }
    rewrite iter_pos_xO, IH by nia. apply IH, Hz.
  - replace (z * 2 ^ 1) with (z * 2) by lia. rewrite iter_pos_xH.
    apply shr_1_even, Hz.
Qed.

Lemma Zdigits2_pos (z : Z) (d : Z) :
  0 < z -> 0 <= d - 1 -> 2 ^ (d - 1) <= z < 2 ^ d -> Zdigits2 z = d.
Proof.
  intros Hz Hd Hb. destruct z as [|q|q]; try lia. simpl.
  pose proof (digits2_pos_bounds q) as Bq.
  eapply binade_unique; [| |exact Bq|exact Hb]; lia.
Qed.

Lemma Zdigits2_scaled (m : positive) (j : Z) :
  0 <= j -> Zdigits2 (Zpos m * 2 ^ j) = Zpos (digits2_pos m) + j.
Proof.
  intros Hj. pose proof (scaled_bounds m j Hj) as B.
  assert (0 < 2 ^ j) by (apply Z.pow_pos_nonneg; lia).
  apply Zdigits2_pos; [nia | lia | exact B].
Qed.

(** Rounding an exactly representable value returns its canonical form. *)
Lemma binary_round_aux_exact (s : bool) (m : positive) (e j : Z) :
  canonical_mantissa prec emax m e = true -> e <= emax - prec -> 0 <= j ->
  binary_round_aux prec emax s (Zpos m * 2 ^ j) (e - j) loc_Exact
  = S754_finite s m e.
Proof.
  intros Hc Hb Hj. unfold canonical_mantissa in Hc. apply Z.eqb_eq in Hc.
  assert (H1 : shr_fexp prec emax (Zpos m * 2 ^ j) (e - j) loc_Exact
               = ({| shr_m := Zpos m; shr_r := false; shr_s := false |}, e)).
  { unfold shr_fexp. rewrite Zdigits2_scaled by exact Hj.
    replace (Zpos (digits2_pos m) + j + (e - j)) with (Zpos (digits2_pos m) + e) by lia.
    rewrite Hc. replace (e - (e - j)) with j by lia.
    unfold shr, shr_record_of_loc. destruct j as [|p|p]; try lia.
    - rewrite Z.mul_1_r. f_equal. lia.
    - rewrite iter_pos_shr_1_exact by lia. f_equal. lia. }
  assert (H2 : shr_fexp prec emax (Zpos m) e loc_Exact
               = ({| shr_m := Zpos m; shr_r := false; shr_s := false |}, e)).
  { unfold shr_fexp. simpl Zdigits2. rewrite Hc, Z.sub_diag. reflexivity. }
  unfold binary_round_aux. rewrite H1. simpl loc_of_shr_record.
  simpl round_nearest_even. rewrite H2. simpl shr_m.
  apply Z.leb_le in Hb. rewrite Hb. reflexivity.
Qed.

Lemma new_location_zero (n : Z) : new_location n 0 = loc_Exact.
Proof.
  unfold new_location, new_location_even, new_location_odd.
  destruct (Z.even n); reflexivity.
Qed.

Lemma fexp_mono (a b : Z) : a <= b -> fexp prec emax a <= fexp prec emax b.
Proof. unfold fexp. lia. Qed.

(** The quotient of two integers that is exactly a binary64 number is
    computed as that number. *)
Lemma SFdiv_exact (s : bool) (m : positive) (e : Z) (N D : positive) :
  canonical_mantissa prec emax m e = true -> e <= emax - prec ->
  (0 <= e -> Zpos N = Zpos m * 2 ^ e * Zpos D) ->
  (e < 0 -> Zpos N * 2 ^ (- e) = Zpos m * Zpos D) ->
  SFdiv prec emax (S754_finite s N 0) (S754_finite false D 0)
  = S754_finite s m e.
Proof.
  intros Hc Hb Hpos Hneg.
  pose proof Hc as Hc'. unfold canonical_mantissa in Hc'. apply Z.eqb_eq in Hc'.
  unfold SFdiv, SFdiv_core_binary.
  set (d1 := Zdigits2 (Zpos N)). set (d2 := Zdigits2 (Zpos D)).
  rewrite !Z.add_0_r, Z.sub_0_r.
  set (e' := Z.min (fexp prec emax (d1 - d2)) 0).
  assert (He' : e' <= e).
  { destruct (Z.le_gt_cases 0 e) as [H0|H0]; [lia|].
    specialize (Hneg H0).
    enough (d1 - d2 <= Zpos (digits2_pos m) + e).
    { pose proof (fexp_mono _ _ H). lia. }
    pose proof (digits2_pos_bounds N) as [BN _].
    pose proof (digits2_pos_bounds D) as [_ BD].
    pose proof (digits2_pos_bounds m) as [_ Bm].
    subst d1 d2. simpl Zdigits2.
    set (dN := Zpos (digits2_pos N)) in *. set (dD := Zpos (digits2_pos D)) in *.
    set (dm := Zpos (digits2_pos m)) in *.
    assert (P1 : 0 < 2 ^ (- e)) by (apply Z.pow_pos_nonneg; lia).
    assert (L : 2 ^ (dN - 1 + - e) < 2 ^ (dm + dD)).
    { rewrite !Z.pow_add_r by lia.
      apply Z.le_lt_trans with (Zpos N * 2 ^ (- e)); [nia|].
      rewrite Hneg. apply Z.mul_lt_mono_nonneg; lia. }
    apply Z.pow_lt_mono_r_iff in L; lia. }
  assert (Hm' : (match 0 - e' with
                 | Zpos _ => Z.shiftl (Zpos N) (0 - e')
                 | Z0 => Zpos N
                 | Zneg _ => 0
                 end) = Zpos m * 2 ^ (e - e') * Zpos D).
  { assert (He0 : e' <= 0) by (subst e'; lia).
    assert (Hsh : (match 0 - e' with
                   | Zpos _ => Z.shiftl (Zpos N) (0 - e')
                   | Z0 => Zpos N
                   | Zneg _ => 0
                   end) = Zpos N * 2 ^ (- e')).
    { destruct (0 - e') as [|q|q] eqn:Eq; try lia.
      - replace (- e') with 0 by lia. lia.
      - rewrite Z.shiftl_mul_pow2 by lia. f_equal. f_equal. lia. }
    rewrite Hsh.
    destruct (Z.le_gt_cases 0 e) as [H0|H0].
    - rewrite (Hpos H0). replace (e - e') with (e + - e') by lia.
      rewrite Z.pow_add_r by lia. lia.
    - specialize (Hneg H0).
      replace (- e') with (- e + (e - e')) by lia.
      rewrite Z.pow_add_r by lia. nia. }
  rewrite Hm'.
  assert (Hdiv : Z.div_eucl (Zpos m * 2 ^ (e - e') * Zpos D) (Zpos D)
                 = (Zpos m * 2 ^ (e - e'), 0)).
  { pose proof (Z.div_eucl_eq (Zpos m * 2 ^ (e - e') * Zpos D) (Zpos D) ltac:(lia)) as Heq.
    pose proof (Z.mod_pos_bound (Zpos m * 2 ^ (e - e') * Zpos D) (Zpos D) ltac:(lia)) as Hbd.
    unfold Z.modulo in Hbd.
    destruct (Z.div_eucl (Zpos m * 2 ^ (e - e') * Zpos D) (Zpos D)) as [q r].
    assert (q = Zpos m * 2 ^ (e - e')) by nia.
    f_equal; [assumption | nia]. }
  rewrite Hdiv, new_location_zero, xorb_false_r.
  replace e' with (e - (e - e')) at 2 by lia.
  apply binary_round_aux_exact; [exact Hc | exact Hb | lia].
Qed.

End ExactDivision.

Section FloatRoundTrip.

Import PyNum PyRepr.

Lemma digit_head_not_word (c : ascii) (r : string) :
  is_digit c = true ->
  String.eqb (PyStr.lower (String c r)) "inf" = false
  /\ String.eqb (PyStr.lower (String c r)) "infinity" = false
  /\ String.eqb (PyStr.lower (String c r)) "nan" = false
  /\ Ascii.eqb c "-" = false /\ Ascii.eqb c "+" = false.
Proof.
  destruct c as [[] [] [] [] [] [] [] []]; try discriminate; intros _;
    repeat split; reflexivity.
Qed.

(** [float] on a sign followed by a text that starts with a digit and has
    no whitespace. *)
Lemma py_float_signed (neg : bool) (c : ascii) (r : string) :
  is_digit c = true ->
  PyStr.all_chars (fun c => negb (PyStr.is_space c)) (String c r) = true ->
  py_float (sign_text neg ++ String c r) = floatnumber neg (String c r).
Proof.
  intros Hd Hs.
  destruct (digit_head_not_word c r Hd) as (H1 & H2 & H3 & H4 & H5).
  unfold py_float. rewrite strip_id.
  2:{ destruct neg; [|exact Hs]. simpl sign_text. rewrite append_cons, append_empty_l.
      simpl. simpl in Hs. exact Hs. }
  destruct neg; simpl sign_text.
  - rewrite append_cons, append_empty_l. simpl sign. cbv iota beta.
    rewrite H1, H2, H3. reflexivity.
  - rewrite append_empty_l. unfold sign. rewrite H4, H5.
    rewrite H1, H2, H3. reflexivity.
Qed.

Lemma first_roundtrip_sound (x : float) (texts : list string) (t : string) :
  first_roundtrip x texts = Some t -> py_float t = Some x.
Proof.
  induction texts as [|u rest IH]; simpl; [discriminate|].
  destruct (py_float u) as [y|] eqn:E; [|exact IH].
  destruct (PrimFloat.Leibniz.eqb y x) eqn:Eq; [|exact IH].
  intros [= <-]. apply FloatAxioms.Leibniz.eqb_spec in Eq. congruence.
Qed.

Lemma of_decimal_fraction (neg : bool) (N k : positive) :
  of_decimal neg (Zpos N) (Zneg k)
  = SF2Prim (SFdiv prec emax (S754_finite neg N 0)
                             (S754_finite false (Pos.pow 10 k) 0)).
Proof. reflexivity. Qed.

Lemma is_digit_e : digit_val "e" = None /\ Ascii.eqb "e" "_" = false.
Proof. split; reflexivity. Qed.

Lemma floatnumber_point_zero (neg : bool) (M : positive) :
  floatnumber neg (digits_of_pos M ++ ".0")
  = Some (of_decimal neg (Zpos (10 * M)) (Zneg 1)).
Proof.
  unfold floatnumber, number.
  destruct (digitpart_digits M ".0") as [n Hn]; [split; reflexivity|].
  rewrite Hn.
  change (digitpart (Zpos M) "0") with (Some ((10 * Zpos M + 0)%Z, 1%nat, "")).
  cbv beta iota delta [exponent].
  change (Ascii.eqb "." ".") with true. cbv beta iota.
  replace (10 * Zpos M + 0)%Z with (Zpos (10 * M)) by lia.
  reflexivity.
Qed.

Lemma floatnumber_exponent (neg : bool) (M k : positive) :
  floatnumber neg (digits_of_pos M ++ String "e" (String "-" (digits_of_pos k)))
  = Some (of_decimal neg (Zpos M) (Zneg k)).
Proof.
  unfold floatnumber, number.
  destruct (digitpart_digits M (String "e" (String "-" (digits_of_pos k))))
    as [n Hn]; [exact is_digit_e|].
  rewrite Hn.
  change (Ascii.eqb "e" ".") with false. cbv beta iota.
  unfold exponent.
  change (Ascii.eqb (PyStr.lower_char "e") "e") with true. cbv beta iota.
  change (sign (String "-" (digits_of_pos k))) with (true, digits_of_pos k).
  cbv beta iota.
  destruct (digitpart_digits k "" I) as [n' Hn'].
  rewrite append_empty_r in Hn'. rewrite Hn'. cbv beta iota.
  replace (- Zpos k - Z.of_nat 0)%Z with (Zneg k) by lia.
  reflexivity.
Qed.

Lemma digits_text_clean (M : positive) (tail : string) :
  PyStr.all_chars (fun c => negb (PyStr.is_space c)) tail = true ->
  PyStr.all_chars (fun c => negb (PyStr.is_space c)) (digits_of_pos M ++ tail)
  = true.
Proof.
  intros Ht. rewrite all_chars_app, Ht.
  rewrite (all_chars_impl _ _ _ is_digit_not_space (digits_of_pos_digits M)).
  reflexivity.
Qed.

(** [float] on a sign and a text that begins with the digits of [M]. *)
Lemma py_float_digits (neg : bool) (M : positive) (tail : string) :
  PyStr.all_chars (fun c => negb (PyStr.is_space c)) tail = true ->
  py_float (sign_text neg ++ (digits_of_pos M ++ tail))
  = floatnumber neg (digits_of_pos M ++ tail).
Proof.
  intros Ht. pose proof (digits_text_clean M tail Ht) as Hclean.
  destruct (digits_of_pos_head M) as (c & r & E & Hd & _).
  assert (Hdig : is_digit c = true).
  { unfold is_digit. destruct (digit_val c); [reflexivity | congruence]. }
  rewrite E, append_cons in *. apply py_float_signed; assumption.
Qed.

(** The exact decimal text of a finite number reads back as the number. *)
Lemma py_float_exact_text (x : float) (s : bool) (m : positive) (e : Z) :
  Prim2SF x = S754_finite s m e ->
  py_float (exact_text s m e) = Some x.
Proof.
  intros Hx.
  pose proof (Prim2SF_valid x) as Hv. rewrite Hx in Hv.
  simpl in Hv. unfold bounded in Hv. apply andb_prop in Hv.
  destruct Hv as [Hc Hb]. apply Z.leb_le in Hb.
  assert (Hback : SF2Prim (S754_finite s m e) = x).
  { rewrite <- Hx. apply SF2Prim_Prim2SF. }
  assert (Hint : (0 <= e)%Z ->
            py_float (sign_text s ++ (digits_of_pos (Z.to_pos (Zpos m * 2 ^ e)) ++ ".0"))
            = Some x).
  { intros He. set (M := Z.to_pos (Zpos m * 2 ^ e)).
    assert (HM : Zpos M = (Zpos m * 2 ^ e)%Z).
    { subst M. rewrite Z2Pos.id; [reflexivity|].
      assert (0 < 2 ^ e)%Z by (apply Z.pow_pos_nonneg; lia). lia. }
    rewrite py_float_digits by reflexivity.
    rewrite floatnumber_point_zero, of_decimal_fraction.
    rewrite (SFdiv_exact s m e), Hback;
      [reflexivity | assumption | assumption | | lia].
    intros _. rewrite Pos2Z.inj_mul, HM.
    change (Zpos (10 ^ 1)) with 10%Z. lia. }
  unfold exact_text. fold (sign_text s).
  destruct e as [|q|k]; [apply Hint; lia | apply Hint; lia |].
  rewrite py_float_digits.
  2:{ simpl.
      rewrite (all_chars_impl _ _ _ is_digit_not_space (digits_of_pos_digits k)).
      reflexivity. }
  rewrite floatnumber_exponent, of_decimal_fraction.
  rewrite (SFdiv_exact s m (Zneg k)), Hback;
    [reflexivity | assumption | assumption | lia |].
  intros _. change (- Zneg k)%Z with (Zpos k).
  rewrite Pos2Z.inj_mul, !Pos2Z.inj_pow.
  change (Zpos 10) with (5 * 2)%Z. rewrite Z.pow_mul_l. lia.
Qed.

(** [float(repr(x)) == x], for every binary64 number, NaN included. *)
Lemma py_float_repr (x : float) : py_float (py_repr x) = Some x.
Proof.
  unfold py_repr.
  pose proof (SF2Prim_Prim2SF x) as Hback.
  destruct (Prim2SF x) as [s|s| |s m e] eqn:Hx.
  - destruct s; simpl in Hback; subst x; vm_compute; reflexivity.
  - destruct s; simpl in Hback; subst x; vm_compute; reflexivity.
  - simpl in Hback. subst x. vm_compute. reflexivity.
  - match goal with
    | |- context [first_roundtrip x ?l] =>
        destruct (first_roundtrip x l) as [t|] eqn:Ef
    end.
    + eapply first_roundtrip_sound, Ef.
    + apply py_float_exact_text, Hx.
Qed.

End FloatRoundTrip.

(* ===================================================================== *)
(** * The characters of printed numbers *)
(* ===================================================================== *)

Section NumberChars.

Import PyNum PyRepr.

Lemma has_marker_app (a b : string) :
  has_marker (a ++ b) = has_marker a || has_marker b.
Proof.
  induction a as [|c a IH]; [reflexivity|].
  rewrite append_cons. simpl. rewrite IH, orb_assoc. reflexivity.
Qed.

Lemma marker_not_int_char (s : string) :
  has_marker s = true -> PyStr.all_chars int_char s = false.
Proof.
  induction s as [|c s IH]; simpl; [discriminate|].
  intros H. apply orb_prop in H. destruct H as [Hc|Hs].
  - assert (int_char c = false).
    { unfold marker in Hc.
      destruct c as [[] [] [] [] [] [] [] []]; try discriminate; reflexivity. }
    rewrite H. reflexivity.
  - rewrite (IH Hs). apply andb_false_r.
Qed.

Lemma digit_int_char (c : ascii) (d : Z) :
  digit_val c = Some d -> int_char c = true.
Proof.
  intros E. unfold int_char, is_digit. rewrite E.
  destruct (PyStr.is_space c); reflexivity.
Qed.

(** A run of digits that reaches the end of the text holds digits and
    underscores only. *)
Lemma digits_tail_chars (s : string) :
  (forall acc n v n', digits_tail acc n s = (v, n', EmptyString) ->
                      PyStr.all_chars int_char s = true)
  /\ (forall c s0, s = String c s0 ->
        forall acc n v n', digits_tail acc n s0 = (v, n', EmptyString) ->
                           PyStr.all_chars int_char s0 = true).
Proof.
  induction s as [|c s [IH1 IH2]].
  - split; [reflexivity | discriminate].
  - split; [|intros c0 s0 [= _ <-]; exact IH1].
    intros acc n v n'. simpl digits_tail.
    destruct (digit_val c) as [d|] eqn:Ed.
    + intros H. simpl. rewrite (IH1 _ _ _ _ H), (digit_int_char c d Ed).
      reflexivity.
    + destruct (Ascii.eqb_spec c "_") as [->|Hne]; [|discriminate].
      destruct s as [|c2 s'']; [discriminate|].
      destruct (digit_val c2) as [d2|] eqn:Ed2; [|discriminate].
      intros H. simpl PyStr.all_chars.
      rewrite (IH2 c2 s'' eq_refl _ _ _ _ H), (digit_int_char c2 d2 Ed2).
      reflexivity.
Qed.

Lemma digitpart_chars (s : string) (v : Z) (n : nat) :
  digitpart 0 s = Some (v, n, EmptyString) -> PyStr.all_chars int_char s = true.
Proof.
  unfold digitpart. destruct s as [|c s]; [discriminate|].
  destruct (digit_val c) as [d|] eqn:Ed; [|discriminate].
  intros [= H]. simpl.
  destruct (digits_tail_chars s) as [H1 _].
  rewrite (H1 _ _ _ _ H), (digit_int_char c d Ed). reflexivity.
Qed.

Lemma lstrip_chars (P : ascii -> bool) (s : string) :
  (forall c, PyStr.is_space c = true -> P c = true) ->
  PyStr.all_chars P (PyStr.lstrip s) = true -> PyStr.all_chars P s = true.
Proof.
  intros HP. induction s as [|c s IH]; simpl; [reflexivity|].
  destruct (PyStr.is_space c) eqn:E.
  - intros H. rewrite (HP c E), (IH H). reflexivity.
  - simpl. exact id.
Qed.

Lemma rstrip_chars (P : ascii -> bool) (s : string) :
  (forall c, PyStr.is_space c = true -> P c = true) ->
  PyStr.all_chars P (PyStr.rstrip s) = true -> PyStr.all_chars P s = true.
Proof.
  intros HP. induction s as [|c s IH]; simpl; [reflexivity|].
  destruct (PyStr.rstrip s) as [|c' r] eqn:Er.
  - destruct (PyStr.is_space c) eqn:E.
    + intros _. rewrite (HP c E), IH; reflexivity.
    + simpl. intros H. apply andb_prop in H. destruct H as [-> _].
      rewrite IH; reflexivity.
  - simpl. intros H. apply andb_prop in H. destruct H as [-> H].
    rewrite IH by exact H. reflexivity.
Qed.

(** A text that [int] accepts holds the characters of integer literals
    only. *)
Lemma py_int_chars (s : string) (n : Z) :
  py_int s = Some n -> PyStr.all_chars int_char s = true.
Proof.
  unfold py_int. intros H.
  assert (Hsp : forall c, PyStr.is_space c = true -> int_char c = true).
  { intros c Hc. unfold int_char. rewrite Hc. reflexivity. }
  apply (lstrip_chars _ _ Hsp), (rstrip_chars _ _ Hsp).
  fold (PyStr.strip s).
  destruct (PyStr.strip s) as [|c r]; [discriminate H|].
  unfold sign in H.
  destruct (Ascii.eqb_spec c "-") as [->|Hm].
  - destruct (digitpart 0 r) as [[[v k] [|]]|] eqn:Ed; try discriminate H.
    simpl. apply (digitpart_chars _ _ _ Ed).
  - destruct (Ascii.eqb_spec c "+") as [->|Hp].
    + destruct (digitpart 0 r) as [[[v k] [|]]|] eqn:Ed; try discriminate H.
      simpl. apply (digitpart_chars _ _ _ Ed).
    + destruct (digitpart 0 (String c r)) as [[[v k] [|]]|] eqn:Ed;
        try discriminate H.
      apply (digitpart_chars _ _ _ Ed).
Qed.

(** A text with a decimal point, an exponent or a letter of "nan"/"inf" is
    not an integer literal. *)
Lemma py_int_marker (s : string) : has_marker s = true -> py_int s = None.
Proof.
  intros H. destruct (py_int s) as [n|] eqn:E; [|reflexivity].
  apply py_int_chars in E. rewrite (marker_not_int_char s H) in E. discriminate.
Qed.

Lemma is_digit_repr_char (c : ascii) : is_digit c = true -> repr_char c = true.
Proof. intros H. unfold repr_char. rewrite H. reflexivity. Qed.

Lemma zeros_chars (n : nat) : PyStr.all_chars repr_char (zeros n) = true.
Proof. induction n as [|n IH]; simpl; [reflexivity | exact IH]. Qed.

Lemma strip_zeros_chars (P : ascii -> bool) (ds : string) :
  PyStr.all_chars P ds = true -> PyStr.all_chars P (strip_zeros ds) = true.
Proof.
  induction ds as [|c ds IH]; simpl; [reflexivity|].
  intros H. apply andb_prop in H. destruct H as [Hc Hs]. specialize (IH Hs).
  destruct (strip_zeros ds) as [|c' r].
  - destruct (Ascii.eqb c "0"); simpl; [reflexivity | rewrite Hc; reflexivity].
  - simpl in *. rewrite Hc, IH. reflexivity.
Qed.

Lemma substring_chars (P : ascii -> bool) (s : string) (a b : nat) :
  PyStr.all_chars P s = true -> PyStr.all_chars P (substring a b s) = true.
Proof.
  revert a b. induction s as [|c s IH]; intros a b H.
  - destruct a, b; reflexivity.
  - simpl in H. apply andb_prop in H. destruct H as [Hc Hs].
    destruct a as [|a]; [destruct b as [|b]|]; simpl.
    + reflexivity.
    + rewrite Hc. apply IH, Hs.
    + apply IH, Hs.
Qed.

Lemma digits_repr_chars (p : positive) :
  PyStr.all_chars repr_char (digits_of_pos p) = true.
Proof.
  eapply all_chars_impl; [|apply digits_of_pos_digits]. apply is_digit_repr_char.
Qed.

Lemma str_of_Z_chars (n : Z) : PyStr.all_chars repr_char (str_of_Z n) = true.
Proof.
  destruct n as [|p|p]; simpl; [reflexivity | |]; apply digits_repr_chars.
Qed.

Ltac chars_tac :=
  repeat (rewrite all_chars_app || rewrite append_cons || rewrite append_empty_l);
  simpl PyStr.all_chars;
  repeat match goal with
         | H : PyStr.all_chars repr_char ?s = true
           |- context [PyStr.all_chars repr_char ?s] => rewrite H
         end;
  rewrite ?zeros_chars, ?str_of_Z_chars, ?digits_repr_chars;
  try reflexivity.

(** The text of [repr] for a digit string: its characters, and the
    decimal point or exponent that it always shows. *)
Lemma format_repr_chars (ds : string) (decpt : Z) :
  PyStr.all_chars repr_char ds = true ->
  PyStr.all_chars repr_char (format_repr ds decpt) = true.
Proof.
  intros H. unfold format_repr.
  destruct ((decpt <=? -4)%Z || (16 <? decpt)%Z).
  - assert (Hm : PyStr.all_chars repr_char
                   match ds with
                   | String c (String _ _ as rest) => String c (String "." rest)
                   | _ => ds
                   end = true).
    { destruct ds as [|c [|c' r]]; exact H. }
    cbv zeta.
    destruct ((decpt - 1 <? 0)%Z), ((Z.abs (decpt - 1) <? 10)%Z);
      chars_tac.
  - destruct (decpt <=? 0)%Z; [cbv zeta; chars_tac|].
    destruct (decpt <? Z.of_nat (String.length ds))%Z; cbv zeta.
    + rewrite !all_chars_app, !substring_chars by exact H. reflexivity.
    + chars_tac.
Qed.

Lemma format_repr_marker (ds : string) (decpt : Z) :
  has_marker (format_repr ds decpt) = true.
Proof.
  unfold format_repr.
  destruct ((decpt <=? -4)%Z || (16 <? decpt)%Z).
  - cbv zeta. rewrite has_marker_app, append_cons. simpl.
    apply orb_true_r.
  - destruct (decpt <=? 0)%Z; [reflexivity|].
    destruct (decpt <? Z.of_nat (String.length ds))%Z; cbv zeta.
    + rewrite has_marker_app, append_cons. simpl. apply orb_true_r.
    + rewrite !has_marker_app. simpl. rewrite !orb_true_r. reflexivity.
Qed.

Lemma signed_repr_text (neg : bool) (body : string) :
  repr_text body -> repr_text ((if neg then "-" else "") ++ body).
Proof.
  intros [Hc Hm]. destruct neg.
  - rewrite append_cons, append_empty_l. split; simpl; [exact Hc|].
    rewrite Hm. reflexivity.
  - rewrite append_empty_l. split; assumption.
Qed.

Lemma candidates_repr_text (neg : bool) (num den : positive) (k prec : Z) :
  Forall repr_text (candidates neg num den k prec).
Proof.
  unfold candidates. cbv zeta.
  assert (Ht : forall v, Forall repr_text (candidate_text neg k prec v)).
  { intros [|p|p]; simpl; constructor; [|constructor].
    apply signed_repr_text. split.
    - apply format_repr_chars, strip_zeros_chars, digits_repr_chars.
    - apply format_repr_marker. }
  repeat match goal with
         | |- context [if ?b then _ else _] => destruct b
         | |- context [match ?c with Eq => _ | Lt => _ | Gt => _ end] => destruct c
         end;
    try apply Forall_app; try split; apply Ht.
Qed.

Lemma first_roundtrip_In (x : float) (texts : list string) (t : string) :
  first_roundtrip x texts = Some t -> In t texts.
Proof.
  induction texts as [|u rest IH]; simpl; [discriminate|].
  destruct (py_float u) as [y|]; [|intros H; right; exact (IH H)].
  destruct (PrimFloat.Leibniz.eqb y x).
  - intros [= <-]. left. reflexivity.
  - intros H. right. exact (IH H).
Qed.

Lemma exact_text_repr_text (s : bool) (m : positive) (e : Z) :
  repr_text (exact_text s m e).
Proof.
  unfold exact_text. cbv zeta.
  destruct e as [|q|k]; apply signed_repr_text; split.
  - chars_tac.
  - rewrite has_marker_app. apply orb_true_r.
  - chars_tac.
  - rewrite has_marker_app. apply orb_true_r.
  - chars_tac.
  - rewrite has_marker_app. apply orb_true_r.
Qed.

Lemma py_repr_text (x : float) : repr_text (py_repr x).
Proof.
  unfold py_repr.
  destruct (Prim2SF x) as [s|s| |s m e].
  - destruct s; split; reflexivity.
  - destruct s; split; reflexivity.
  - split; reflexivity.
  - match goal with
    | |- context [first_roundtrip x ?l] =>
        destruct (first_roundtrip x l) as [t|] eqn:Ef
    end.
    + apply first_roundtrip_In in Ef. apply in_flat_map in Ef.
      destruct Ef as (p & _ & Hin).
      pose proof (candidates_repr_text s
                    match e with Zneg _ => m | _ => Z.to_pos (Zpos m * 2 ^ e) end
                    match e with Zneg k => (2 ^ k)%positive | _ => 1%positive end
                    (decimal_point
                       match e with Zneg _ => m | _ => Z.to_pos (Zpos m * 2 ^ e) end
                       match e with Zneg k => (2 ^ k)%positive | _ => 1%positive end)
                    (Z.of_nat p)) as Hall.
      rewrite Forall_forall in Hall. apply Hall, list_elem_of_In, Hin.
    + apply exact_text_repr_text.
Qed.

End NumberChars.

(* ===================================================================== *)
(** * The csv writer and reader *)
(* ===================================================================== *)

Section CsvFacts.

Import Csv.

Lemma parse_in_field (f : string) :
  PyStr.all_chars (fun c => negb (Ascii.eqb c comma)) f = true ->
  forall acc,
    parse InField acc f = [(acc ++ f)%string]
    /\ forall rest,
        parse InField acc (f ++ String comma rest)
        = (acc ++ f)%string :: parse StartField EmptyString rest.
Proof.
  induction f as [|c f IH]; intros Hc acc.
  - rewrite append_empty_r. split; [reflexivity|].
    intros rest. rewrite append_empty_l. reflexivity.
  - simpl in Hc. apply andb_prop in Hc. destruct Hc as [Hc Hf].
    apply negb_true_iff in Hc.
    destruct (IH Hf (acc ++ String c EmptyString)%string) as [IH1 IH2].
    assert (Ha : ((acc ++ String c EmptyString) ++ f)%string
                 = (acc ++ String c f)%string).
    { rewrite append_assoc, append_cons, append_empty_l. reflexivity. }
    split.
    + simpl parse. rewrite Hc, IH1, Ha. reflexivity.
    + intros rest. rewrite append_cons. simpl parse.
      rewrite Hc, IH2, Ha. reflexivity.
Qed.

Lemma parse_in_quoted (f : string) :
  forall acc tail,
    parse InQuoted acc (escape f ++ String quote tail)
    = parse QuoteInQuoted (acc ++ f) tail.
Proof.
  induction f as [|c f IH]; intros acc tail.
  - rewrite append_empty_r. simpl escape. rewrite append_empty_l. reflexivity.
  - assert (Ha : ((acc ++ String c EmptyString) ++ f)%string
                 = (acc ++ String c f)%string).
    { rewrite append_assoc, append_cons, append_empty_l. reflexivity. }
    simpl escape. destruct (Ascii.eqb c quote) eqn:E.
    + rewrite !append_cons.
      change (parse InQuoted acc (String quote (String quote (escape f ++ String quote tail))))
        with (parse InQuoted (acc ++ String quote EmptyString)
                    (escape f ++ String quote tail)).
      apply Ascii.eqb_eq in E. subst c. rewrite IH, Ha. reflexivity.
    + rewrite append_cons. simpl parse. rewrite E, IH, Ha. reflexivity.
Qed.

Lemma has_special_no_comma (f : string) :
  has_special f = false ->
  PyStr.all_chars (fun c => negb (Ascii.eqb c comma)) f = true.
Proof.
  induction f as [|c f IH]; simpl; [reflexivity|].
  intros H. apply orb_false_elim in H. destruct H as [Hc Hf].
  rewrite (IH Hf), andb_true_r.
  unfold is_special in Hc.
  destruct (Ascii.eqb c comma); [discriminate | reflexivity].
Qed.

(** A written field that is followed by the delimiter is read back, and
    the reader starts the next field. *)
Lemma parse_field_comma (st : pstate) (f rest : string) :
  starting st ->
  parse st EmptyString (write_field f ++ String comma rest)
  = f :: parse StartField EmptyString rest.
Proof.
  intros Hst. unfold write_field. destruct (has_special f) eqn:Hs.
  - rewrite append_cons, append_assoc, append_cons, append_empty_l.
    assert (E : parse st EmptyString
                  (String quote (escape f ++ String quote (String comma rest)))
                = parse InQuoted EmptyString
                    (escape f ++ String quote (String comma rest))).
    { destruct Hst; subst st; reflexivity. }
    rewrite E, parse_in_quoted, append_empty_l. reflexivity.
  - destruct f as [|c f].
    + rewrite append_empty_l. destruct Hst; subst st; reflexivity.
    + simpl in Hs. apply orb_false_elim in Hs. destruct Hs as [Hc Hf].
      unfold is_special in Hc.
      destruct (Ascii.eqb c comma) eqn:E1; [discriminate|].
      destruct (Ascii.eqb c quote) eqn:E2; [discriminate|].
      rewrite append_cons.
      assert (E : parse st EmptyString (String c (f ++ String comma rest))
                  = parse InField (String c EmptyString) (f ++ String comma rest)).
      { destruct Hst; subst st; simpl; rewrite E1, E2; reflexivity. }
      rewrite E.
      destruct (parse_in_field f (has_special_no_comma f Hf) (String c EmptyString))
        as [_ H2].
      rewrite H2, append_cons, append_empty_l. reflexivity.
Qed.

(** A written field that ends the line is read back; at the start of a
    record the empty field is the exception (the writer quotes it). *)
Lemma parse_field_last (st : pstate) (f : string) :
  starting st ->
  (st = StartRecord -> f <> EmptyString) ->
  parse st EmptyString (write_field f) = [f].
Proof.
  intros Hst Hne. unfold write_field. destruct (has_special f) eqn:Hs.
  - assert (E : parse st EmptyString
                  (String quote (escape f ++ String quote EmptyString))
                = parse InQuoted EmptyString (escape f ++ String quote EmptyString)).
    { destruct Hst; subst st; reflexivity. }
    rewrite E, parse_in_quoted, append_empty_l. reflexivity.
  - destruct f as [|c f].
    + destruct Hst as [-> | ->]; [|reflexivity].
      exfalso. apply Hne; reflexivity.
    + simpl in Hs. apply orb_false_elim in Hs. destruct Hs as [Hc Hf].
      unfold is_special in Hc.
      destruct (Ascii.eqb c comma) eqn:E1; [discriminate|].
      destruct (Ascii.eqb c quote) eqn:E2; [discriminate|].
      assert (E : parse st EmptyString (String c f)
                  = parse InField (String c EmptyString) f).
      { destruct Hst; subst st; simpl; rewrite E1, E2; reflexivity. }
      rewrite E.
      destruct (parse_in_field f (has_special_no_comma f Hf) (String c EmptyString))
        as [H1 _].
      rewrite H1, append_cons, append_empty_l. reflexivity.
Qed.

Lemma join_cons2 (f g : string) (rest : list string) :
  join (f :: g :: rest) = (f ++ String comma (join (g :: rest)))%string.
Proof. reflexivity. Qed.

Lemma parse_join (fields : list string) :
  fields <> [] ->
  parse StartField EmptyString (join (List.map write_field fields)) = fields.
Proof.
  induction fields as [|f rest IH]; intros Hne; [congruence|].
  destruct rest as [|g rest].
  - apply parse_field_last; [right; reflexivity | discriminate].
  - change (List.map write_field (f :: g :: rest))
      with (write_field f :: write_field g :: List.map write_field rest).
    rewrite join_cons2, parse_field_comma by (right; reflexivity).
    f_equal. apply IH. discriminate.
Qed.

(** Reading a written record gives its fields back. *)
Lemma parse_line_row_text (fields : list string) :
  parse_line (row_text fields) = fields.
Proof.
  unfold parse_line.
  destruct fields as [|f rest]; [reflexivity|].
  destruct rest as [|g rest].
  - destruct f as [|c f]; [reflexivity|].
    apply (parse_field_last StartRecord); [left; reflexivity | discriminate].
  - assert (E : row_text (f :: g :: rest)
                = join (List.map write_field (f :: g :: rest))).
    { destruct f; reflexivity. }
    rewrite E.
    change (List.map write_field (f :: g :: rest))
      with (write_field f :: List.map write_field (g :: rest)).
    change (write_field f :: List.map write_field (g :: rest))
      with (write_field f :: write_field g :: List.map write_field rest).
    rewrite join_cons2, parse_field_comma by (left; reflexivity).
    f_equal. apply (parse_join (g :: rest)). discriminate.
Qed.

(** ** Lines *)

Lemma lines_terminated (r rest : string) :
  PyStr.all_chars no_break r = true ->
  lines (r ++ CRLF ++ rest) = r :: lines rest.
Proof.
  induction r as [|c r IH]; intros H.
  - rewrite append_empty_l. reflexivity.
  - simpl in H. apply andb_prop in H. destruct H as [Hc Hr].
    rewrite append_cons. simpl lines. rewrite (IH Hr).
    unfold no_break in Hc. apply negb_true_iff, orb_false_elim in Hc.
    destruct Hc as [Hcr Hlf]. rewrite Hlf, Hcr. reflexivity.
Qed.

Lemma escape_no_break (f : string) :
  PyStr.all_chars no_break f = true ->
  PyStr.all_chars no_break (escape f) = true.
Proof.
  induction f as [|c f IH]; simpl; [reflexivity|].
  intros H. apply andb_prop in H. destruct H as [Hc Hf].
  destruct (Ascii.eqb c quote); simpl; rewrite ?Hc, (IH Hf); reflexivity.
Qed.

Lemma write_field_no_break (f : string) :
  PyStr.all_chars no_break f = true ->
  PyStr.all_chars no_break (write_field f) = true.
Proof.
  intros H. unfold write_field. destruct (has_special f); [|exact H].
  simpl. rewrite all_chars_app, (escape_no_break f H). reflexivity.
Qed.

Lemma join_no_break (fields : list string) :
  Forall (fun f => PyStr.all_chars no_break f = true) fields ->
  PyStr.all_chars no_break (join fields) = true.
Proof.
  induction 1 as [|f rest Hf Hrest IH]; [reflexivity|].
  destruct rest as [|g rest]; [exact Hf|].
  rewrite join_cons2, all_chars_app, Hf. cbn [PyStr.all_chars andb].
  rewrite IH. reflexivity.
Qed.

Lemma row_text_no_break (fields : list string) :
  Forall (fun f => PyStr.all_chars no_break f = true) fields ->
  PyStr.all_chars no_break (row_text fields) = true.
Proof.
  intros H.
  assert (Hj : PyStr.all_chars no_break (join (List.map write_field fields)) = true).
  { apply join_no_break. apply List.Forall_map.
    eapply List.Forall_impl; [|exact H].
    intros f Hf. apply write_field_no_break, Hf. }
  destruct fields as [|[|c f] [|g rest]]; exact Hj.
Qed.

(** The reader gives back the records that the writer wrote, when no
    field holds a line break. *)
Lemma reader_records_text (records : list (list string)) :
  Forall (Forall (fun f => PyStr.all_chars no_break f = true)) records ->
  reader (records_text records) = records.
Proof.
  unfold reader.
  induction 1 as [|r rest Hr Hrest IH]; [reflexivity|].
  simpl records_text. unfold writerow.
  rewrite append_assoc.
  rewrite (lines_terminated (row_text r) (records_text rest)
             (row_text_no_break r Hr)).
  simpl List.map. rewrite parse_line_row_text, IH. reflexivity.
Qed.

(** ** The fields that the normalizer writes hold no line break *)

Lemma not_space_no_break (c : ascii) :
  negb (PyStr.is_space c) = true -> no_break c = true.
Proof.
  destruct c as [[] [] [] [] [] [] [] []]; intros H;
    first [reflexivity | discriminate H].
Qed.

Lemma split_no_space (s : string) :
  Forall (fun t => PyStr.all_chars (fun c => negb (PyStr.is_space c)) t = true)
         (PyStr.split s).
Proof.
  induction s as [|c s IH]; [constructor|].
  simpl PyStr.split. destruct (PyStr.is_space c) eqn:Ec; [exact IH|].
  destruct s as [|c' s'].
  - constructor; [|constructor]. simpl. rewrite Ec. reflexivity.
  - destruct (PyStr.is_space c') eqn:Ec'.
    + constructor; [|exact IH]. simpl. rewrite Ec. reflexivity.
    + destruct (PyStr.split (String c' s')) as [|t ts].
      * constructor; [|constructor]. simpl. rewrite Ec. reflexivity.
      * inversion IH as [|? ? Ht Hts]; subst.
        constructor; [|exact Hts]. simpl. rewrite Ec, Ht. reflexivity.
Qed.

Lemma split_no_break (s : string) :
  Forall (fun t => PyStr.all_chars no_break t = true) (PyStr.split s).
Proof.
  eapply List.Forall_impl; [|apply split_no_space].
  intros t. apply all_chars_impl, not_space_no_break.
Qed.

Lemma repr_char_no_break (c : ascii) : repr_char c = true -> no_break c = true.
Proof.
  destruct c as [[] [] [] [] [] [] [] []]; intros H;
    first [reflexivity | discriminate H].
Qed.

End CsvFacts.

(* ===================================================================== *)
(** * [create_csv_from_aims_traj_dump]: the round trip *)
(* ===================================================================== *)

Section NormalizerFacts.

Import Normalizer.

(** What the writer prints for a number is read back as that number: the
    text of an [int] is an integer literal, the text of a [float] is not
    (it holds a point, an exponent or the letter n) and [float] reads it
    back. *)
Lemma read_number_str (v : num) : read_number (str v) = Some v.
Proof.
  destruct v as [n|x]; unfold read_number, str.
  - rewrite py_int_str_of_Z. reflexivity.
  - destruct (py_repr_text x) as [_ Hm].
    rewrite (py_int_marker _ Hm), py_float_repr. reflexivity.
Qed.

(** The text of a float need not hold a decimal point ([repr] prints
    1e16 with an exponent only): a written field is read as an integer
    when it is an integer literal and as a float otherwise, while the rule
    of the decimal point is the one for the raw fields. *)
Lemma read_number_exponent :
  str (PyFloat 1e16%float) = "1e+16"
  /\ PyStr.contains "." "1e+16" = false
  /\ read_number "1e+16" = Some (PyFloat 1e16%float).
Proof. vm_compute. repeat split; reflexivity. Qed.

Lemma str_no_break (v : num) : PyStr.all_chars no_break (str v) = true.
Proof.
  apply all_chars_impl with (P := repr_char); [apply repr_char_no_break|].
  destruct v as [n|x]; unfold str.
  - apply str_of_Z_chars.
  - apply (py_repr_text x).
Qed.

Lemma all_some_read (rows : list (list num)) :
  all_some (all_some read_number) (List.map (List.map str) rows) = Some rows.
Proof.
  assert (Hrow : forall r : list num,
             all_some read_number (List.map str r) = Some r).
  { induction r as [|v r IH]; [reflexivity|].
    simpl. rewrite read_number_str, IH. reflexivity. }
  induction rows as [|r rows IH]; [reflexivity|].
  simpl. rewrite Hrow, IH. reflexivity.
Qed.

(** The conversion of the loop and the typing of a raw field agree. *)
Lemma convert_typed_field (item : string) :
  match typed_field item with
  | Some v => convert item = Ok v
  | None => exists e, convert item = Raise e
  end.
Proof.
  unfold typed_field, convert, float_of_str, int_of_str.
  destruct (PyStr.contains "." item).
  - destruct (PyNum.py_float item); simpl; eauto.
  - destruct (PyNum.py_int item); simpl; eauto.
Qed.

Lemma convert_all_typed (items : list string) :
  match all_some typed_field items with
  | Some vs => convert_all items = Ok vs
  | None => exists e, convert_all items = Raise e
  end.
Proof.
  induction items as [|item rest IH]; [reflexivity|].
  simpl. pose proof (convert_typed_field item) as Hc.
  destruct (typed_field item) as [v|].
  - rewrite Hc. simpl.
    destruct (all_some typed_field rest) as [vs|].
    + rewrite IH. reflexivity.
    + destruct IH as [e He]. rewrite He. simpl. eauto.
  - destruct Hc as [e He]. rewrite He. simpl. eauto.
Qed.

Lemma write_rows_typed (data_lines : list string) (out : string) :
  match all_some (fun l => all_some typed_field (fields_of l)) data_lines with
  | Some rows =>
      write_rows data_lines out
      = ((out ++ records_text (List.map (List.map str) rows))%string, Ok tt)
  | None => exists written e, write_rows data_lines out = (written, Raise e)
  end.
Proof.
  revert out. induction data_lines as [|line rest IH]; intros out.
  - simpl. rewrite append_empty_r. reflexivity.
  - simpl. pose proof (convert_all_typed (fields_of line)) as Hc.
    unfold fields_of in *.
    destruct (all_some typed_field (PyStr.split (PyStr.strip line))) as [vs|].
    + rewrite Hc. specialize (IH (out ++ Csv.writerow (List.map str vs))%string).
      destruct (all_some _ rest) as [rows|].
      * rewrite IH. simpl. rewrite append_assoc. reflexivity.
      * exact IH.
    + destruct Hc as [e He]. rewrite He. eauto.
Qed.

Lemma typed_field_typed_as (items : list string) (vs : list num) :
  all_some typed_field items = Some vs -> Forall2 typed_as items vs.
Proof.
  revert vs. induction items as [|item rest IH]; intros vs H.
  - injection H as <-. constructor.
  - simpl in H. destruct (typed_field item) as [v|] eqn:Ev; [|discriminate].
    destruct (all_some typed_field rest) as [vs'|]; [|discriminate].
    injection H as <-. constructor; [|apply IH; reflexivity].
    unfold typed_field in Ev. unfold typed_as.
    destruct (PyStr.contains "." item).
    + destruct (PyNum.py_float item); [|discriminate].
      injection Ev as <-. reflexivity.
    + destruct (PyNum.py_int item); [|discriminate].
      injection Ev as <-. reflexivity.
Qed.

Lemma rows_typed_as (data_lines : list string) (rows : list (list num)) :
  all_some (fun l => all_some typed_field (fields_of l)) data_lines = Some rows ->
  Forall2 (Forall2 typed_as) (List.map fields_of data_lines) rows.
Proof.
  revert rows. induction data_lines as [|line rest IH]; intros rows H.
  - injection H as <-. constructor.
  - simpl in H.
    destruct (all_some typed_field (fields_of line)) as [vs|] eqn:Ev;
      [|discriminate].
    destruct (all_some _ rest) as [rows'|]; [|discriminate].
    injection H as <-. simpl. constructor.
    + apply typed_field_typed_as, Ev.
    + apply IH. reflexivity.
Qed.

Lemma parse_csv_records (header : list string) (rows : list (list num)) :
  Forall (fun f => PyStr.all_chars no_break f = true) header ->
  parse_csv (Csv.writerow header ++ records_text (List.map (List.map str) rows))
  = Some (header, rows).
Proof.
  intros Hh. unfold parse_csv.
  change (Csv.writerow header ++ records_text (List.map (List.map str) rows))%string
    with (records_text (header :: List.map (List.map str) rows)).
  rewrite reader_records_text.
  - rewrite all_some_read. reflexivity.
  - constructor; [exact Hh|].
    apply List.Forall_map. apply List.Forall_forall. intros r _.
    apply List.Forall_map. apply List.Forall_forall. intros v _.
    apply str_no_break.
Qed.

(** The normalizer raises exactly when the direct reading of the raw table
    fails: some field with a point is no [float] literal, or some field
    without one is no [int] literal. *)
Lemma create_csv_raises (input : string) :
  parse_raw input = None ->
  exists written e,
    create_csv_from_aims_traj_dump input = (written, Raise e).
Proof.
  unfold parse_raw, create_csv_from_aims_traj_dump. cbv zeta.
  pose proof (write_rows_typed
                (List.tl (PyStr.readlines input))
                (Csv.writerow
                   (header_of (List.hd EmptyString (PyStr.readlines input)))))
    as Hw.
  unfold fields_of in Hw.
  destruct (all_some _ (List.tl (PyStr.readlines input))) as [rows|];
    [discriminate|].
  intros _. exact Hw.
Qed.

End NormalizerFacts.

(** C7.  For every raw whitespace-delimited table that can be parsed
    directly (its first line is the header, with or without the leading
    "#"; every field of a data line with a decimal point is a [float]
    literal and every other field an [int] literal), the normalizer
    returns normally, and re-parsing the file it wrote as comma-delimited
    gives the very table of the direct parse: the same column names, the
    same rows with the same number of values each, and the same numbers;
    in it each raw field with a decimal point is a float and each other
    field an integer. *)
Theorem create_csv_round_trip (input : string) (header : list string)
        (rows : list (list Normalizer.num)) :
  Normalizer.parse_raw input = Some (header, rows) ->
  exists out : string,
    Normalizer.create_csv_from_aims_traj_dump input = (out, Ok tt)
    /\ Normalizer.parse_csv out = Some (header, rows)
    /\ length (Csv.reader out) = S (length rows)
    /\ Forall2 (Forall2 Normalizer.typed_as)
               (List.map (fun l => PyStr.split (PyStr.strip l))
                         (List.tl (PyStr.readlines input)))
               rows.
Proof.
  unfold Normalizer.parse_raw, Normalizer.create_csv_from_aims_traj_dump.
  cbv zeta. intros H.
  pose proof (write_rows_typed
                (List.tl (PyStr.readlines input))
                (Csv.writerow
                   (Normalizer.header_of
                      (List.hd EmptyString (PyStr.readlines input)))))
    as Hw.
  pose proof (rows_typed_as (List.tl (PyStr.readlines input))) as Ht.
  unfold fields_of in Hw, Ht.
  destruct (Normalizer.all_some _ (List.tl (PyStr.readlines input)))
    as [rows'|]; [|discriminate].
  injection H as Hh Hr. subst rows'.
  assert (Hb : Forall (fun f => PyStr.all_chars no_break f = true) header).
  { rewrite <- Hh. apply split_no_break. }
  rewrite Hh in Hw |- *.
  eexists. split; [exact Hw|].
  split; [apply parse_csv_records, Hb|].
  split; [|apply Ht; reflexivity].
  pose proof (parse_csv_records header rows Hb) as Hp.
  unfold Normalizer.parse_csv in Hp.
  destruct (Csv.reader _) as [|h records]; [discriminate|].
  simpl. f_equal.
  destruct (Normalizer.all_some _ records) as [rows'|] eqn:Ea; [|discriminate].
  injection Hp as _ ->.
  clear -Ea. revert rows Ea.
  induction records as [|r records IH]; intros rows Ea.
  - injection Ea as <-. reflexivity.
  - simpl in Ea.
    destruct (Normalizer.all_some Normalizer.read_number r); [|discriminate].
    destruct (Normalizer.all_some _ records) as [rs|]; [|discriminate].
    injection Ea as <-. simpl. f_equal. apply IH. reflexivity.
Qed.

Lemma create_csv_round_trip_witness :
  let input := "# Time pos,x StateID
0.0 1.0e-5 1

2.50 -3.25 2
" in
  exists out : string,
    Normalizer.create_csv_from_aims_traj_dump input = (out, Ok tt)
    /\ Normalizer.parse_csv out
       = Some (["Time"; "pos,x"; "StateID"],
               [[Normalizer.PyFloat 0%float; Normalizer.PyFloat 1e-5%float;
                 Normalizer.PyInt 1];
                [];
                [Normalizer.PyFloat 2.5%float; Normalizer.PyFloat (-3.25)%float;
                 Normalizer.PyInt 2]])
    /\ length (Csv.reader out) = 4.
Proof.
  intros input.
  destruct (create_csv_round_trip input ["Time"; "pos,x"; "StateID"]
              [[Normalizer.PyFloat 0%float; Normalizer.PyFloat 1e-5%float;
                Normalizer.PyInt 1];
               [];
               [Normalizer.PyFloat 2.5%float; Normalizer.PyFloat (-3.25)%float;
                Normalizer.PyInt 2]])
    as (out & Hout & Hcsv & Hlen & _).
  { vm_compute. reflexivity. }
  exists out. split; [exact Hout|]. split; [exact Hcsv|exact Hlen].
Defined.

(* ===================================================================== *)
(** * Further properties of the control parser *)
(* ===================================================================== *)

Section ControlMore.

Import Control.

Lemma contains_char_cons (sep c : ascii) (s : string) :
  PyStr.contains (String sep EmptyString) (String c s)
  = Ascii.eqb c sep || PyStr.contains (String sep EmptyString) s.
Proof.
  cbn [PyStr.contains String.prefix].
  destruct (ascii_dec sep c) as [<-|Hne].
  - rewrite Ascii.eqb_refl. destruct s; reflexivity.
  - destruct (Ascii.eqb_spec c sep) as [->|_]; [contradiction Hne; reflexivity|].
    reflexivity.
Qed.

Lemma contains_char_chars (sep : ascii) (s : string) :
  PyStr.contains (String sep EmptyString) s = false ->
  PyStr.all_chars (fun c => negb (Ascii.eqb c sep)) s = true.
Proof.
  induction s as [|c s IH]; [reflexivity|].
  rewrite contains_char_cons. intros H. apply orb_false_elim in H.
  destruct H as [Hc Hs]. simpl. rewrite Hc, (IH Hs). reflexivity.
Qed.

(** A text without the separator is one field. *)
Lemma split_on_clean (sep : ascii) (s : string) :
  PyStr.all_chars (fun c => negb (Ascii.eqb c sep)) s = true ->
  PyStr.split_on sep s = [s].
Proof.
  induction s as [|c s IH]; [reflexivity|].
  simpl. intros H. apply andb_prop in H. destruct H as [Hc Hs].
  apply negb_true_iff in Hc. rewrite Hc, (IH Hs). reflexivity.
Qed.

Lemma split_on_app (sep : ascii) (a b : string) :
  PyStr.all_chars (fun c => negb (Ascii.eqb c sep)) a = true ->
  PyStr.split_on sep (a ++ String sep b) = a :: PyStr.split_on sep b.
Proof.
  induction a as [|c a IH]; intros H.
  - rewrite append_empty_l. simpl. rewrite Ascii.eqb_refl. reflexivity.
  - simpl in H. apply andb_prop in H. destruct H as [Hc Ha].
    apply negb_true_iff in Hc. rewrite append_cons. simpl.
    rewrite Hc, (IH Ha). reflexivity.
Qed.

(** The first token of a text that begins with a run of non-blank
    characters followed by nothing or by a blank. *)
Lemma split_first_token (w tail : string) :
  w <> EmptyString ->
  PyStr.all_chars (fun c => negb (PyStr.is_space c)) w = true ->
  (tail = EmptyString
   \/ exists c t, tail = String c t /\ PyStr.is_space c = true) ->
  exists more, PyStr.split (w ++ tail) = w :: more.
Proof.
  induction w as [|c w IH]; intros Hne Hw Ht; [congruence|].
  simpl in Hw. apply andb_prop in Hw. destruct Hw as [Hc Hw].
  apply negb_true_iff in Hc. rewrite append_cons.
  destruct w as [|c' w'].
  - rewrite append_empty_l. simpl PyStr.split. rewrite Hc.
    destruct Ht as [-> | (d & t & -> & Hd)].
    + exists []. reflexivity.
    + rewrite Hd. eexists. reflexivity.
  - destruct IH as (more & IH); [discriminate | exact Hw | exact Ht |].
    simpl in Hw. apply andb_prop in Hw. destruct Hw as [Hc' _].
    apply negb_true_iff in Hc'.
    rewrite append_cons in IH |- *.
    change (PyStr.split (String c (String c' (w' ++ tail))))
      with (if PyStr.is_space c then PyStr.split (String c' (w' ++ tail))
            else if PyStr.is_space c'
                 then String c EmptyString :: PyStr.split (String c' (w' ++ tail))
                 else match PyStr.split (String c' (w' ++ tail)) with
                      | t :: ts => String c t :: ts
                      | [] => [String c EmptyString]
                      end).
    rewrite Hc, Hc', IH. exists more. reflexivity.
Qed.

(** What a successful scan does to the object: nothing when no line holds
    the key, and otherwise it assigns [ex_shift] and nothing else. *)
Lemma scan_outcome (self s : AimsIO) (lines : list string) :
  scan self lines = Ok s ->
  (Forall (fun l => PyStr.contains "ExShift" l = false) lines /\ s = self)
  \/ (Exists (fun l => PyStr.contains "ExShift" l = true) lines
      /\ exists x, s = set_ex_shift self x).
Proof.
  induction lines as [|l rest IH]; simpl.
  - intros [= <-]. left. split; [constructor | reflexivity].
  - destruct (PyStr.contains "ExShift" l) eqn:E.
    + intros H. right. split; [left; exact E|].
      unfold bind in H.
      destruct (py_index (PyStr.split l) 0) as [tok|]; [|discriminate].
      destruct (py_index (PyStr.split_on "=" tok) 1) as [val|]; [|discriminate].
      destruct (float_of_str val) as [x|]; [|discriminate].
      injection H as <-. exists x. reflexivity.
    + intros H. destruct (IH H) as [[Hall ->] | [Hex Hx]].
      * left. split; [constructor; assumption | reflexivity].
      * right. split; [right; exact Hex | exact Hx].
Qed.

End ControlMore.

(** X1.  [get_ex_shift]: the [break].  Two control files whose lines agree up
    to and including the first line with the key give the same outcome,
    whatever follows that line. *)
Theorem get_ex_shift_later_lines_unread (self : AimsIO)
    (control other : string) (before : list string) (line : string)
    (rest rest' : list string) :
  PyStr.readlines control = before ++ line :: rest ->
  PyStr.readlines other = before ++ line :: rest' ->
  Forall (fun l => PyStr.contains "ExShift" l = false) before ->
  PyStr.contains "ExShift" line = true ->
  Control.get_ex_shift self other = Control.get_ex_shift self control.
Proof.
  intros Hc Ho Hb Hl. unfold Control.get_ex_shift.
  rewrite Hc, Ho, !scan_first_hit by assumption. reflexivity.
Qed.

Lemma get_ex_shift_later_lines_unread_witness :
  Control.get_ex_shift (fresh "metal") "NumStates=2
ExShift=78.5
ExShift=80.0
"
  = Control.get_ex_shift (fresh "metal") "NumStates=2
ExShift=78.5
".
Proof.
  apply (get_ex_shift_later_lines_unread _ _ _ ["NumStates=2
"] "ExShift=78.5
" [] ["ExShift=80.0
"]).
  - reflexivity.
  - reflexivity.
  - constructor; [vm_compute; reflexivity | constructor].
  - vm_compute. reflexivity.
Defined.

(** X2.  [get_ex_shift]: a key line whose first token holds no equals sign.
    When the first token of the first line with the key has no "=" (the
    key and the value are written apart, as in [ExShift = 78.5]), the
    parser raises [IndexError]. *)
Theorem get_ex_shift_token_without_equals (self : AimsIO) (control : string)
    (before : list string) (line : string) (rest : list string)
    (tok : string) :
  PyStr.readlines control = before ++ line :: rest ->
  Forall (fun l => PyStr.contains "ExShift" l = false) before ->
  PyStr.contains "ExShift" line = true ->
  nth_error (PyStr.split line) 0 = Some tok ->
  PyStr.contains "=" tok = false ->
  Control.get_ex_shift self control = Raise IndexError.
Proof.
  intros Hc Hb Hl Ht He. unfold Control.get_ex_shift.
  rewrite Hc, scan_first_hit by assumption.
  cbn [Control.scan]. rewrite Hl. unfold py_index at 1. rewrite Ht.
  cbv beta iota delta [bind].
  rewrite (split_on_clean "=" tok (contains_char_chars "=" tok He)).
  reflexivity.
Qed.

Lemma get_ex_shift_token_without_equals_witness :
  Control.get_ex_shift (fresh "metal") "NumStates=2
ExShift = 78.5
" = Raise IndexError.
Proof.
  apply (get_ex_shift_token_without_equals _ _ ["NumStates=2
"] "ExShift = 78.5
" [] "ExShift").
  - reflexivity.
  - constructor; [vm_compute; reflexivity | constructor].
  - vm_compute. reflexivity.
  - reflexivity.
  - vm_compute. reflexivity.
Defined.

(** X3.  [get_ex_shift]: reading back a printed value.  When the first line
    with the key is [ExShift=] followed by the [repr] of a float [x] and
    then by nothing or by white space, the parser stores exactly [x]. *)
Theorem get_ex_shift_reads_back_repr (self : AimsIO) (x : float)
    (control : string) (before : list string) (tail : string)
    (rest : list string) :
  PyStr.readlines control
  = before ++ ("ExShift=" ++ PyRepr.py_repr x ++ tail)%string :: rest ->
  Forall (fun l => PyStr.contains "ExShift" l = false) before ->
  (tail = EmptyString
   \/ exists c t, tail = String c t /\ PyStr.is_space c = true) ->
  Control.get_ex_shift self control = Ok (set_ex_shift self x).
Proof.
  intros Hc Hb Ht. unfold Control.get_ex_shift.
  assert (Hkey : forall r, PyStr.contains "ExShift" ("ExShift=" ++ r) = true).
  { intros r. rewrite !append_cons. cbn [PyStr.contains String.prefix].
    repeat match goal with
           | |- context [ascii_dec ?a ?a] =>
               destruct (ascii_dec a a) as [_|N]; [|contradiction N; reflexivity]
           end.
    reflexivity. }
  rewrite Hc, scan_first_hit by (try assumption; apply Hkey).
  cbn [Control.scan]. rewrite Hkey.
  destruct (py_repr_text x) as [Hchars _].
  destruct (split_first_token ("ExShift=" ++ PyRepr.py_repr x) tail)
    as (more & Hs).
  - rewrite append_cons. discriminate.
  - rewrite all_chars_app. apply andb_true_intro. split; [reflexivity|].
    eapply all_chars_impl; [|exact Hchars].
    intros c. destruct c as [[] [] [] [] [] [] [] []]; intros H;
      first [reflexivity | discriminate H].
  - exact Ht.
  - rewrite <- append_assoc, Hs.
    change (py_index (("ExShift=" ++ PyRepr.py_repr x)%string :: more) 0)
      with (Ok (A:=string) ("ExShift=" ++ PyRepr.py_repr x)%string).
    cbv beta iota delta [bind].
    change ("ExShift=" ++ PyRepr.py_repr x)%string
      with ("ExShift" ++ String "=" (PyRepr.py_repr x))%string.
    rewrite split_on_app by reflexivity.
    rewrite split_on_clean.
    + change (py_index ["ExShift"; PyRepr.py_repr x] 1)
        with (Ok (A:=string) (PyRepr.py_repr x)).
      cbv beta iota. unfold float_of_str. rewrite py_float_repr. reflexivity.
    + eapply all_chars_impl; [|exact Hchars].
      intros c. destruct c as [[] [] [] [] [] [] [] []]; intros H;
        first [reflexivity | discriminate H].
Qed.

Lemma get_ex_shift_reads_back_repr_witness :
  Control.get_ex_shift (fresh "metal") ("NumStates=2
" ++ ("ExShift=" ++ PyRepr.py_repr 78.5%float ++ "   ! shift
"))
  = Ok (set_ex_shift (fresh "metal") 78.5%float).
Proof.
  apply (get_ex_shift_reads_back_repr _ 78.5%float _ ["NumStates=2
"] "   ! shift
" []).
  - vm_compute. reflexivity.
  - constructor; [vm_compute; reflexivity | constructor].
  - right. exists " "%char, "  ! shift
". split; reflexivity.
Defined.

(** X4.  [__post_init__]: the fields after the two parsers.  When
    [get_ex_shift] and then [extract_masses_and_symbols] return on a
    freshly constructed object, the unit system is the one given, the atom
    list and the mass map are assigned, and [ex_shift] is assigned exactly
    when some line of the control file contains the key. *)
Theorem parse_inputs_fields (u control fms_out : string) (s : AimsIO) :
  Init.parse_inputs (fresh u) control fms_out = Ok s ->
  units s = u
  /\ (exists a, atoms_list s = Some a)
  /\ (exists m, masses s = Some m)
  /\ (ex_shift s = None <-> Control.key_absent control).
Proof.
  unfold Init.parse_inputs, Control.get_ex_shift, bind.
  destruct (Control.scan (fresh u) (PyStr.readlines control)) as [s1|e] eqn:E1;
    [|discriminate].
  unfold Topology.extract_masses_and_symbols, bind.
  destruct (Topology.scan _ _) as [st|e]; [|discriminate].
  intros [= <-]. cbn [units atoms_list masses ex_shift set_topology].
  destruct (scan_outcome _ _ _ E1) as [[Hall ->] | [Hex (x & ->)]].
  - split; [reflexivity|]. split; [eauto|]. split; [eauto|].
    split; [intros _; exact Hall | reflexivity].
  - split; [reflexivity|]. split; [eauto|]. split; [eauto|].
    cbn [ex_shift set_ex_shift]. split; [discriminate|].
    intros Hall. exfalso. unfold Control.key_absent in Hall.
    apply List.Exists_exists in Hex. destruct Hex as (l & Hin & Hl).
    rewrite List.Forall_forall in Hall. rewrite (Hall l Hin) in Hl.
    discriminate.
Qed.

Lemma parse_inputs_fields_witness :
  exists s,
    Init.parse_inputs (fresh "metal") "ExShift=78.5
" "Particle # 1
 Element: C
 Mass: 21874.66
Propagate until: 10.0
" = Ok s
    /\ units s = "metal"
    /\ ex_shift s <> None.
Proof.
  eexists. split; [vm_compute; reflexivity|].
  match goal with
  | |- units ?s = _ /\ _ =>
      destruct (parse_inputs_fields "metal" "ExShift=78.5
" "Particle # 1
 Element: C
 Mass: 21874.66
Propagate until: 10.0
" s) as (Hu & _ & _ & Hx)
  end.
  - vm_compute. reflexivity.
  - split; [exact Hu|]. intros Hn. apply Hx in Hn.
    unfold Control.key_absent in Hn. vm_compute in Hn.
    inversion Hn as [|? ? Hk _]. discriminate Hk.
Defined.

(* ===================================================================== *)
(** * Further properties of the topology parser *)
(* ===================================================================== *)

Section TopologyMore.

Import Topology.

Lemma after_first_particle_none (lines : list string) :
  Forall (fun l => is_particle l = false) lines ->
  after_first_particle lines = [].
Proof.
  induction 1 as [|l rest Hl _ IH]; simpl; [reflexivity|].
  rewrite Hl. exact IH.
Qed.

Lemma result_map_topology_ok (r : result state) (a : list string)
    (m : gmap string float) :
  result_map topology r = Ok (a, m) ->
  exists s, r = Ok s /\ st_atoms s = a /\ st_masses s = m.
Proof.
  destruct r as [s|e]; simpl; [|discriminate].
  unfold topology. intros [= <- <-]. eauto.
Qed.

Lemma result_map_topology_raise (r : result state) (e : exn) :
  result_map topology r = Raise e -> r = Raise e.
Proof. destruct r; simpl; [discriminate | intros [= ->]; reflexivity]. Qed.

Lemma step_keys_listed (s s' : state) (l : string) :
  keys_listed s -> step s l = Ok (Continue s') -> keys_listed s'.
Proof.
  intros [Hm He]. unfold step.
  destruct (PyStr.contains "Propagate until:" (PyStr.strip l)); [discriminate|].
  destruct (PyStr.startswith (PyStr.strip l) "Particle #").
  { intros [= <-]. split; assumption. }
  destruct (st_reading s); [|intros [= <-]; split; assumption].
  destruct (PyStr.contains "Element:" (PyStr.strip l)).
  { unfold bind. destruct (py_index _ 1) as [el|]; [|discriminate].
    intros [= <-]. split; cbn [st_masses st_atoms st_element].
    - intros e H. apply in_or_app. left. apply Hm, H.
    - intros e [= <-]. apply in_or_app. right. left. reflexivity. }
  destruct (PyStr.contains "Mass:" (PyStr.strip l));
    [|intros [= <-]; split; assumption].
  destruct (st_element s) as [el|] eqn:Eel;
    [|intros [= <-]; split; [exact Hm | rewrite Eel; exact He]].
  unfold bind. destruct (py_index _ 1) as [tok|]; [|discriminate].
  destruct (float_of_str tok) as [mass|]; [|discriminate].
  destruct (st_masses s !! el) eqn:El.
  { intros [= <-]. split; [exact Hm | rewrite Eel; exact He]. }
  intros [= <-]. split; cbn [st_masses st_atoms st_element].
  - intros e H. destruct (decide (el = e)) as [<-|Hne].
    + apply He. reflexivity.
    + rewrite lookup_insert_ne in H by exact Hne. apply Hm, H.
  - first [exact He | rewrite Eel; exact He].
Qed.

Lemma scan_keys_listed (lines : list string) (s s' : state) :
  keys_listed s -> scan s lines = Ok s' -> keys_listed s'.
Proof.
  revert s. induction lines as [|l rest IH]; intros s Hs.
  - intros [= <-]. exact Hs.
  - rewrite scan_cons. destruct (step s l) as [[s1|]|e] eqn:E.
    + apply IH. eapply step_keys_listed; eassumption.
    + intros [= <-]. exact Hs.
    + discriminate.
Qed.

(** A line of the range that the loop passes leaves the loop reading. *)
Lemma step_reading (s s' : state) (l : string) :
  st_reading s = true -> step s l = Ok (Continue s') -> st_reading s' = true.
Proof.
  intros Hr. unfold step.
  destruct (PyStr.contains "Propagate until:" (PyStr.strip l)); [discriminate|].
  destruct (PyStr.startswith (PyStr.strip l) "Particle #").
  { intros [= <-]. reflexivity. }
  rewrite Hr.
  destruct (PyStr.contains "Element:" (PyStr.strip l)).
  { unfold bind. destruct (py_index _ 1); [|discriminate].
    intros [= <-]. first [reflexivity | exact Hr]. }
  destruct (PyStr.contains "Mass:" (PyStr.strip l));
    [|intros [= <-]; first [reflexivity | exact Hr]].
  destruct (st_element s); [|intros [= <-]; first [reflexivity | exact Hr]].
  unfold bind. destruct (py_index _ 1) as [tok|]; [|discriminate].
  destruct (float_of_str tok); [|discriminate].
  destruct (st_masses s !! _); intros [= <-]; first [reflexivity | exact Hr].
Qed.

(** The loop over a prefix that holds no sentinel and raises nothing, and
    then over what follows. *)
Lemma scan_app (good rest : list string) (s : state) :
  Forall (fun l => is_sentinel l = false) good ->
  st_reading s = true ->
  (exists e, scan s good = Raise e)
  \/ exists s', scan s good = Ok s' /\ st_reading s' = true
                /\ scan s (good ++ rest) = scan s' rest.
Proof.
  intros H. revert s. induction H as [|l good Hl _ IH]; intros s Hr.
  - right. exists s. split; [reflexivity | split; [exact Hr | reflexivity]].
  - rewrite <- app_comm_cons, !scan_cons.
    destruct (step s l) as [[s1|]|e] eqn:E.
    + apply IH. eapply step_reading; eassumption.
    + exfalso. unfold step in E. unfold is_sentinel in Hl. rewrite Hl in E.
      destruct (PyStr.startswith _ _); [discriminate|].
      rewrite Hr in E.
      destruct (PyStr.contains "Element:" _).
      { unfold bind in E. destruct (py_index _ 1); discriminate. }
      destruct (PyStr.contains "Mass:" _); [|discriminate].
      destruct (st_element s); [|discriminate].
      unfold bind in E. destruct (py_index _ 1) as [tok|]; [|discriminate].
      destruct (float_of_str tok); [|discriminate].
      destruct (st_masses s !! _); discriminate.
    + left. eauto.
Qed.

Lemma Forall_app_l {X} (P : X -> Prop) (a b : list X) :
  Forall P (a ++ b) -> Forall P a.
Proof. intros H. apply Forall_app in H. exact (proj1 H). Qed.

End TopologyMore.

(** X5.  [extract_masses_and_symbols]: a report without particle blocks.  When
    no line above the "Propagate until:" marker begins with "Particle #",
    the parser raises nothing, whatever the lines hold, and assigns the
    empty atom list and the empty mass map. *)
Theorem extract_without_particle_marker (self : AimsIO) (fms_out : string) :
  Forall (fun l => Topology.is_particle l = false)
         (Topology.before_sentinel (PyStr.splitlines fms_out)) ->
  Topology.extract_masses_and_symbols self fms_out
  = Ok (set_topology self [] ∅).
Proof.
  intros H. unfold Topology.extract_masses_and_symbols.
  rewrite scan_before_sentinel.
  pose proof (scan_until_particle ∅ [] None _
                (before_sentinel_free (PyStr.splitlines fms_out))) as Hs.
  fold Topology.init in Hs.
  rewrite (after_first_particle_none _ H) in Hs. simpl in Hs.
  apply result_map_topology_ok in Hs. destruct Hs as (s & Hs & Ha & Hm).
  rewrite Hs. cbv beta iota delta [bind]. rewrite Ha, Hm. reflexivity.
Qed.

Lemma extract_without_particle_marker_witness :
  Topology.extract_masses_and_symbols (fresh "metal") "Element:
Mass: heavy
Propagate until: 10.0
Particle # 1
Element: C
" = Ok (set_topology (fresh "metal") [] ∅).
Proof.
  apply extract_without_particle_marker.
  vm_compute Topology.before_sentinel.
  repeat constructor.
Defined.

(** X6.  [extract_masses_and_symbols]: the masses belong to listed atoms.
    Whenever the parser returns, every element that has an entry in the
    mass map occurs in the atom list. *)
Theorem extract_masses_keys_are_atoms (self s : AimsIO) (fms_out : string) :
  Topology.extract_masses_and_symbols self fms_out = Ok s ->
  exists atoms table,
    atoms_list s = Some atoms /\ masses s = Some table
    /\ forall e, is_Some (table !! e) -> In e atoms.
Proof.
  unfold Topology.extract_masses_and_symbols, bind.
  destruct (Topology.scan Topology.init (PyStr.splitlines fms_out))
    as [st|e] eqn:E; [|discriminate].
  intros [= <-]. exists (Topology.st_atoms st), (Topology.st_masses st).
  split; [reflexivity|]. split; [reflexivity|].
  assert (Hinit : keys_listed Topology.init).
  { split.
    - intros e H. simpl in H. rewrite lookup_empty in H.
      destruct H as [x Hx]. discriminate Hx.
    - intros e H. discriminate H. }
  exact (proj1 (scan_keys_listed _ Topology.init st Hinit E)).
Qed.

Lemma extract_masses_keys_are_atoms_witness :
  exists s atoms table,
    Topology.extract_masses_and_symbols (fresh "metal") "Particle # 1
Mass: 1.0
Element: C
Mass: 21874.66
Propagate until: 10.0
" = Ok s
    /\ atoms_list s = Some atoms /\ masses s = Some table
    /\ forall e, is_Some (table !! e) -> In e atoms.
Proof.
  eexists.
  match goal with
  | |- exists atoms table, ?call = Ok ?s /\ _ =>
      assert (Hcall : call = Ok s) by (vm_compute; reflexivity);
      destruct (extract_masses_keys_are_atoms _ _ _ Hcall)
        as (atoms & table & Ha & Hm & Hk)
  end.
  exists atoms, table. repeat split; assumption.
Defined.

(** X7.  [extract_masses_and_symbols]: an "Element:" line without a second
    token.  The parser takes the second token of a line that contains
    "Element:" as the symbol.  When the lines between the first
    "Particle #" marker and the "Propagate until:" marker are well formed
    up to a line that contains "Element:", does not begin with
    "Particle #" and has fewer than two tokens separated by white space,
    the parser raises [IndexError]. *)
Theorem extract_element_without_symbol (self : AimsIO) (fms_out : string)
    (good : list string) (line : string) (rest : list string) :
  Topology.particle_range (PyStr.splitlines fms_out) = good ++ line :: rest ->
  Forall (fun l => Topology.well_formed_line l = true) good ->
  Topology.is_particle line = false ->
  Topology.is_element_line line = true ->
  Topology.symbol_of line = None ->
  Topology.extract_masses_and_symbols self fms_out = Raise IndexError.
Proof.
  intros Hrange Hgood Hp He Hsym.
  unfold Topology.extract_masses_and_symbols.
  rewrite scan_before_sentinel.
  pose proof (scan_until_particle ∅ [] None _
                (before_sentinel_free (PyStr.splitlines fms_out))) as Hs.
  fold Topology.init in Hs.
  fold (Topology.particle_range (PyStr.splitlines fms_out)) in Hs.
  assert (Hfree : Forall (fun l => Topology.is_sentinel l = false)
                         (good ++ line :: rest)).
  { rewrite <- Hrange. apply after_first_particle_Forall, before_sentinel_free. }
  rewrite Hrange in Hs.
  assert (Hraise : Topology.scan (Topology.mkState ∅ [] None true)
                     (good ++ line :: rest) = Raise IndexError).
  { destruct (scan_range good (Forall_app_l _ _ _ Hfree) Hgood ∅ [] None)
      as (s1 & atoms & Hs1 & _).
    destruct (scan_app good (line :: rest) (Topology.mkState ∅ [] None true)
                (Forall_app_l _ _ _ Hfree) eq_refl)
      as [[e Hr] | (s' & Hok & Hread & Happ)].
    - rewrite Hs1 in Hr. discriminate Hr.
    - rewrite Happ, scan_cons.
      apply Forall_app in Hfree. destruct Hfree as [_ Hline].
      inversion Hline as [|? ? Hl _]; subst.
      unfold Topology.step.
      unfold Topology.is_sentinel in Hl. rewrite Hl.
      unfold Topology.is_particle in Hp. rewrite Hp.
      rewrite Hread.
      unfold Topology.is_element_line in He. rewrite He.
      unfold Topology.symbol_of in Hsym. unfold py_index. rewrite Hsym.
      reflexivity. }
  rewrite Hraise in Hs. simpl in Hs.
  apply result_map_topology_raise in Hs. rewrite Hs. reflexivity.
Qed.

Lemma extract_element_without_symbol_witness :
  Topology.extract_masses_and_symbols (fresh "metal") "Particle # 1
 Element: C
 Mass: 21874.66
Particle # 2
 Element:
 Mass: 1837.15
Propagate until: 10.0
" = Raise IndexError.
Proof.
  apply (extract_element_without_symbol _ _
           [" Element: C"; " Mass: 21874.66"; "Particle # 2"]
           " Element:" [" Mass: 1837.15"]).
  - vm_compute. reflexivity.
  - repeat constructor.
  - vm_compute. reflexivity.
  - vm_compute. reflexivity.
  - vm_compute. reflexivity.
Defined.

(* ===================================================================== *)
(** * Further properties of the table normalizer *)
(* ===================================================================== *)

Section NormalizerMore.

Import Normalizer.

(** A conversion that fails raises [ValueError]. *)
Lemma convert_all_value_error (items : list string) :
  all_some typed_field items = None ->
  exists msg, convert_all items = Raise (ValueError msg).
Proof.
  induction items as [|item rest IH]; simpl; [discriminate|].
  pose proof (convert_typed_field item) as Hc.
  unfold typed_field, convert, float_of_str, int_of_str in *.
  destruct (PyStr.contains "." item).
  - destruct (PyNum.py_float item) as [x|]; simpl in *.
    + intros H. destruct (all_some _ rest); [discriminate|].
      destruct (IH eq_refl) as [msg ->]. simpl. eauto.
    + intros _. eauto.
  - destruct (PyNum.py_int item) as [n|]; simpl in *.
    + intros H. destruct (all_some _ rest); [discriminate|].
      destruct (IH eq_refl) as [msg ->]. simpl. eauto.
    + intros _. eauto.
Qed.

Lemma records_text_app (a b : list (list string)) :
  records_text (a ++ b) = (records_text a ++ records_text b)%string.
Proof.
  induction a as [|r a IH]; [reflexivity|].
  simpl. rewrite IH, append_assoc. reflexivity.
Qed.

(** The loop over lines that convert, and then over what follows. *)
Lemma write_rows_app (good more : list string) (rows : list (list num))
    (out : string) :
  all_some (fun l => all_some typed_field (fields_of l)) good = Some rows ->
  write_rows (good ++ more) out
  = write_rows more (out ++ records_text (List.map (List.map str) rows)).
Proof.
  revert rows out. induction good as [|line good IH]; intros rows out H.
  - injection H as <-. simpl. rewrite append_empty_r. reflexivity.
  - simpl in H. pose proof (convert_all_typed (fields_of line)) as Hc.
    destruct (all_some typed_field (fields_of line)) as [vs|]; [|discriminate].
    destruct (all_some _ good) as [rows'|]; [|discriminate].
    injection H as <-. simpl. unfold fields_of in Hc. rewrite Hc.
    rewrite (IH rows' _ eq_refl), append_assoc. reflexivity.
Qed.

End NormalizerMore.

(** X8.  [create_csv_from_aims_traj_dump]: the file after a failure.  When the
    data lines convert up to a first line with a field that is no number
    of its kind, the call raises [ValueError], and the output file holds
    the header and the rows of the lines above that one: what was written
    stays. *)
Theorem create_csv_partial_output (input first : string)
    (good : list string) (bad : string) (rest : list string)
    (rows : list (list Normalizer.num)) :
  PyStr.readlines input = first :: good ++ bad :: rest ->
  Normalizer.all_some
    (fun l => Normalizer.all_some Normalizer.typed_field (fields_of l)) good
  = Some rows ->
  Normalizer.all_some Normalizer.typed_field (fields_of bad) = None ->
  exists msg,
    Normalizer.create_csv_from_aims_traj_dump input
    = ((Csv.writerow (Normalizer.header_of first)
        ++ records_text (List.map (List.map Normalizer.str) rows))%string,
       Raise (ValueError msg)).
Proof.
  intros Hl Hgood Hbad.
  unfold Normalizer.create_csv_from_aims_traj_dump. cbv zeta.
  rewrite Hl. cbn [List.hd List.tl].
  rewrite (write_rows_app good (bad :: rest) rows _ Hgood).
  destruct (convert_all_value_error _ Hbad) as [msg Hm].
  unfold fields_of in Hm. cbn [Normalizer.write_rows]. rewrite Hm.
  exists msg. reflexivity.
Qed.

Lemma create_csv_partial_output_witness :
  exists msg,
    Normalizer.create_csv_from_aims_traj_dump "# Time pos StateID
0.0 1.5 1
0.5 1e5 1
1.0 2.5 1
"
    = (("Time,pos,StateID" ++ Csv.CRLF ++ "0.0,1.5,1" ++ Csv.CRLF)%string,
       Raise (ValueError msg)).
Proof.
  destruct (create_csv_partial_output "# Time pos StateID
0.0 1.5 1
0.5 1e5 1
1.0 2.5 1
" "# Time pos StateID
" ["0.0 1.5 1
"] "0.5 1e5 1
" ["1.0 2.5 1
"] [[Normalizer.PyFloat 0%float; Normalizer.PyFloat 1.5%float; Normalizer.PyInt 1]])
    as [msg H]; [vm_compute; reflexivity ..|].
  exists msg. rewrite H. f_equal.
Defined.

(* ===================================================================== *)
(** * Further properties of the force estimator and of the writer *)
(* ===================================================================== *)

Section ForcesMore.

Import Forces.

Lemma force_at_raises (momenta : ndarray float) (time : list float)
    (t : nat) (e : exn) :
  force_at momenta time t = Raise e -> e = IndexError.
Proof.
  unfold force_at, bind.
  destruct (get0 momenta (t + 1)) eqn:E1;
    [|intros [= <-]; eapply get0_raises, E1].
  destruct (get0 momenta t) eqn:E2; [|intros [= <-]; eapply get0_raises, E2].
  destruct (py_index time (t + 1)) eqn:E3;
    [|intros [= <-]; eapply py_index_raises, E3].
  destruct (py_index time t) eqn:E4;
    [|intros [= <-]; eapply py_index_raises, E4].
  discriminate.
Qed.

(** A step that raises makes the loop raise. *)
Lemma loop_raises (momenta : ndarray float) (time : list float)
    (steps : list nat) (acc : list (ndarray float)) :
  Exists (fun t => returns (force_at momenta time t) = false) steps ->
  loop momenta time steps acc = Raise IndexError.
Proof.
  intros H. revert acc. induction steps as [|t rest IH]; intros acc.
  - inversion H.
  - simpl. destruct (force_at momenta time t) as [f|e] eqn:E.
    + simpl. apply IH. inversion H as [? ? Hh|? ? Ht]; subst; [|exact Ht].
      rewrite E in Hh. discriminate Hh.
    + simpl. f_equal. eapply force_at_raises, E.
Qed.

(** The loop reads the timestamps through [force_at] only. *)
Lemma loop_ext (momenta : ndarray float) (time time' : list float)
    (steps : list nat) (acc : list (ndarray float)) :
  Forall (fun t => force_at momenta time t = force_at momenta time' t) steps ->
  loop momenta time steps acc = loop momenta time' steps acc.
Proof.
  intros H. revert acc. induction H as [|t rest Ht _ IH]; intros acc.
  - reflexivity.
  - simpl. rewrite Ht. destruct (force_at momenta time' t); simpl;
      [apply IH | reflexivity].
Qed.

Lemma nth_error_firstn_lt {X} (n i : nat) (l : list X) :
  i < n -> nth_error (firstn n l) i = nth_error l i.
Proof.
  revert i l. induction n as [|n IH]; intros i l Hi; [lia|].
  destruct l as [|x l]; [reflexivity|].
  destruct i as [|i]; [reflexivity|]. simpl. apply IH. lia.
Qed.

End ForcesMore.

(** X9.  [calc_forces]: too few timestamps.  For momenta of two or more frames
    and a time array with fewer entries than frames, the call raises
    [IndexError]. *)
Theorem calc_forces_short_time (momenta : ndarray float) (time : list float)
    (T : nat) (sh : list nat) :
  shape momenta = T :: sh -> 2 <= T -> length time < T ->
  Forces.calc_forces momenta time = Raise IndexError.
Proof.
  intros Hs HT Hlen. unfold Forces.calc_forces, shape0. rewrite Hs.
  change (py_index (T :: sh) 0) with (Ok (A:=nat) T).
  cbv beta iota delta [bind].
  rewrite (loop_raises momenta time (seq 0 (T - 1)) []); [reflexivity|].
  apply List.Exists_exists. exists (T - 2). split.
  - apply in_seq. lia.
  - unfold Forces.force_at, bind.
    destruct (get0_lt momenta T sh (T - 2 + 1) Hs ltac:(lia)) as (m1 & -> & _).
    destruct (get0_lt momenta T sh (T - 2) Hs ltac:(lia)) as (m0 & -> & _).
    unfold py_index.
    assert (E : nth_error time (T - 2 + 1) = None)
      by (apply nth_error_None; lia).
    rewrite E. reflexivity.
Qed.

Lemma calc_forces_short_time_witness :
  Forces.calc_forces (of_list3 1 3 [[[1; 2; 3]]; [[4; 5; 6]]; [[7; 8; 9]]]%float)
                     [0; 1]%float
  = Raise IndexError.
Proof.
  apply (calc_forces_short_time _ _ 3 [1; 3]); [reflexivity | lia | simpl; lia].
Defined.

(** X10.  [calc_forces]: surplus timestamps.  Only the first T entries of the
    time array are read, T being the number of momentum frames: entries
    beyond them change nothing. *)
Theorem calc_forces_surplus_time (momenta : ndarray float)
    (time : list float) (T : nat) (sh : list nat) :
  shape momenta = T :: sh ->
  Forces.calc_forces momenta time
  = Forces.calc_forces momenta (firstn T time).
Proof.
  intros Hs. unfold Forces.calc_forces, shape0. rewrite Hs.
  change (py_index (T :: sh) 0) with (Ok (A:=nat) T).
  cbv beta iota delta [bind].
  rewrite (loop_ext momenta time (firstn T time)); [reflexivity|].
  apply List.Forall_forall. intros t Hin. apply in_seq in Hin.
  unfold Forces.force_at, py_index.
  rewrite !nth_error_firstn_lt by lia. reflexivity.
Qed.

Lemma calc_forces_surplus_time_witness :
  Forces.calc_forces (of_list3 1 3 [[[1; 2; 3]]; [[4; 5; 6]]]%float)
                     [0; 1; 5; 9]%float
  = Forces.calc_forces (of_list3 1 3 [[[1; 2; 3]]; [[4; 5; 6]]]%float)
                       [0; 1]%float.
Proof.
  exact (calc_forces_surplus_time
           (of_list3 1 3 [[[1; 2; 3]]; [[4; 5; 6]]]%float)
           [0; 1; 5; 9]%float 2 [1; 3] eq_refl).
Defined.

Section WriterMore.

Import Writer.
Variables Hartree Bohr : float.

(** The loop appends; each record carries the atom list and no periodic
    boundary. *)
Lemma write_frames_appends positions forces energy atoms steps file :
  exists added,
    fst (write_frames Bohr positions forces energy atoms steps file)
      = file ++ added
    /\ length added <= length steps
    /\ Forall (fun r => rec_symbols r = atoms /\ rec_pbc r = false) added.
Proof.
  revert file. induction steps as [|i rest IH]; intros file.
  - exists []. simpl. rewrite app_nil_r. repeat split; [lia | constructor].
  - simpl. destruct (make_record Bohr positions forces energy atoms i)
      as [r|e] eqn:E.
    + destruct (IH (file ++ [r])) as (added & Hf & Hl & Ha).
      exists (r :: added). rewrite Hf, <- app_assoc.
      split; [reflexivity|]. split; [simpl; lia|].
      constructor; [|exact Ha].
      unfold make_record, bind in E.
      destruct (get0 positions i); [|discriminate].
      destruct (Ase.atoms _ atoms); [|discriminate].
      destruct (py_index energy i); [|discriminate].
      destruct (get0 forces i); [|discriminate].
      injection E as <-. split; reflexivity.
    + exists []. simpl. rewrite app_nil_r. repeat split; [lia | constructor].
Qed.

(** The loop up to the first pass that raises. *)
Lemma write_frames_until positions forces energy atoms
    (good : list nat) (i : nat) (rest : list nat) (e : exn) file :
  Forall (fun j => returns (make_record Bohr positions forces energy atoms j) = true)
         good ->
  make_record Bohr positions forces energy atoms i = Raise e ->
  exists recs,
    write_frames Bohr positions forces energy atoms (good ++ i :: rest) file
      = (file ++ recs, Raise e)
    /\ length recs = length good.
Proof.
  intros H Hi. revert file. induction H as [|j good Hj _ IH]; intros file.
  - exists []. simpl. rewrite Hi, app_nil_r. split; reflexivity.
  - simpl. destruct (make_record Bohr positions forces energy atoms j)
      as [r|] eqn:E; [|discriminate Hj].
    destruct (IH (file ++ [r])) as (recs & Hw & Hl).
    exists (r :: recs). rewrite Hw, <- app_assoc. simpl. rewrite Hl.
    split; reflexivity.
Qed.

End WriterMore.

(** X11.  [write_extxyz]: the file only grows.  Whatever the arguments and the
    outcome, the content of the destination after the call is its content
    before the call followed by the records appended, at most one per
    force frame; each of them carries the given atom list and
    [pbc = False]. *)
Theorem write_extxyz_appends (Hartree Bohr : float) (self : AimsIO)
    (file : list Writer.StructureRecord) (positions forces : ndarray float)
    (energy : list float) (atoms : list string) :
  exists added,
    fst (Writer.write_extxyz Hartree Bohr self file positions forces energy atoms)
      = file ++ added
    /\ (forall n, shape0 forces = Ok n -> length added <= n)
    /\ Forall (fun r => Writer.rec_symbols r = atoms
                        /\ Writer.rec_pbc r = false) added.
Proof.
  unfold Writer.write_extxyz.
  destruct (String.eqb (units self) "metal").
  - unfold shape0, Numpy.map at 1. cbn [shape].
    destruct (py_index (shape forces) 0) as [n|e] eqn:En.
    + destruct (write_frames_appends Bohr positions
                  (Numpy.map (fun x => x * (Hartree / Bohr))%float forces)
                  (List.map (fun x => x * Hartree)%float energy)
                  atoms (seq 0 n) file) as (added & Hf & Hl & Ha).
      exists added. split; [exact Hf|]. split; [|exact Ha].
      intros n' [= <-]. rewrite length_seq in Hl. exact Hl.
    + exists []. simpl. rewrite app_nil_r.
      split; [reflexivity|]. split; [discriminate | constructor].
  - exists []. simpl. rewrite app_nil_r.
    split; [reflexivity|]. split; [intros; lia | constructor].
Qed.

(** X12.  [write_extxyz]: too few energies.  Under "metal", for an atom
    list of N chemical symbols that ase knows, position frames and [n]
    force frames of shape (N, 3) each, and [k] energies with [k < n] and
    no more than the position frames, the call appends the first [k]
    records and then raises [IndexError]. *)
Theorem write_extxyz_short_energy (Hartree Bohr : float) (self : AimsIO)
    (file : list Writer.StructureRecord) (positions forces : ndarray float)
    (energy : list float) (atoms : list string)
    (T n : nat) :
  units self = "metal" ->
  Forall (fun s => In s Ase.chemical_symbols) atoms ->
  shape positions = [T; length atoms; 3] ->
  shape forces = [n; length atoms; 3] ->
  length energy <= T ->
  length energy < n ->
  exists recs,
    Writer.write_extxyz Hartree Bohr self file positions forces energy atoms
      = (file ++ recs, Raise IndexError)
    /\ length recs = length energy.
Proof.
  intros Hu Hk Hp Hf HT Hn. unfold Writer.write_extxyz.
  rewrite Hu. simpl String.eqb. cbv iota.
  unfold shape0, Numpy.map at 1. cbn [shape]. rewrite Hf.
  change (py_index [n; length atoms; 3] 0) with (Ok (A:=nat) n). cbv iota.
  set (forces' := Numpy.map _ forces). set (energy' := List.map _ energy).
  set (k := length energy) in *.
  assert (Hseq : seq 0 n = seq 0 k ++ k :: seq (S k) (n - S k)).
  { replace n with (k + S (n - S k)) at 1 by lia.
    rewrite seq_app. reflexivity. }
  rewrite Hseq.
  assert (Hframe : forall i, i < T ->
            exists p, get0 positions i = Ok p
                      /\ Ase.atoms (Numpy.map (fun x => x * Bohr)%float p) atoms
                         = Ok (Numpy.map (fun x => x * Bohr)%float p)).
  { intros i Hi.
    destruct (get0_lt positions T [length atoms; 3] i Hp Hi) as (p & Ep & Sp).
    exists p. split; [exact Ep|].
    apply atoms_accepts; [exact Hk|]. unfold Numpy.map. cbn [shape]. exact Sp. }
  assert (Hkr : Writer.make_record Bohr positions forces' energy' atoms k
                = Raise IndexError).
  { unfold Writer.make_record, bind.
    destruct (get0 positions k) as [p|e] eqn:E1.
    - assert (HkT : k < T).
      { destruct (Nat.lt_ge_cases k T) as [H|H]; [exact H|].
        unfold get0 in E1. rewrite Hp in E1.
        destruct (Nat.ltb_spec k T); [lia | discriminate E1]. }
      destruct (Hframe k HkT) as (p' & Ep' & Ea).
      rewrite E1 in Ep'. injection Ep' as <-. rewrite Ea.
      unfold py_index.
      assert (E : nth_error energy' k = None).
      { apply nth_error_None. subst energy' k. rewrite length_map. lia. }
      rewrite E. reflexivity.
    - f_equal. eapply get0_raises, E1. }
  destruct (write_frames_until Bohr positions forces' energy' atoms
              (seq 0 k) k (seq (S k) (n - S k)) IndexError file)
    as (recs & Hw & Hl).
  - apply List.Forall_forall. intros i Hi. apply in_seq in Hi.
    unfold Writer.make_record, bind.
    destruct (Hframe i ltac:(lia)) as (p & -> & ->).
    destruct (py_index_lt energy' i) as (e & -> & _).
    { subst energy' k. rewrite length_map. lia. }
    destruct (get0_lt forces' n [length atoms; 3] i) as (f & -> & _);
      [subst forces'; unfold Numpy.map; cbn [shape]; exact Hf | lia |].
    reflexivity.
  - exact Hkr.
  - exists recs. rewrite length_seq in Hl. split; assumption.
Qed.

Lemma write_extxyz_short_energy_witness :
  Writer.write_extxyz 2 0.5 (fresh "metal") []
    (of_list3 1 3 [[[1; 2; 3]]; [[4; 5; 6]]; [[7; 8; 9]]]%float)
    (of_list3 1 3 [[[1; 0; 0]]; [[0; 1; 0]]]%float) [10]%float ["H"]
  = ([ {| Writer.rec_symbols := ["H"];
          Writer.rec_positions := mk_ndarray [1; 3] [0.5; 1; 1.5]%float;
          Writer.rec_energy := 20%float;
          Writer.rec_forces := mk_ndarray [1; 3] [4; 0; 0]%float;
          Writer.rec_pbc := false |} ],
     Raise IndexError).
Proof.
  destruct (write_extxyz_short_energy 2 0.5 (fresh "metal") []
              (of_list3 1 3 [[[1; 2; 3]]; [[4; 5; 6]]; [[7; 8; 9]]]%float)
              (of_list3 1 3 [[[1; 0; 0]]; [[0; 1; 0]]]%float) [10]%float ["H"]
              3 2)
    as (recs & Hw & _).
  - reflexivity.
  - constructor; [|constructor]. vm_compute. tauto.
  - reflexivity.
  - reflexivity.
  - simpl. lia.
  - simpl. lia.
  - rewrite Hw. vm_compute in Hw. injection Hw as <-. reflexivity.
Defined.

(** X13.  [calc_forces] and [write_extxyz]: a trajectory of at most one frame.
    For momenta of zero or one frame [calc_forces] returns the empty array
    of shape (0,), whatever the time array holds, and under "metal"
    [write_extxyz] with these forces appends nothing and returns. *)
Theorem single_frame_writes_nothing (Hartree Bohr : float) (self : AimsIO)
    (file : list Writer.StructureRecord)
    (positions momenta : ndarray float) (time energy : list float)
    (atoms : list string) (T : nat) (sh : list nat) :
  shape momenta = T :: sh -> T <= 1 -> units self = "metal" ->
  Forces.calc_forces momenta time = Ok (mk_ndarray [0] [])
  /\ Writer.write_extxyz Hartree Bohr self file positions
       (mk_ndarray [0] []) energy atoms
     = (file, Ok tt).
Proof.
  intros Hs HT Hu. split.
  - unfold Forces.calc_forces, shape0. rewrite Hs.
    change (py_index (T :: sh) 0) with (Ok (A:=nat) T).
    cbv beta iota delta [bind].
    replace (T - 1) with 0 by lia. reflexivity.
  - unfold Writer.write_extxyz. rewrite Hu. reflexivity.
Qed.

Lemma single_frame_writes_nothing_witness :
  Forces.calc_forces (of_list3 1 3 [[[1; 2; 3]]]%float) [0]%float
  = Ok (mk_ndarray [0] [])
  /\ Writer.write_extxyz 2 0.5 (fresh "metal") []
       (of_list3 1 3 [[[1; 2; 3]]]%float) (mk_ndarray [0] []) [10]%float ["H"]
     = ([], Ok tt).
Proof.
  apply (single_frame_writes_nothing 2 0.5 (fresh "metal") [] _ _ _ _ _ 1 [1; 3]);
    [reflexivity | lia | reflexivity].
Defined.

(* ===================================================================== *)
(** * Further properties of the trajectory reader *)
(* ===================================================================== *)

Section TrajectoryMore.

Import Trajectory.
Context {A : Type}.

Lemma index_of_absent (name : string) (cols : list string) :
  ~ In name cols -> index_of name cols = None.
Proof.
  induction cols as [|c cols IH]; intros H; [reflexivity|].
  simpl. destruct (String.eqb_spec c name) as [->|_].
  - exfalso. apply H. left. reflexivity.
  - rewrite IH; [reflexivity|]. intros Hin. apply H. right. exact Hin.
Qed.

Lemma index_of_present (name : string) (cols : list string) :
  In name cols -> exists j, index_of name cols = Some j /\ j < length cols.
Proof.
  induction cols as [|c cols IH]; intros H; [contradiction|].
  simpl. destruct (String.eqb_spec c name) as [->|Hne].
  - exists 0. split; [reflexivity | lia].
  - destruct H as [->|H]; [contradiction Hne; reflexivity|].
    destruct (IH H) as (j & -> & Hj). exists (S j). split; [reflexivity | lia].
Qed.

Lemma index_of_lt (name : string) (cols : list string) (j : nat) :
  index_of name cols = Some j -> j < length cols.
Proof.
  revert j. induction cols as [|c cols IH]; intros j; [discriminate|].
  simpl. destruct (String.eqb c name).
  - intros [= <-]. lia.
  - destruct (index_of name cols) as [k|]; [|discriminate].
    intros [= <-]. specialize (IH k eq_refl). lia.
Qed.

Lemma length_omap_all {X Y} (f : X -> option Y) (l : list X) :
  Forall (fun x => is_Some (f x)) l -> length (omap f l) = length l.
Proof.
  induction 1 as [|x l [y Hy] _ IH]; [reflexivity|].
  change (omap f (x :: l))
    with (match f x with Some y => y :: omap f l | None => omap f l end).
  rewrite Hy. cbn [length]. rewrite IH. reflexivity.
Qed.

(** The column of a rectangular table has one entry per row. *)
Lemma column_values_length (df : DataFrame A) (name : string) (vs : list A) :
  rectangular df -> column_values df name = Ok vs ->
  length vs = length (rows df).
Proof.
  intros Hrect. unfold column_values.
  destruct (index_of name (columns df)) as [j|] eqn:E; [|discriminate].
  intros [= <-]. apply length_omap_all.
  eapply List.Forall_impl; [|exact Hrect].
  intros r Hr. apply index_of_lt in E. cbv beta in Hr |- *.
  destruct (nth_error r j) eqn:En; [eexists; reflexivity|].
  apply nth_error_None in En. lia.
Qed.

(** A reshape that succeeds gives a well-formed array. *)
Lemma reshape_infer_wf (a b : ndarray A) (d0 d2 : nat) :
  reshape_infer a d0 d2 = Ok b ->
  wf b /\ exists d1, shape b = [d0; d1; d2].
Proof.
  unfold reshape_infer. cbv zeta.
  destruct (Nat.eqb_spec (d0 * d2) 0) as [_|Hk]; [discriminate|].
  destruct (Nat.eqb_spec (length (data a) mod (d0 * d2)) 0) as [Hm|_];
    [|discriminate].
  simpl. intros [= <-]. split; [|eauto].
  unfold wf. cbn [shape data size_of fold_right].
  pose proof (Nat.div_mod_eq (length (data a)) (d0 * d2)) as Hd.
  rewrite Hm in Hd. nia.
Qed.

(** The reshape of a block whose width is no multiple of three. *)
Lemma reshape_block_fails (df : DataFrame A) (p : string) :
  rectangular df -> 1 <= length (rows df) ->
  length (select (columns_contain df p) (columns df)) mod 3 <> 0 ->
  reshape_infer (loc_values df (columns_contain df p)) (length (rows df)) 3
  = Raise (ValueError "cannot reshape array").
Proof.
  intros Hrect Hrows Hk.
  pose proof (selected_rows_uniform df p Hrect) as Hu.
  unfold reshape_infer, loc_values. cbn [data].
  rewrite (concat_length_uniform _ _ Hu), length_map.
  set (R := length (rows df)) in *.
  set (n := length (select (columns_contain df p) (columns df))) in *.
  rewrite Nat.Div0.mul_mod_distr_l.
  destruct (Nat.eqb_spec (R * 3) 0) as [E|_]; [lia|].
  destruct (Nat.eqb_spec (R * (n mod 3)) 0) as [E|_]; [nia|].
  reflexivity.
Qed.

Lemma reshape_infer_raises (a : ndarray A) (d0 d2 : nat) (e : exn) :
  reshape_infer a d0 d2 = Raise e -> e = ValueError "cannot reshape array".
Proof.
  unfold reshape_infer. cbv zeta.
  destruct (_ || _); [intros [= <-]; reflexivity | discriminate].
Qed.

End TrajectoryMore.

(** X14.  [read_trajdump]: a table without a "Time" column.  The column is
    looked up before anything is reshaped: the reader raises
    [KeyError("Time")], whatever the other columns and the rows are. *)
Theorem read_trajdump_missing_time {A : Type} (astype_int : A -> Z)
    (df : Trajectory.DataFrame A) :
  ~ In "Time" (Trajectory.columns df) ->
  Trajectory.read_trajdump astype_int df = Raise (KeyError "Time").
Proof.
  intros H. unfold Trajectory.read_trajdump, Trajectory.column_values.
  rewrite (index_of_absent _ _ H). reflexivity.
Qed.

Lemma read_trajdump_missing_time_witness :
  Trajectory.read_trajdump (fun z : Z => z)
    (Trajectory.mkDataFrame ["time"; "pos1x"; "pos1y"] [[0; 1; 2]%Z])
  = Raise (KeyError "Time").
Proof.
  apply read_trajdump_missing_time. simpl.
  intros [H|[H|[H|[]]]]; discriminate H.
Defined.

(** X15.  [read_trajdump]: columns that do not come in triples.  For a
    rectangular table with a "Time" column and at least one row, when the
    number of position columns or the number of momentum columns is no
    multiple of three, the reader raises the [ValueError] of the
    reshape. *)
Theorem read_trajdump_not_triples {A : Type} (astype_int : A -> Z)
    (df : Trajectory.DataFrame A) :
  Trajectory.rectangular df ->
  1 <= length (Trajectory.rows df) ->
  In "Time" (Trajectory.columns df) ->
  length (Trajectory.select (Trajectory.columns_contain df "pos")
                            (Trajectory.columns df)) mod 3 <> 0
  \/ length (Trajectory.select (Trajectory.columns_contain df "mom")
                               (Trajectory.columns df)) mod 3 <> 0 ->
  Trajectory.read_trajdump astype_int df
  = Raise (ValueError "cannot reshape array").
Proof.
  intros Hrect Hrows Htime Hk.
  unfold Trajectory.read_trajdump, Trajectory.column_values.
  destruct (index_of_present _ _ Htime) as (j & -> & _).
  cbv beta iota delta [bind].
  destruct (reshape_infer (Trajectory.loc_values df
                             (Trajectory.columns_contain df "pos")) _ 3)
    as [positions|e] eqn:Ep.
  - destruct Hk as [Hk|Hk].
    + rewrite (reshape_block_fails df "pos" Hrect Hrows Hk) in Ep.
      discriminate Ep.
    + rewrite (reshape_block_fails df "mom" Hrect Hrows Hk). reflexivity.
  - f_equal. eapply reshape_infer_raises, Ep.
Qed.

Lemma read_trajdump_not_triples_witness :
  Trajectory.read_trajdump (fun z : Z => z)
    (Trajectory.mkDataFrame ["Time"; "pos1x"; "pos1y"; "mom1x"; "mom1y"; "mom1z"]
                            [[0; 1; 2; 3; 4; 5]%Z])
  = Raise (ValueError "cannot reshape array").
Proof.
  apply read_trajdump_not_triples.
  - repeat constructor.
  - simpl. lia.
  - left. reflexivity.
  - left. vm_compute. discriminate.
Defined.

(** X16.  [read_trajdump] and [calc_forces]: what the reader returns fits the
    force estimator.  For a rectangular table on which the reader returns,
    the time array has one entry per row, and [calc_forces] on the momenta
    and the time returns a series with one frame less than the table has
    rows: it raises nothing. *)
Theorem read_trajdump_then_calc_forces (astype_int : float -> Z)
    (df : Trajectory.DataFrame float)
    (positions momenta : ndarray float) (states : ndarray Z)
    (time : list float) :
  Trajectory.rectangular df ->
  Trajectory.read_trajdump astype_int df
  = Ok (positions, momenta, states, time) ->
  length time = length (Trajectory.rows df)
  /\ exists forces,
       Forces.calc_forces momenta time = Ok forces
       /\ shape0 forces = Ok (length (Trajectory.rows df) - 1).
Proof.
  intros Hrect. unfold Trajectory.read_trajdump. cbv zeta.
  destruct (Trajectory.column_values df "Time") as [time'|] eqn:Et;
    [|discriminate].
  cbv beta iota delta [bind].
  destruct (reshape_infer (Trajectory.loc_values df
                             (Trajectory.columns_contain df "pos")) _ 3)
    as [positions'|]; [|discriminate].
  destruct (reshape_infer (Trajectory.loc_values df
                             (Trajectory.columns_contain df "mom")) _ 3)
    as [momenta'|] eqn:Em; [|discriminate].
  intros [= <- <- <- <-].
  pose proof (column_values_length df "Time" time' Hrect Et) as Hlen.
  split; [exact Hlen|].
  destruct (reshape_infer_wf _ _ _ _ Em) as (Hwf & d1 & Hs).
  destruct (calc_forces_entries momenta' time' _ _ Hwf Hs ltac:(lia))
    as (forces & fs & Hc & Hsh & _).
  exists forces. split; assumption.
Qed.

Lemma read_trajdump_then_calc_forces_witness :
  let df := Trajectory.mkDataFrame
              ["Time"; "pos1x"; "pos1y"; "pos1z"; "mom1x"; "mom1y"; "mom1z";
               "StateID"]
              [[0; 1; 2; 3; 4; 5; 6; 1]%float;
               [1; 1; 2; 3; 5; 5; 6; 1]%float] in
  exists positions momenta states time forces,
    Trajectory.read_trajdump (fun _ => 1%Z) df
    = Ok (positions, momenta, states, time)
    /\ Forces.calc_forces momenta time = Ok forces
    /\ shape0 forces = Ok 1.
Proof.
  intros df.
  destruct (Trajectory.read_trajdump (fun _ => 1%Z) df)
    as [[[[positions momenta] states] time]|e] eqn:E;
    [|vm_compute in E; discriminate E].
  destruct (read_trajdump_then_calc_forces (fun _ => 1%Z) df
              positions momenta states time)
    as (_ & forces & Hc & Hs); [repeat constructor | exact E |].
  exists positions, momenta, states, time, forces.
  split; [reflexivity|]. split; [exact Hc | exact Hs].
Defined.

(* ===================================================================== *)
(** * Properties of [read_energy] *)
(* ===================================================================== *)

Section EnergyFacts.

Import Energy.

(** The fields of a text that holds a separator: those up to it, which
    are one or more, and then those of what follows it. *)
Lemma split_on_sep (sep : ascii) (a b : string) :
  exists l0, l0 <> []
             /\ PyStr.split_on sep (a ++ String sep b)
                = l0 ++ PyStr.split_on sep b.
Proof.
  induction a as [|c a (l0 & Hne & IH)].
  - exists [EmptyString]. split; [discriminate|].
    rewrite append_empty_l. simpl. rewrite Ascii.eqb_refl. reflexivity.
  - rewrite append_cons. simpl. destruct (Ascii.eqb c sep).
    + exists (EmptyString :: l0). split; [discriminate|].
      rewrite IH. reflexivity.
    + rewrite IH. destruct l0 as [|t ts]; [congruence|].
      exists (String c t :: ts). split; [discriminate | reflexivity].
Qed.

Lemma last_field_after (a b : string) :
  PyStr.contains "." b = false -> last_field (a ++ String "." b) = b.
Proof.
  intros Hb. unfold last_field.
  destruct (split_on_sep "." a b) as (l0 & _ & ->).
  rewrite (split_on_clean "." b (contains_char_chars "." b Hb)).
  apply last_last.
Qed.

Section Columns.

Context {A : Type}.

Lemma position_in_bounds (n : nat) (j : Z) :
  (- Z.of_nat n <= j < Z.of_nat n)%Z ->
  position n j = Some (Z.to_nat (j mod Z.of_nat n))
  /\ Z.to_nat (j mod Z.of_nat n) < n.
Proof.
  intros Hj. unfold position.
  assert (Hn : (0 < Z.of_nat n)%Z) by lia.
  pose proof (Z.mod_pos_bound j (Z.of_nat n) Hn) as Hm.
  split; [|lia].
  destruct (Z.leb_spec 0 j).
  - destruct (Z.ltb_spec j (Z.of_nat n)); [|lia]. simpl.
    rewrite Z.mod_small by lia. reflexivity.
  - simpl. destruct (Z.leb_spec (- Z.of_nat n) j); [|lia].
    destruct (Z.ltb_spec j 0); [|lia]. simpl.
    f_equal. f_equal.
    apply (Z.mod_unique j (Z.of_nat n) (-1)); lia.
Qed.

Lemma position_out_of_bounds (n : nat) (j : Z) :
  (j < - Z.of_nat n \/ Z.of_nat n <= j)%Z -> position n j = None.
Proof.
  intros Hj. unfold position.
  destruct (Z.leb_spec 0 j); destruct (Z.ltb_spec j (Z.of_nat n));
    destruct (Z.leb_spec (- Z.of_nat n) j); destruct (Z.ltb_spec j 0);
    simpl; try reflexivity; lia.
Qed.

Lemma positions_of_in_bounds (n : nat) (idx : list Z) :
  Forall (fun j => (- Z.of_nat n <= j < Z.of_nat n)%Z) idx ->
  positions_of n idx
  = Some (List.map (fun j => Z.to_nat (j mod Z.of_nat n)) idx).
Proof.
  induction 1 as [|j idx Hj _ IH]; [reflexivity|].
  simpl. destruct (position_in_bounds n j Hj) as [-> _]. rewrite IH.
  reflexivity.
Qed.

Lemma positions_of_out_of_bounds (n : nat) (idx : list Z) :
  Exists (fun j => (j < - Z.of_nat n \/ Z.of_nat n <= j)%Z) idx ->
  positions_of n idx = None.
Proof.
  induction 1 as [j idx Hj|j idx _ IH]; simpl.
  - rewrite (position_out_of_bounds n j Hj). reflexivity.
  - rewrite IH. destruct (position n j); reflexivity.
Qed.

(** The entries that an index array takes from a row as long as the
    table is wide. *)
Lemma take_columns_entries (n : nat) (row : list A) (idx : list Z) :
  length row = n ->
  Forall (fun j => (- Z.of_nat n <= j < Z.of_nat n)%Z) idx ->
  Forall2 (fun j x => nth_error row (Z.to_nat (j mod Z.of_nat n)) = Some x)
          idx
          (take_columns (List.map (fun j => Z.to_nat (j mod Z.of_nat n)) idx)
                        row).
Proof.
  intros Hrow. induction 1 as [|j idx Hj _ IH]; [constructor|].
  destruct (position_in_bounds n j Hj) as [_ Hlt].
  destruct (nth_error row (Z.to_nat (j mod Z.of_nat n))) as [x|] eqn:E.
  - unfold take_columns in *. cbn [List.map].
    change (omap ?f (?p :: ?ps))
      with (match f p with Some y => y :: omap f ps | None => omap f ps end).
    cbv beta. rewrite E. constructor; [exact E | exact IH].
  - apply nth_error_None in E. lia.
Qed.

End Columns.

Lemma Forall2_map_shift {X} (P : X -> float -> Prop) (shift : float)
    (xs : list X) (vs : list float) :
  Forall2 P xs vs ->
  Forall2 (fun j x => exists v, P j v /\ x = (v - shift)%float)
          xs (List.map (fun v => (v - shift)%float) vs).
Proof.
  induction 1 as [|j v xs vs Hjv _ IH]; simpl; constructor; eauto.
Qed.

End EnergyFacts.

(** X17.  [read_energy]: the name of the energy file.  The name is "PotEn."
    followed by what stands after the last point of the path text: a path
    that ends in a point followed by a text [ext] without points gives
    "PotEn." followed by [ext], whatever precedes; a path without any
    point gives "PotEn." followed by the whole path. *)
Theorem poten_name_after_last_point (ext : string) :
  PyStr.contains "." ext = false ->
  Energy.poten_name ext = ("PotEn." ++ ext)%string
  /\ forall before : string,
       Energy.poten_name (before ++ String "." ext) = ("PotEn." ++ ext)%string.
Proof.
  intros H. unfold Energy.poten_name. split.
  - unfold Energy.last_field.
    rewrite (split_on_clean "." ext (contains_char_chars "." ext H)).
    reflexivity.
  - intros before. rewrite (last_field_after before ext H). reflexivity.
Qed.

Lemma poten_name_after_last_point_witness :
  Energy.poten_name "/data/run.3/0000/TrajDump.1" = "PotEn.1"
  /\ Energy.poten_name "1" = "PotEn.1".
Proof.
  destruct (poten_name_after_last_point "1") as [H1 H2];
    [vm_compute; reflexivity|].
  split; [|exact H1].
  exact (H2 "/data/run.3/0000/TrajDump").
Defined.

(** X18.  [read_energy]: the values.  For a rectangular energy table, an object
    whose [ex_shift] is assigned, and state indices within the columns
    (counting from the end when negative), the call returns an array of
    shape (rows, len(state)) whose entry [(i, k)] is the value of row [i]
    in column [state[k]] minus [ex_shift]. *)
Theorem read_energy_values (self : AimsIO)
    (poten_dump : Trajectory.DataFrame float) (state : list Z)
    (shift : float) :
  Trajectory.rectangular poten_dump ->
  ex_shift self = Some shift ->
  Forall (fun j => (- Z.of_nat (length (Trajectory.columns poten_dump)) <= j
                    < Z.of_nat (length (Trajectory.columns poten_dump)))%Z)
         state ->
  exists energies,
    Energy.read_energy self poten_dump state = inl energies
    /\ shape energies = [length (Trajectory.rows poten_dump); length state]
    /\ forall i row,
         nth_error (Trajectory.rows poten_dump) i = Some row ->
         exists e,
           get0 energies i = Ok e
           /\ Forall2
                (fun j x =>
                   exists v,
                     nth_error row
                       (Z.to_nat
                          (j mod Z.of_nat (length (Trajectory.columns poten_dump))))
                     = Some v
                     /\ x = (v - shift)%float)
                state (data e).
Proof.
  intros Hrect Hshift Hstate.
  set (n := length (Trajectory.columns poten_dump)) in *.
  set (js := List.map (fun j => Z.to_nat (j mod Z.of_nat n)) state).
  unfold Energy.read_energy, Energy.iloc_columns.
  fold n. rewrite (positions_of_in_bounds n state Hstate).
  fold js. rewrite Hshift.
  eexists. split; [reflexivity|]. split.
  { unfold Numpy.map. cbn [shape]. subst js. rewrite length_map. reflexivity. }
  intros i row Hi. rewrite get0_map.
  assert (Hu : Forall (fun l => length l = length js)
                      (List.map (Energy.take_columns js)
                                (Trajectory.rows poten_dump))).
  { apply List.Forall_map. eapply List.Forall_impl; [|exact Hrect].
    intros r Hr. cbv beta in Hr. fold n in Hr.
    pose proof (take_columns_entries n r state Hr Hstate) as H2.
    apply Forall2_length in H2. fold js in H2. rewrite <- H2.
    subst js. rewrite length_map. reflexivity. }
  assert (Hlt : i < length (Trajectory.rows poten_dump))
    by (apply nth_error_Some; congruence).
  unfold get0. cbn [shape data].
  destruct (Nat.ltb_spec i (length (Trajectory.rows poten_dump))); [|lia].
  eexists. split; [reflexivity|]. cbn [Numpy.map data size_of fold_right].
  rewrite Nat.mul_1_r.
  rewrite (concat_chunk (length js) _ i (Energy.take_columns js row) Hu).
  - apply Forall2_map_shift.
    assert (Hrow : length row = n).
    { unfold Trajectory.rectangular in Hrect.
      rewrite List.Forall_forall in Hrect.
      apply (Hrect row). eapply nth_error_In, Hi. }
    exact (take_columns_entries n row state Hrow Hstate).
  - rewrite nth_error_map, Hi. reflexivity.
Qed.

Lemma read_energy_values_witness :
  exists energies,
    Energy.read_energy (set_ex_shift (fresh "metal") 78.5)
      (Trajectory.mkDataFrame ["Time"; "E0"; "E1"]
         [[0; -78; -77.5]%float; [1; -78.25; -77]%float])
      [(-1)%Z]
    = inl energies
    /\ shape energies = [2; 1].
Proof.
  destruct (read_energy_values (set_ex_shift (fresh "metal") 78.5)
              (Trajectory.mkDataFrame ["Time"; "E0"; "E1"]
                 [[0; -78; -77.5]%float; [1; -78.25; -77]%float])
              [(-1)%Z] 78.5%float)
    as (energies & He & Hs & _).
  - repeat constructor.
  - reflexivity.
  - constructor; [simpl; lia | constructor].
  - exists energies. split; [exact He | exact Hs].
Defined.

(** X19.  [read_energy]: a state index outside of the columns.  When some
    index of the state array is below minus the number of columns or not
    below that number, the call raises [IndexError], whether or not
    [ex_shift] is assigned. *)
Theorem read_energy_out_of_bounds (self : AimsIO)
    (poten_dump : Trajectory.DataFrame float) (state : list Z) :
  Exists (fun j => (j < - Z.of_nat (length (Trajectory.columns poten_dump))
                    \/ Z.of_nat (length (Trajectory.columns poten_dump)) <= j)%Z)
         state ->
  Energy.read_energy self poten_dump state = inr (Energy.Builtin IndexError).
Proof.
  intros H. unfold Energy.read_energy, Energy.iloc_columns.
  rewrite (positions_of_out_of_bounds _ _ H). reflexivity.
Qed.

Lemma read_energy_out_of_bounds_witness :
  Energy.read_energy (fresh "metal")
    (Trajectory.mkDataFrame ["Time"; "E0"; "E1"] [[0; -78; -77.5]%float])
    [3%Z]
  = inr (Energy.Builtin IndexError).
Proof.
  apply read_energy_out_of_bounds. left. simpl. lia.
Defined.

(** X20.  [get_ex_shift] and [read_energy]: a control file without the key.
    After [get_ex_shift] has returned on a fresh object and a control file
    in which no line contains the key, [read_energy] with state indices
    within the columns raises [AttributeError]: the field [ex_shift] does
    not exist. *)
Theorem read_energy_without_ex_shift (u control : string)
    (poten_dump : Trajectory.DataFrame float) (state : list Z) :
  Control.key_absent control ->
  Forall (fun j => (- Z.of_nat (length (Trajectory.columns poten_dump)) <= j
                    < Z.of_nat (length (Trajectory.columns poten_dump)))%Z)
         state ->
  exists self,
    Control.get_ex_shift (fresh u) control = Ok self
    /\ Energy.read_energy self poten_dump state
       = inr (Energy.AttributeError "ex_shift").
Proof.
  intros Hk Hstate. exists (fresh u). split.
  - unfold Control.get_ex_shift. apply scan_key_absent, Hk.
  - unfold Energy.read_energy, Energy.iloc_columns.
    rewrite (positions_of_in_bounds _ _ Hstate). reflexivity.
Qed.

Lemma read_energy_without_ex_shift_witness :
  exists self,
    Control.get_ex_shift (fresh "metal") "NumStates=2
" = Ok self
    /\ Energy.read_energy self
         (Trajectory.mkDataFrame ["Time"; "E0"; "E1"] [[0; -78; -77.5]%float])
         [1%Z]
       = inr (Energy.AttributeError "ex_shift").
Proof.
  apply read_energy_without_ex_shift.
  - unfold Control.key_absent. vm_compute PyStr.readlines.
    constructor; [vm_compute; reflexivity | constructor].
  - constructor; [simpl; lia | constructor].
Defined.

(* ===================================================================== *)
(** * Properties of [gen_extxyz_for_trajdump_files] *)
(* ===================================================================== *)

Section PipelineFacts.

Import Pipeline.

Lemma endswith_app (a b : string) : endswith (a ++ b) b = true.
Proof.
  induction a as [|c a IH].
  - rewrite append_empty_l. destruct b; cbn [endswith];
      rewrite String.eqb_refl; reflexivity.
  - rewrite append_cons. cbn [endswith]. rewrite IH. apply orb_true_r.
Qed.

Lemma csv_name_is_output (name : string) : is_output (csv_name name) = true.
Proof.
  unfold is_output, csv_name.
  change (name ++ ".csv")%string with (name ++ ("." ++ "csv"))%string.
  rewrite <- append_assoc, endswith_app. reflexivity.
Qed.

Lemma extxyz_name_is_output (name : string) (state : Z) :
  is_output (extxyz_name name state) = true.
Proof.
  unfold is_output, extxyz_name.
  change ".extxyz" with ("." ++ "extxyz")%string.
  rewrite <- !append_assoc, endswith_app. apply orb_true_r.
Qed.

Lemma not_after_cases (a b : string) :
  not_after a b <-> OrderedTypeEx.String_as_OT.lt a b \/ a = b.
Proof.
  unfold not_after, String.ltb.
  pose proof (OrderedTypeEx.String_as_OT.cmp_antisym a b) as Ha.
  unfold OrderedTypeEx.String_as_OT.cmp in Ha.
  destruct (String.compare b a) eqn:E.
  - apply OrderedTypeEx.String_as_OT.cmp_eq in E. subst b.
    split; [right; reflexivity | reflexivity].
  - split; [discriminate|]. intros [H| ->].
    + apply OrderedTypeEx.String_as_OT.cmp_lt in H.
      unfold OrderedTypeEx.String_as_OT.cmp in H. rewrite H in Ha.
      discriminate Ha.
    + pose proof (proj2 (OrderedTypeEx.String_as_OT.cmp_eq b b) eq_refl) as E2.
      unfold OrderedTypeEx.String_as_OT.cmp in E2. congruence.
  - split; [|reflexivity]. intros _. left.
    apply OrderedTypeEx.String_as_OT.cmp_lt.
    unfold OrderedTypeEx.String_as_OT.cmp. rewrite Ha. reflexivity.
Qed.

Lemma not_after_trans (a b c : string) :
  not_after a b -> not_after b c -> not_after a c.
Proof.
  rewrite !not_after_cases. intros [H1| ->] [H2| ->]; auto.
  left. eapply OrderedTypeEx.String_as_OT.lt_trans; eassumption.
Qed.

Lemma ltb_not_after (a b : string) : String.ltb a b = true -> not_after a b.
Proof.
  intros H. apply not_after_cases. left.
  apply OrderedTypeEx.String_as_OT.cmp_lt.
  unfold OrderedTypeEx.String_as_OT.cmp, String.ltb in *.
  destruct (String.compare a b); [discriminate | reflexivity | discriminate].
Qed.

Lemma In_insert (x y : string) (l : list string) :
  In x (insert y l) <-> x = y \/ In x l.
Proof.
  induction l as [|z l IH]; simpl.
  - split; intros [H|H]; auto.
  - destruct (String.ltb z y); simpl; rewrite ?IH; intuition auto.
Qed.

Lemma In_sorted (x : string) (l : list string) : In x (sorted l) <-> In x l.
Proof.
  induction l as [|y l IH]; simpl; [reflexivity|].
  rewrite In_insert, IH. intuition auto.
Qed.

Lemma insert_ascending (x : string) (l : list string) :
  Sorted.StronglySorted not_after l -> Sorted.StronglySorted not_after (insert x l).
Proof.
  induction 1 as [|y l Hs IH Hy]; simpl.
  - constructor; constructor.
  - destruct (String.ltb y x) eqn:E.
    + constructor; [exact IH|].
      apply List.Forall_forall. intros z Hz. apply In_insert in Hz.
      destruct Hz as [->|Hz].
      * apply ltb_not_after, E.
      * rewrite List.Forall_forall in Hy. apply Hy, Hz.
    + constructor; [constructor; assumption|].
      constructor; [exact E|].
      eapply List.Forall_impl; [|exact Hy].
      intros z Hz. eapply not_after_trans; [exact E | exact Hz].
Qed.

Lemma sorted_ascending (l : list string) : Sorted.StronglySorted not_after (sorted l).
Proof.
  induction l as [|x l IH]; simpl; [constructor|].
  apply insert_ascending, IH.
Qed.

Lemma filter_ascending (p : string -> bool) (l : list string) :
  Sorted.StronglySorted not_after l -> Sorted.StronglySorted not_after (List.filter p l).
Proof.
  induction 1 as [|y l Hs IH Hy]; simpl; [constructor|].
  destruct (p y); [|exact IH].
  constructor; [exact IH|].
  apply List.Forall_forall. intros z Hz. apply List.filter_In in Hz.
  rewrite List.Forall_forall in Hy. apply Hy, Hz.
Qed.

End PipelineFacts.

(** X21.  [gen_extxyz_for_trajdump_files]: the files of the loop.  The loop
    converts exactly the entries of the directory whose name begins with
    "TrajDump" and ends neither in "csv" nor in "extxyz", in ascending
    order of their names. *)
Theorem files_to_convert_selection (entries : list string) :
  (forall name,
     In name (Pipeline.files_to_convert entries)
     <-> In name entries
         /\ PyStr.startswith name "TrajDump" = true
         /\ Pipeline.endswith name "csv" = false
         /\ Pipeline.endswith name "extxyz" = false)
  /\ Sorted.StronglySorted (fun a b => String.ltb b a = false)
                    (Pipeline.files_to_convert entries).
Proof.
  unfold Pipeline.files_to_convert. split.
  - intros name. rewrite List.filter_In, In_sorted, List.filter_In.
    unfold Pipeline.matches_pattern, Pipeline.is_output.
    rewrite negb_true_iff, orb_false_iff. tauto.
  - apply filter_ascending, sorted_ascending.
Qed.

(** X22.  [gen_extxyz_for_trajdump_files]: the loop never takes up what it
    writes.  Whatever the directory holds, no table name
    [file.name + ".csv"] and no structure name
    [file.name + "-state-<n>.extxyz"] is among the files that the loop
    converts. *)
Theorem outputs_not_converted (entries : list string) (name : string)
    (state : Z) :
  ~ In (Pipeline.csv_name name) (Pipeline.files_to_convert entries)
  /\ ~ In (Pipeline.extxyz_name name state)
          (Pipeline.files_to_convert entries).
Proof.
  unfold Pipeline.files_to_convert. split; intros H;
    apply List.filter_In in H; destruct H as [_ H];
    apply negb_true_iff in H.
  - rewrite csv_name_is_output in H. discriminate H.
  - rewrite extxyz_name_is_output in H. discriminate H.
Qed.

Section NamingFacts.

Context {A : Type}.
Variable astype_int : A -> Z.

(** What the reader returns as states, and that a table it accepts has a
    row. *)
Lemma read_trajdump_states (df : Trajectory.DataFrame A) :
  returns (Trajectory.read_trajdump astype_int df) = true ->
  1 <= length (Trajectory.rows df)
  /\ exists positions momenta time,
       Trajectory.read_trajdump astype_int df
       = Ok (positions, momenta,
             Numpy.map astype_int
               (Trajectory.loc_values df
                  (Trajectory.columns_contain df "StateID")),
             time).
Proof.
  unfold Trajectory.read_trajdump. cbv zeta.
  destruct (Trajectory.column_values df "Time") as [time|];
    [|discriminate].
  cbv beta iota delta [bind].
  destruct (reshape_infer (Trajectory.loc_values df
                             (Trajectory.columns_contain df "pos")) _ 3)
    as [positions|] eqn:Ep; [|discriminate].
  destruct (reshape_infer (Trajectory.loc_values df
                             (Trajectory.columns_contain df "mom")) _ 3)
    as [momenta|]; [|discriminate].
  intros _. split; [|eauto].
  unfold reshape_infer in Ep. cbv zeta in Ep.
  destruct (Nat.eqb_spec (length (Trajectory.rows df) * 3) 0) as [E|E];
    [discriminate Ep | lia].
Qed.

Lemma select_all_false {X} (mask : list bool) (row : list X) :
  Forall (fun b => b = false) mask -> Trajectory.select mask row = [].
Proof.
  intros H. revert row. induction H as [|b mask -> _ IH]; intros row.
  - reflexivity.
  - destruct row as [|x row]; [reflexivity|]. simpl. apply IH.
Qed.

End NamingFacts.

(** X23.  [gen_extxyz_for_trajdump_files]: a table without a state column.
    When the reader returns on a table none of whose column names contains
    "StateID", the name of the structure file cannot be formed:
    [states[0][0]] raises [IndexError]. *)
Theorem output_name_without_state_column {A : Type} (astype_int : A -> Z)
    (name : string) (df : Trajectory.DataFrame A) :
  returns (Trajectory.read_trajdump astype_int df) = true ->
  Forall (fun c => PyStr.contains "StateID" c = false)
         (Trajectory.columns df) ->
  Pipeline.output_name astype_int name df = Raise IndexError.
Proof.
  intros Hret Hcols.
  destruct (read_trajdump_states astype_int df Hret)
    as (Hrows & positions & momenta & time & Hr).
  unfold Pipeline.output_name. rewrite Hr. cbv beta iota delta [bind].
  unfold Pipeline.first_state. rewrite get0_map.
  unfold Trajectory.loc_values.
  rewrite (select_all_false (Trajectory.columns_contain df "StateID")
             (Trajectory.columns df)).
  2:{ unfold Trajectory.columns_contain. apply List.Forall_map.
      eapply List.Forall_impl; [|exact Hcols]. intros c Hc. exact Hc. }
  unfold get0. cbn [shape data].
  destruct (Nat.ltb_spec 0 (length (Trajectory.rows df))); [|lia].
  reflexivity.
Qed.

Lemma output_name_without_state_column_witness :
  Pipeline.output_name (fun z : Z => z) "TrajDump.1"
    (Trajectory.mkDataFrame
       ["Time"; "pos1x"; "pos1y"; "pos1z"; "mom1x"; "mom1y"; "mom1z"]
       [[0; 1; 2; 3; 4; 5; 6]%Z])
  = Raise IndexError.
Proof.
  apply output_name_without_state_column.
  - vm_compute. reflexivity.
  - repeat (constructor; [vm_compute; reflexivity|]). constructor.
Defined.

(** X24.  [gen_extxyz_for_trajdump_files]: the state in the file name.  When
    the reader returns on a rectangular table with a state column, the
    structure file is named after the trajectory file and the state of the
    first row in the first state column, converted to an integer, whatever
    the states of the later rows are. *)
Theorem output_name_first_state {A : Type} (astype_int : A -> Z)
    (name : string) (df : Trajectory.DataFrame A)
    (row0 : list A) (more : list (list A)) (v : A) (vs : list A) :
  Trajectory.rectangular df ->
  returns (Trajectory.read_trajdump astype_int df) = true ->
  Trajectory.rows df = row0 :: more ->
  Trajectory.select (Trajectory.columns_contain df "StateID") row0 = v :: vs ->
  Pipeline.output_name astype_int name df
  = Ok (name ++ "-state-" ++ PyRepr.str_of_Z (astype_int v) ++ ".extxyz")%string.
Proof.
  intros Hrect Hret Hrows Hsel.
  destruct (read_trajdump_states astype_int df Hret)
    as (_ & positions & momenta & time & Hr).
  unfold Pipeline.output_name. rewrite Hr. cbv beta iota delta [bind].
  unfold Pipeline.first_state. rewrite get0_map.
  assert (Hk : length (Trajectory.select
                         (Trajectory.columns_contain df "StateID")
                         (Trajectory.columns df)) = S (length vs)).
  { rewrite (select_length _ _ row0).
    - rewrite Hsel. reflexivity.
    - unfold Trajectory.columns_contain. rewrite length_map. reflexivity.
    - unfold Trajectory.columns_contain. rewrite length_map.
      unfold Trajectory.rectangular in Hrect. rewrite Hrows in Hrect.
      inversion Hrect; assumption. }
  unfold Trajectory.loc_values. rewrite Hk, Hrows.
  unfold get0. cbn [shape data length List.map concat].
  rewrite Hsel. cbn [Nat.ltb Nat.leb size_of fold_right Nat.mul skipn].
  cbv beta iota delta [bind].
  unfold Numpy.map. cbn [shape data Nat.ltb Nat.leb].
  rewrite Nat.mul_1_r.
  cbn [app firstn List.map size_of fold_right Nat.mul skipn py_index nth_error
       data].
  reflexivity.
Qed.

Lemma output_name_first_state_witness :
  Pipeline.output_name (fun z : Z => z) "TrajDump.1"
    (Trajectory.mkDataFrame
       ["Time"; "pos1x"; "pos1y"; "pos1z"; "mom1x"; "mom1y"; "mom1z"; "StateID"]
       [[0; 1; 2; 3; 4; 5; 6; 2]%Z; [1; 1; 2; 3; 4; 5; 6; 1]%Z])
  = Ok "TrajDump.1-state-2.extxyz".
Proof.
  apply (output_name_first_state (fun z : Z => z) "TrajDump.1" _
           [0; 1; 2; 3; 4; 5; 6; 2]%Z [[1; 1; 2; 3; 4; 5; 6; 1]%Z] 2%Z []).
  - repeat constructor.
  - vm_compute. reflexivity.
  - reflexivity.
  - vm_compute. reflexivity.
Defined.
